(** * Grafana AWS CloudWatch Logs datasource: the query execution engine

    A shallow embedding of [datasource.go] (package [main]) and the
    properties of its query paths: the paginated log retrieval
    ([getLogEvent]), the Insights job handling ([handleInsightsQuery]), the
    legend formatter ([formatLegend]), the suggestion query
    ([metricFindQuery]) and the dispatcher ([Query]).

    Go values are embedded as follows.
    - [string] is a sequence of bytes: Rocq's [string] of [ascii].
    - [int], [int64] are [Z]; every number the engine computes with is a
      length or a millisecond clock, far from the 64-bit bounds.
    - a pointer that the request decoder may leave [nil] is an [option];
      dereferencing [None] is the outcome [Panic].
    - [map[string]V] is stdpp's [gmap string V]; a [range] over a map takes
      the order it visits the entries in as an argument.
    - [(T, error)] results, the panics and the requests sent to the remote
      service are carried by the monad [M]. *)

From Stdlib Require Import ZArith Ascii String SpecFloat.
From stdpp Require Import gmap strings list fin_maps sorting.

Open Scope string_scope.
Open Scope list_scope.
Open Scope Z_scope.

(** ** Outcomes of a call *)

Definition Error := string.

(** What a Go call comes to: a value, a non-nil [error], or a run-time
    panic (nil dereference, index out of range). *)
Inductive Outcome (A : Type) : Type :=
| Ok (a : A)
| Err (e : Error)
| Panic.
Arguments Ok {A} a.
Arguments Err {A} e.
Arguments Panic {A}.

(** The requests the engine sends to the CloudWatch Logs service; one entry
    per request, so one per page of a paginated operation. *)
Inductive Op : Type :=
| OpFilterLogEvents
| OpGetLogEvents
| OpStartQuery
| OpDescribeQueries
| OpGetQueryResults
| OpStopQuery
| OpDescribeLogGroups
| OpDescribeLogStreams.

#[global] Instance Op_eq_dec : EqDecision Op.
Proof. solve_decision. Defined.

(** A computation: the requests it sent, in order, and its outcome. *)
Definition M (A : Type) : Type := list Op * Outcome A.

Definition ret {A} (a : A) : M A := ([], Ok a).
Definition raise {A} (e : Error) : M A := ([], Err e).
Definition panic {A} : M A := ([], Panic).
Definition tell (op : Op) : M unit := ([op], Ok tt).

Definition bind {A B} (m : M A) (f : A -> M B) : M B :=
  match m with
  | (tr, Ok a) => let '(tr', r) := f a in (tr ++ tr', r)
  | (tr, Err e) => (tr, Err e)
  | (tr, Panic) => (tr, Panic)
  end.

Definition requests {A} (m : M A) : list Op := fst m.
Definition outcome {A} (m : M A) : Outcome A := snd m.

Declare Scope go_scope.
Delimit Scope go_scope with go.
Notation "'let*' x ':=' m 'in' k" := (bind m (fun x => k))
  (at level 10, x pattern, m at level 100, k at level 200) : go_scope.
Notation "m ;;; k" := (bind m (fun _ => k))
  (at level 100, right associativity) : go_scope.
Open Scope go_scope.

(** [v, err := f(...); if err != nil { return nil, err }] *)
Definition try {A} (r : Error + A) : M A :=
  match r with
  | inl e => raise e
  | inr a => ret a
  end.

(** [*p] *)
Definition deref {A} (p : option A) : M A :=
  match p with
  | Some a => ret a
  | None => panic
  end.

(** [len(s)] *)
Definition len {A} (l : list A) : Z := Z.of_nat (length l).

(** ** The Go standard library, as far as the engine calls it *)

Definition byte (n : N) : ascii := ascii_of_N n.
Definition code (c : ascii) : N := N_of_ascii c.
Definition quote : string := String (byte 34) EmptyString.

Definition isChar (n : N) (c : ascii) : bool := N.eqb (code c) n.

Fixpoint stripPrefix (p s : string) : option string :=
  match p with
  | EmptyString => Some s
  | String a p' =>
      match s with
      | String b s' => if Ascii.eqb a b then stripPrefix p' s' else None
      | EmptyString => None
      end
  end.

(** [strings.Replace(s, old, new, 1)] for a non-empty [old]: the first
    occurrence of [old], when there is one, gives way to [new]. *)
Fixpoint ReplaceFirst (s old new : string) : string :=
  match stripPrefix old s with
  | Some rest => new +:+ rest
  | None =>
      match s with
      | String c s' => String c (ReplaceFirst s' old new)
      | EmptyString => EmptyString
      end
  end.

(** [strings.Join(l, sep)] *)
Fixpoint Join (l : list string) (sep : string) : string :=
  match l with
  | [] => EmptyString
  | [x] => x
  | x :: rest => x +:+ sep +:+ Join rest sep
  end.

(** The UTF-8 encodings of the code points [unicode.IsSpace] accepts:
    tab, LF, VT, FF, CR, space, U+0085, U+00A0, U+1680, U+2000 to U+200A,
    U+2028, U+2029, U+202F, U+205F and U+3000. *)
Definition bytes (l : list N) : string :=
  fold_right (fun n s => String (byte n) s) EmptyString l.

Definition spaceRunes : list string :=
  map bytes
    [ [9]; [10]; [11]; [12]; [13]; [32];
      [194; 133]; [194; 160]; [225; 154; 128];
      [226; 128; 128]; [226; 128; 129]; [226; 128; 130]; [226; 128; 131];
      [226; 128; 132]; [226; 128; 133]; [226; 128; 134]; [226; 128; 135];
      [226; 128; 136]; [226; 128; 137]; [226; 128; 138];
      [226; 128; 168]; [226; 128; 169]; [226; 128; 175];
      [226; 129; 159]; [227; 128; 128] ]%N.

(** The rest of [s] behind the first of the prefixes [ps] it starts with. *)
Fixpoint stripAny (ps : list string) (s : string) : option string :=
  match ps with
  | [] => None
  | p :: ps' =>
      match stripPrefix p s with
      | Some rest => Some rest
      | None => stripAny ps' s
      end
  end.

Fixpoint trimLeftLoop (ps : list string) (fuel : nat) (s : string) : string :=
  match fuel with
  | O => s
  | S fuel' =>
      match stripAny ps s with
      | Some rest => trimLeftLoop ps fuel' rest
      | None => s
      end
  end.

Definition trimLeft (ps : list string) (s : string) : string :=
  trimLeftLoop ps (String.length s) s.

(** [strings.TrimSpace(s)]: the white space runes are cut from the front,
    then from the back (where a rune is read backwards). *)
Definition TrimSpace (s : string) : string :=
  String.rev (trimLeft (map String.rev spaceRunes) (String.rev (trimLeft spaceRunes s))).

(** *** [strconv.ParseInt(s, 10, 64)] *)

Definition digitOf (c : ascii) : option Z :=
  let n := code c in
  if (N.leb 48 n && N.leb n 57)%bool then Some (Z.of_N n - 48) else None.

(** The value of a string of decimal digits read after [acc]; [None] at the
    first byte that is no digit. *)
Fixpoint digits (acc : Z) (s : string) : option Z :=
  match s with
  | EmptyString => Some acc
  | String c s' =>
      match digitOf c with
      | Some d => digits (10 * acc + d) s'
      | None => None
      end
  end.

Definition errSyntax : Error := "invalid syntax".
Definition errRange : Error := "value out of range".

Definition ParseInt (s : string) : Error + Z :=
  let '(neg, body) :=
    match s with
    | String c s' =>
        if isChar 43 c then (false, s')
        else if isChar 45 c then (true, s')
        else (false, s)
    | EmptyString => (false, s)
    end in
  match body with
  | EmptyString => inl errSyntax
  | _ =>
      match digits 0 body with
      | None => inl errSyntax
      | Some n =>
          if neg then (if n <=? 2 ^ 63 then inr (- n) else inl errRange)
          else (if n <? 2 ^ 63 then inr n else inl errRange)
      end
  end.

(** *** [time.Parse("2006-01-02 15:04:05.000", value)] and [Time.Unix]

    The layout is the constant of [handleInsightsQuery]; the parser below
    follows [time.Parse] chunk by chunk for that layout: a four-digit year,
    a two-digit month and day, an hour of one or two digits, a two-digit
    minute and second, a period or comma and three digits of fraction; a
    space of the layout stands for any run of spaces; no zone, so UTC. The
    text of the library's error is not reproduced. *)

Record Time : Type := mkTime {
  unixSec : Z;   (* seconds since 1970-01-01T00:00:00Z *)
  nsec : Z       (* nanoseconds within the second, 0 <= nsec < 10^9 *)
}.

(** [Time.Unix] *)
Definition Unix (t : Time) : Z := unixSec t.

Definition isDigit (s : string) : bool :=
  match s with
  | String c _ => bool_decide (is_Some (digitOf c))
  | EmptyString => false
  end.

(** [getnum(s, fixed)] *)
Definition getnum (s : string) (fixed : bool) : option (Z * string) :=
  match s with
  | String a s1 =>
      match digitOf a with
      | None => None
      | Some x =>
          match s1 with
          | String b s2 =>
              match digitOf b with
              | Some y => Some (10 * x + y, s2)
              | None => if fixed then None else Some (x, s1)
              end
          | EmptyString => if fixed then None else Some (x, s1)
          end
      end
  | EmptyString => None
  end.

(** [atoi]: an optional sign, then digits to the end. *)
Definition atoi (s : string) : option Z :=
  match s with
  | String c s' =>
      if isChar 45 c then Z.opp <$> digits 0 s'
      else if isChar 43 c then digits 0 s'
      else digits 0 s
  | EmptyString => Some 0
  end.

Fixpoint cutspace (s : string) : string :=
  match s with
  | String c s' => if isChar 32 c then cutspace s' else s
  | EmptyString => s
  end.

(** [skip(value, prefix)] for a prefix of one byte [c]. *)
Definition skip (value : string) (c : N) : option string :=
  if N.eqb c 32 then
    match value with
    | String a _ => if isChar 32 a then Some (cutspace value) else None
    | EmptyString => Some value
    end
  else
    match value with
    | String a rest => if isChar c a then Some rest else None
    | EmptyString => None
    end.

Definition splitAt (n : nat) (s : string) : option (string * string) :=
  if (n <=? String.length s)%nat
  then Some (substring 0 n s, substring n (String.length s - n) s)
  else None.

Definition isLeap (year : Z) : bool :=
  (year mod 4 =? 0) && (negb (year mod 100 =? 0) || (year mod 400 =? 0)).

Definition daysIn (month year : Z) : Z :=
  if (month =? 2) && isLeap year then 29
  else nth (Z.to_nat month) [0; 31; 28; 31; 30; 31; 30; 31; 31; 30; 31; 30; 31] 0.

(** Days of the year before the first of [month]. *)
Definition daysBefore (month year : Z) : Z :=
  nth (Z.to_nat month) [0; 0; 31; 59; 90; 120; 151; 181; 212; 243; 273; 304; 334] 0
  + (if (2 <? month) && isLeap year then 1 else 0).

(** Leap days of the years 1 to [y] of the proleptic Gregorian calendar. *)
Definition leapsThrough (y : Z) : Z := y / 4 - y / 100 + y / 400.

(** [Date(year, month, day, hour, min, sec, nsec, UTC)] for fields in
    range. *)
Definition Date (year month day hour min sec ns : Z) : Time :=
  let days :=
    365 * (year - 1970) + (leapsThrough (year - 1) - leapsThrough 1969)
    + daysBefore month year + (day - 1) in
  mkTime (days * 86400 + hour * 3600 + min * 60 + sec) ns.

Definition errParseTime : Error := "parsing time: cannot parse".
Definition errParseTimeRange : Error := "parsing time: out of range".

(** [(T, error)] of a library function that sends nothing: stdpp's bind
    notation on [Error + T]. *)
#[global] Instance result_bind : MBind (sum Error) :=
  fun A B f r =>
    match r with
    | inl e => inl e
    | inr a => f a
    end.

Definition guard (b : bool) (e : Error) : Error + unit :=
  if b then inr tt else inl e.

Definition orBad {A} (o : option A) : Error + A :=
  match o with
  | Some a => inr a
  | None => inl errParseTime
  end.

Definition timeParse (value : string) : Error + Time :=
  (* "2006" *)
  '(p, value) ← orBad (if isDigit value then splitAt 4 value else None);
  year ← orBad (atoi p);
  (* "-01" *)
  value ← orBad (skip value 45);
  '(month, value) ← orBad (getnum value true);
  _ ← guard ((0 <? month) && (month <=? 12)) errParseTimeRange;
  (* "-02" *)
  value ← orBad (skip value 45);
  '(day, value) ← orBad (getnum value true);
  (* " 15" *)
  value ← orBad (skip value 32);
  '(hour, value) ← orBad (getnum value false);
  _ ← guard (hour <? 24) errParseTimeRange;
  (* ":04" *)
  value ← orBad (skip value 58);
  '(min, value) ← orBad (getnum value true);
  _ ← guard (min <? 60) errParseTimeRange;
  (* ":05" *)
  value ← orBad (skip value 58);
  '(sec, value) ← orBad (getnum value true);
  _ ← guard (sec <? 60) errParseTimeRange;
  (* ".000" *)
  '(frac, value) ← orBad (splitAt 4 value);
  digits3 ← orBad (match frac with
                   | String c d => if isChar 46 c || isChar 44 c then Some d else None
                   | EmptyString => None
                   end);
  ms ← orBad (atoi digits3);
  _ ← guard (0 <=? ms) errParseTimeRange;
  (* end of the layout *)
  _ ← guard (bool_decide (value = EmptyString)) errParseTime;
  _ ← guard ((1 <=? day) && (day <=? daysIn month year)) errParseTimeRange;
  inr (Date year month day hour min sec (ms * 1000000)).

(** *** [regexp]: the pattern [\{\{\s*(.+?)\s*\}\}]

    Go's [regexp] finds the leftmost match and, among the matches that start
    there, the one a backtracking search meets first: a greedy [\s*], a lazy
    [.+?], a greedy [\s*]. The matchers below are that search for the one
    pattern [legendFormatPattern] is compiled from; each gives the text it
    matched and the rest of the subject. They read bytes: the bytes the
    pattern names are ASCII, so the match of a UTF-8 subject ends where the
    rune-wise match does. *)

(** [\s] is one of tab, LF, FF, CR and space. *)
Definition isReSpace (c : ascii) : bool :=
  isChar 9 c || isChar 10 c || isChar 12 c || isChar 13 c || isChar 32 c.

(** [.] is any byte but LF. *)
Definition isReDot (c : ascii) : bool := negb (isChar 10 c).

Definition closing : string := "}}".

(** [\s*\}\}] *)
Fixpoint matchClose (s : string) : option (string * string) :=
  match s with
  | String c s' =>
      if isReSpace c then
        match matchClose s' with
        | Some (m, r) => Some (String c m, r)
        | None => None
        end
      else stripPrefix closing s ≫= fun r => Some (closing, r)
  | EmptyString => None
  end.

(** [.+?\s*\}\}]: the shortest run of one or more bytes that is followed by
    the closing part. *)
Fixpoint matchLazy (s : string) : option (string * string) :=
  match s with
  | String c s' =>
      if isReDot c then
        match matchClose s' with
        | Some (m, r) => Some (String c m, r)
        | None =>
            match matchLazy s' with
            | Some (m, r) => Some (String c m, r)
            | None => None
            end
        end
      else None
  | EmptyString => None
  end.

(** [\s*.+?\s*\}\}]: the longest run of white space first, giving bytes
    back when the rest finds no match behind it. *)
Fixpoint matchOpenSpace (s : string) : option (string * string) :=
  match s with
  | String c s' =>
      if isReSpace c then
        match matchOpenSpace s' with
        | Some (m, r) => Some (String c m, r)
        | None => matchLazy s
        end
      else matchLazy s
  | EmptyString => None
  end.

(** A match of the whole pattern at the front of [s]. *)
Definition matchAt (s : string) : option (string * string) :=
  rest ← stripPrefix "{{" s;
  '(m, r) ← matchOpenSpace rest;
  Some ("{{" +:+ m, r).

(** [re.ReplaceAllFunc(src, repl)] for [legendFormatPattern]: the matches
    are looked for from left to right, each search starting where the last
    match ended, and the text between them is kept. A match of this pattern
    is never empty. [skip] counts the bytes of the last match that the scan
    has still to pass. *)
Fixpoint replaceAllFrom (skip : nat) (src : string) (repl : string -> string) : string :=
  match src with
  | EmptyString => EmptyString
  | String c s' =>
      match skip with
      | S k => replaceAllFrom k s' repl
      | O =>
          match matchAt src with
          | Some (m, _) => repl m +:+ replaceAllFrom (String.length m - 1) s' repl
          | None => String c (replaceAllFrom 0 s' repl)
          end
      end
  end.

Definition ReplaceAllFunc (src : string) (repl : string -> string) : string :=
  replaceAllFrom 0 src repl.

(** *** [range] over a map

    Go visits the entries of a map in an order that is not specified and
    may differ from one [range] statement to the next. A [range] is
    therefore given its order: a function from the map to the list of its
    entries. *)
Definition MapOrder (V : Type) : Type := gmap string V -> list (string * V).

(** The orders a [range] can take: every entry once. *)
Definition validOrder {V} (order : MapOrder V) : Prop :=
  forall m, order m ≡ₚ map_to_list m.

(** *** [float64]

    A [float64] is an IEEE 754 binary64 datum. [strconv.ParseFloat] is a
    parameter of the engine below. *)
Definition float64 : Type := spec_float.
Definition float64_zero : float64 := S754_zero false.

(** ** The AWS SDK: package [cloudwatchlogs]

    The structures carry the fields the engine reads or writes. What the
    service fills in on a response is a plain value; what the request
    decoder may leave [nil] is an [option]. *)

Module FilterLogEventsInput.
Record t : Type := mk {
  StartTime : option Z;
  EndTime : option Z;
  LogGroupName : option string;
  LogStreamNames : list string;
  FilterPattern : option string;
  Limit : option Z
}.
End FilterLogEventsInput.

Module GetLogEventsInput.
Record t : Type := mk {
  StartTime : option Z;
  EndTime : option Z;
  LogGroupName : option string;
  LogStreamName : option string;
  StartFromHead : option bool;
  Limit : option Z
}.
End GetLogEventsInput.

Module FilteredLogEvent.
Record t : Type := mk {
  LogStreamName : string;
  IngestionTime : Z;
  Message : string;
  Timestamp : Z
}.
End FilteredLogEvent.

(** [cloudwatchlogs.OutputLogEvent]: no stream name. *)
Module OutputLogEvent.
Record t : Type := mk {
  IngestionTime : Z;
  Message : string;
  Timestamp : Z
}.
End OutputLogEvent.

Module FilterLogEventsOutput.
Record t : Type := mk { Events : list FilteredLogEvent.t }.
End FilterLogEventsOutput.

Module StartQueryInput.
Record t : Type := mk {
  StartTime : option Z;
  EndTime : option Z;
  Limit : option Z;
  LogGroupName : option string;
  LogGroupNames : option (list string);   (* [None] is the nil slice *)
  QueryString : option string
}.
End StartQueryInput.

Module QueryInfo.
Record t : Type := mk {
  QueryId : string;
  Status : string
}.
End QueryInfo.

Module ResultField.
Record t : Type := mk {
  Field : string;
  Value : string
}.
End ResultField.

Module GetQueryResultsOutput.
Record t : Type := mk {
  Results : list (list ResultField.t);
  Status : string
}.
End GetQueryResultsOutput.

Module LogGroup.
Record t : Type := mk {
  LogGroupName : string;
  CreationTime : Z
}.
End LogGroup.

Module LogStream.
Record t : Type := mk {
  LogStreamName : string;
  CreationTime : Z
}.
End LogStream.

(** What a paginated operation of the service hands out, request by
    request: a page and the token of a next one, a page without a token, or
    the failure of the request. *)
Inductive Pages (P : Type) : Type :=
| NextPage (page : P) (more : Pages P)
| LastPage (page : P)
| RequestFailed (e : Error).
Arguments NextPage {P} page more.
Arguments LastPage {P} page.
Arguments RequestFailed {P} e.

(** All the pages of a listing, read to its end. *)
Fixpoint allPages {P} (ps : Pages P) : list P :=
  match ps with
  | NextPage page more => page :: allPages more
  | LastPage page => [page]
  | RequestFailed _ => []
  end.

(** The [cloudwatchlogs] client of one region, with the answers of the
    service behind it. *)
Record Client : Type := mkClient {
  filterLogEvents : FilterLogEventsInput.t -> Pages (list FilteredLogEvent.t);
  getLogEvents : GetLogEventsInput.t -> Pages (list OutputLogEvent.t);
  startQuery : StartQueryInput.t -> Error + string;
  describeQueries : option string -> Error + list QueryInfo.t;
  getQueryResults : string -> Error + GetQueryResultsOutput.t;
  stopQuery : string -> Error + bool;
  describeLogGroups : option string -> Pages (list LogGroup.t);
  describeLogStreams : option string -> option string -> Pages (list LogStream.t)
}.

(** The SDK's paginator ([FilterLogEventsPages] and the like): one request
    per page; [fn] is called with each page and with whether it is the last
    one, and pagination goes on while [fn] returns [true] and the service
    gave a token. The state [St] is what the callback's closure updates. *)
Fixpoint eachPage {P St} (op : Op) (ps : Pages P)
    (fn : St -> P -> bool -> M (bool * St)) (st : St) : M St :=
  match ps with
  | RequestFailed e => tell op ;;; raise e
  | LastPage page =>
      tell op ;;;
      let* (_, st') := fn st page true in
      ret st'
  | NextPage page more =>
      tell op ;;;
      let* (goOn, st') := fn st page false in
      if goOn : bool then eachPage op more fn st' else ret st'
  end.

Definition FilterLogEventsPages {St} (svc : Client) (input : FilterLogEventsInput.t) :=
  eachPage (St := St) OpFilterLogEvents (filterLogEvents svc input).
Definition GetLogEventsPages {St} (svc : Client) (input : GetLogEventsInput.t) :=
  eachPage (St := St) OpGetLogEvents (getLogEvents svc input).
Definition DescribeLogGroupsPages {St} (svc : Client) (prefix : option string) :=
  eachPage (St := St) OpDescribeLogGroups (describeLogGroups svc prefix).
Definition DescribeLogStreamsPagesWithContext {St} (svc : Client)
    (logGroupName prefix : option string) :=
  eachPage (St := St) OpDescribeLogStreams (describeLogStreams svc logGroupName prefix).

(** ** The Grafana plugin model: package [datasource] *)

Record DatasourceInfo : Type := mkDatasourceInfo {
  Id : Z;
  JsonData : string
}.

Record TimeRange : Type := mkTimeRange {
  FromRaw : string;
  ToRaw : string
}.

Inductive RowValue_Kind : Type :=
| RowValue_TYPE_NULL
| RowValue_TYPE_DOUBLE
| RowValue_TYPE_INT64
| RowValue_TYPE_BOOL
| RowValue_TYPE_STRING
| RowValue_TYPE_BYTES.

Module RowValue.
Record t : Type := mk { Kind : RowValue_Kind; StringValue : string }.
End RowValue.

Module TableColumn.
Record t : Type := mk { Name : string }.
End TableColumn.

Module TableRow.
Record t : Type := mk { Values : list RowValue.t }.
End TableRow.

Module Table.
Record t : Type := mk {
  Columns : list TableColumn.t;
  Rows : list TableRow.t
}.
End Table.

Module Point.
Record t : Type := mk { Timestamp : Z; Value : float64 }.
End Point.

Module TimeSeries.
Record t : Type := mk {
  Name : string;
  Tags : gmap string string;
  Points : list Point.t
}.
End TimeSeries.

(** [MetaJson] holds the text [json.Marshal] makes of a value; the embedding
    keeps the value. *)
Inductive Meta : Type :=
| MetaNone                                      (* the empty string *)
| MetaObject (members : gmap string string)     (* of a [map[string]string] *)
| MetaEvents (resp : FilterLogEventsOutput.t).  (* of a retrieval's output *)

Module QueryResult.
Record t : Type := mk {
  Error : string;
  RefId : string;
  MetaJson : Meta;
  Series : list TimeSeries.t;
  Tables : list Table.t
}.
End QueryResult.

Module DatasourceResponse.
Record t : Type := mk { Results : list QueryResult.t }.
End DatasourceResponse.

(** ** The engine's own types *)

Module Target.
Record t : Type := mk {
  RefId : string;
  QueryType : string;
  Format : string;
  Region : string;
  UseInsights : bool;
  Input : FilterLogEventsInput.t;
  InputInsightsStartQuery : StartQueryInput.t;
  InputInsightsQueryId : string;
  QueryId : string;
  LegendFormat : string;
  TimestampColumn : string;
  ValueColumn : string;
  StartFromHead : bool
}.
End Target.

(** The [ModelJson] text of a query, as its two decoders see it:
    [simplejson] gives the string members of the object ([MustString] is
    the empty string for a member that is missing), [json.Unmarshal] gives a
    [Target] or an error; text that is no JSON fails in both. *)
Inductive ModelJson : Type :=
| Malformed (e : Error)
| Parsed (members : gmap string string) (target : Error + Target.t).

Definition NewJson (j : ModelJson) : Error + gmap string string :=
  match j with
  | Malformed e => inl e
  | Parsed members _ => inr members
  end.

Definition Unmarshal (j : ModelJson) : Error + Target.t :=
  match j with
  | Malformed e => inl e
  | Parsed _ target => target
  end.

Definition MustString (members : gmap string string) (key : string) : string :=
  default EmptyString (members !! key).

Module Query.
Record t : Type := mk { RefId : string; ModelJson : ModelJson }.
End Query.

Module DatasourceRequest.
Record t : Type := mk {
  TimeRange : TimeRange;
  Datasource : DatasourceInfo;
  Queries : list Query.t
}.
End DatasourceRequest.

Module suggestData.
Record t : Type := mk { Text : string; Value : string }.
End suggestData.

(** ** [datasource.go] *)

(** [formatLegend(kv, legendFormat)]; [order] is the order in which the
    [range kv] of the empty-template branch visits the tags. *)
Definition formatLegend (order : MapOrder string) (kv : gmap string string)
    (legendFormat : string) : string :=
  if bool_decide (legendFormat = EmptyString) then
    let l := map (fun '(k, v) => k +:+ "=" +:+ quote +:+ v +:+ quote) (order kv) in
    "{" +:+ Join l "," +:+ "}"
  else
    ReplaceAllFunc legendFormat (fun in_ =>
      let columnName := ReplaceFirst in_ "{{" EmptyString in
      let columnName := ReplaceFirst columnName "}}" EmptyString in
      let columnName := TrimSpace columnName in
      match kv !! columnName with
      | Some val => val
      | None => in_
      end).

(** [transformToTable(data)] *)
Definition transformToTable (data : list suggestData.t) : Table.t :=
  {| Table.Columns := [ TableColumn.mk "text"; TableColumn.mk "value" ];
     Table.Rows :=
       map (fun r =>
              TableRow.mk
                [ RowValue.mk RowValue_TYPE_STRING (suggestData.Text r);
                  RowValue.mk RowValue_TYPE_STRING (suggestData.Value r) ])
           data |}.

(** [time.Unix(sec, nsec)], the nanoseconds brought into range. *)
Definition timeUnix (sec ns : Z) : Time :=
  mkTime (sec + ns / 1000000000) (ns mod 1000000000).

(** The page callback of both retrieval strategies, behind the
    [append]: the safety limit, then the requested limit, then the last
    page. *)
Definition afterPage (limit : option Z) (events : list FilteredLogEvent.t)
    (lastPage : bool) : M (bool * list FilteredLogEvent.t) :=
  if 10000 <? len events then ret (false, events)    (* safety limit *)
  else
    let* l := deref limit in
    if l <=? len events then ret (false, events)     (* should stop to next query *)
    else ret (negb lastPage, events).

(** [i := &cloudwatchlogs.GetLogEventsInput{...}] of the single-stream
    branch of [getLogEvent]; [name] is [input.LogStreamNames[0]]. *)
Definition streamInput (input : FilterLogEventsInput.t) (name : string)
    (startFromHead : bool) : GetLogEventsInput.t :=
  {| GetLogEventsInput.StartTime := FilterLogEventsInput.StartTime input;
     GetLogEventsInput.EndTime := FilterLogEventsInput.EndTime input;
     GetLogEventsInput.LogGroupName := FilterLogEventsInput.LogGroupName input;
     GetLogEventsInput.LogStreamName := Some name;
     GetLogEventsInput.StartFromHead := Some startFromHead;
     GetLogEventsInput.Limit := FilterLogEventsInput.Limit input |}.

(** [fe := &cloudwatchlogs.FilteredLogEvent{...}] of the same branch. *)
Definition filteredEvent (name : string) (e : OutputLogEvent.t) : FilteredLogEvent.t :=
  {| FilteredLogEvent.LogStreamName := name;
     FilteredLogEvent.IngestionTime := OutputLogEvent.IngestionTime e;
     FilteredLogEvent.Message := OutputLogEvent.Message e;
     FilteredLogEvent.Timestamp := OutputLogEvent.Timestamp e |}.

Section Engine.

(** [t.getClient(datasourceInfo, region)]: the session and the client of a
    region, from the datasource's settings and credentials. *)
Variable getClient : DatasourceInfo -> string -> Error + Client.

(** [strconv.ParseFloat(s, 64)] *)
Variable ParseFloat : string -> Error + float64.

(** [t.Format(time.RFC3339)], in the time zone of the process. *)
Variable FormatRFC3339 : Time -> string.

(** [sort.Slice(x, less)], with [less] on the elements. *)
Variable sortSlice : forall A : Type, (A -> A -> bool) -> list A -> list A.

(** The order of the [range kv] in the [formatLegend] call of the [i]-th
    result row, and of the [range series] that lists the series. *)
Variable rangeTags : nat -> MapOrder string.
Variable rangeSeries : MapOrder TimeSeries.t.

(** [getLogEvent(tsdbReq, region, input, startFromHead)] *)
Definition getLogEvent (tsdbReq : DatasourceRequest.t) (region : string)
    (input : FilterLogEventsInput.t) (startFromHead : bool)
    : M FilterLogEventsOutput.t :=
  let* svc := try (getClient (DatasourceRequest.Datasource tsdbReq) region) in
  let* filterPattern := deref (FilterLogEventsInput.FilterPattern input) in
  if negb (bool_decide (filterPattern = EmptyString))
     || negb (len (FilterLogEventsInput.LogStreamNames input) =? 1)
  then
    let* events :=
      FilterLogEventsPages svc input
        (fun events page lastPage =>
           afterPage (FilterLogEventsInput.Limit input) (events ++ page) lastPage)
        [] in
    ret (FilterLogEventsOutput.mk events)
  else
    let* name := deref (head (FilterLogEventsInput.LogStreamNames input)) in
    let i := streamInput input name startFromHead in
    let* events :=
      GetLogEventsPages svc i
        (fun events page lastPage =>
           afterPage (FilterLogEventsInput.Limit input)
                     (events ++ map (filteredEvent name) page) lastPage)
        [] in
    ret (FilterLogEventsOutput.mk events).

(** [parseTableResponse(resp, refId)] *)
Definition parseTableResponse (resp : FilterLogEventsOutput.t) (refId : string)
    : M QueryResult.t :=
  let str := RowValue.mk RowValue_TYPE_STRING in
  let rows :=
    map (fun e =>
           let timestamp :=
             FormatRFC3339
               (timeUnix (FilteredLogEvent.Timestamp e ÷ 1000)
                         (FilteredLogEvent.Timestamp e `rem` 1000 * 1000 * 1000)) in
           let ingestionTime :=
             FormatRFC3339
               (timeUnix (FilteredLogEvent.IngestionTime e ÷ 1000)
                         (FilteredLogEvent.IngestionTime e `rem` 1000 * 1000 * 1000)) in
           TableRow.mk
             [ str timestamp; str ingestionTime;
               str (FilteredLogEvent.LogStreamName e);
               str (FilteredLogEvent.Message e) ])
        (FilterLogEventsOutput.Events resp) in
  let table :=
    {| Table.Columns :=
         [ TableColumn.mk "Timestamp"; TableColumn.mk "IngestionTime";
           TableColumn.mk "LogStreamName"; TableColumn.mk "Message" ];
       Table.Rows := rows |} in
  ret {| QueryResult.Error := EmptyString;
         QueryResult.RefId := refId;
         QueryResult.MetaJson := MetaNone;
         QueryResult.Series := [];
         QueryResult.Tables := [table] |}.

(** [target.Input.StartTime = aws.Int64(fromRaw)] and the like for
    [EndTime]. *)
Definition withTimeRange (fromRaw toRaw : Z) (target : Target.t) : Target.t :=
  let input := Target.Input target in
  {| Target.RefId := Target.RefId target;
     Target.QueryType := Target.QueryType target;
     Target.Format := Target.Format target;
     Target.Region := Target.Region target;
     Target.UseInsights := Target.UseInsights target;
     Target.Input :=
       {| FilterLogEventsInput.StartTime := Some fromRaw;
          FilterLogEventsInput.EndTime := Some toRaw;
          FilterLogEventsInput.LogGroupName := FilterLogEventsInput.LogGroupName input;
          FilterLogEventsInput.LogStreamNames := FilterLogEventsInput.LogStreamNames input;
          FilterLogEventsInput.FilterPattern := FilterLogEventsInput.FilterPattern input;
          FilterLogEventsInput.Limit := FilterLogEventsInput.Limit input |};
     Target.InputInsightsStartQuery := Target.InputInsightsStartQuery target;
     Target.InputInsightsQueryId := Target.InputInsightsQueryId target;
     Target.QueryId := Target.QueryId target;
     Target.LegendFormat := Target.LegendFormat target;
     Target.TimestampColumn := Target.TimestampColumn target;
     Target.ValueColumn := Target.ValueColumn target;
     Target.StartFromHead := Target.StartFromHead target |}.

(** The first loop of [handleQuery]: every query decoded, the time range
    written into its retrieval input. *)
Fixpoint decodeTargets (fromRaw toRaw : Z) (queries : list Query.t)
    : M (list Target.t) :=
  match queries with
  | [] => ret []
  | query :: rest =>
      let* target := try (Unmarshal (Query.ModelJson query)) in
      let* targets := decodeTargets fromRaw toRaw rest in
      ret (withTimeRange fromRaw toRaw target :: targets)
  end.

(** The second loop of [handleQuery]; [results] is [response.Results]. *)
Fixpoint retrieveTargets (tsdbReq : DatasourceRequest.t) (targets : list Target.t)
    (results : list QueryResult.t) : M (list QueryResult.t) :=
  match targets with
  | [] => ret results
  | target :: rest =>
      let* resp :=
        getLogEvent tsdbReq (Target.Region target) (Target.Input target)
                    (Target.StartFromHead target) in
      if bool_decide (Target.Format target = "timeserie") then
        raise "not supported"
      else if bool_decide (Target.Format target = "table") then
        let* r := parseTableResponse resp (Target.RefId target) in
        retrieveTargets tsdbReq rest (results ++ [r])
      else retrieveTargets tsdbReq rest results
  end.

(** [handleQuery(tsdbReq)] *)
Definition handleQuery (tsdbReq : DatasourceRequest.t) : M DatasourceResponse.t :=
  let* fromRaw := try (ParseInt (FromRaw (DatasourceRequest.TimeRange tsdbReq))) in
  let* toRaw := try (ParseInt (ToRaw (DatasourceRequest.TimeRange tsdbReq))) in
  let* targets := decodeTargets fromRaw toRaw (DatasourceRequest.Queries tsdbReq) in
  let* results := retrieveTargets tsdbReq targets [] in
  ret (DatasourceResponse.mk results).

(** *** [handleInsightsQuery] *)

(** A result that carries metadata only. *)
Definition metaResult (refId : string) (meta : gmap string string) : QueryResult.t :=
  {| QueryResult.Error := EmptyString;
     QueryResult.RefId := refId;
     QueryResult.MetaJson := MetaObject meta;
     QueryResult.Series := [];
     QueryResult.Tables := [] |}.

(** The [switch columnName] over the fields of one result row:
    [timestamp], [value] and [kv] as the inner loop leaves them. *)
Fixpoint readFields (target : Target.t) (r : list ResultField.t)
    (timestamp : Z) (value : float64) (kv : gmap string string)
    : Error + (Z * float64 * gmap string string) :=
  match r with
  | [] => inr (timestamp, value, kv)
  | d :: rest =>
      let columnName := ResultField.Field d in
      if bool_decide (columnName = Target.TimestampColumn target) then
        t ← timeParse (ResultField.Value d);
        readFields target rest (Unix t * 1000) value kv
      else if bool_decide (columnName = Target.ValueColumn target) then
        v ← ParseFloat (ResultField.Value d);
        readFields target rest timestamp v kv
      else
        readFields target rest timestamp value (<[columnName := ResultField.Value d]> kv)
  end.

(** [series[name].Points = append(series[name].Points, p)] *)
Definition appendPoint (p : Point.t) (s : TimeSeries.t) : TimeSeries.t :=
  {| TimeSeries.Name := TimeSeries.Name s;
     TimeSeries.Tags := TimeSeries.Tags s;
     TimeSeries.Points := TimeSeries.Points s ++ [p] |}.

(** The loop over [gresp.Results] of the time-series branch, from row
    number [i] on; [series] is the map under construction. *)
Fixpoint collectSeries (target : Target.t) (i : nat) (rows : list (list ResultField.t))
    (series : gmap string TimeSeries.t) : Error + gmap string TimeSeries.t :=
  match rows with
  | [] => inr series
  | r :: rest =>
      '(timestamp, value, kv) ← readFields target r 0 float64_zero ∅;
      let name := formatLegend (rangeTags i) kv (Target.LegendFormat target) in
      let series :=
        match series !! name with
        | None =>
            <[name := {| TimeSeries.Name := name;
                         TimeSeries.Tags := kv;
                         TimeSeries.Points := [] |}]> series
        | Some _ => series
        end in
      let series := alter (appendPoint (Point.mk timestamp value)) name series in
      collectSeries target (S i) rest series
  end.

(** The table branch. *)
Definition insightsTable (results : list (list ResultField.t)) : Table.t :=
  {| Table.Columns :=
       map (fun f => TableColumn.mk (ResultField.Field f)) (default [] (head results));
     Table.Rows :=
       map (fun r =>
              TableRow.mk
                (map (fun f => RowValue.mk RowValue_TYPE_STRING (ResultField.Value f)) r))
           results |}.

(** The index loop over [dresp.Queries]: the last query of that id. *)
Definition findQuery (queryId : string) (queries : list QueryInfo.t) : option QueryInfo.t :=
  last (filter (fun q => QueryInfo.QueryId q = queryId) queries).

(** [target.InputInsightsStartQuery.StartTime = aws.Int64(fromRaw)] and the
    like for [EndTime]. *)
Definition withQueryTimeRange (fromRaw toRaw : Z) (input : StartQueryInput.t)
    : StartQueryInput.t :=
  {| StartQueryInput.StartTime := Some fromRaw;
     StartQueryInput.EndTime := Some toRaw;
     StartQueryInput.Limit := StartQueryInput.Limit input;
     StartQueryInput.LogGroupName := StartQueryInput.LogGroupName input;
     StartQueryInput.LogGroupNames := StartQueryInput.LogGroupNames input;
     StartQueryInput.QueryString := StartQueryInput.QueryString input |}.

(** [handleInsightsQuery(tsdbReq, query)] *)
Definition handleInsightsQuery (tsdbReq : DatasourceRequest.t) (query : Query.t)
    : M DatasourceResponse.t :=
  let* fromRaw := try (ParseInt (FromRaw (DatasourceRequest.TimeRange tsdbReq))) in
  let* toRaw := try (ParseInt (ToRaw (DatasourceRequest.TimeRange tsdbReq))) in
  let* target := try (Unmarshal (Query.ModelJson query)) in
  let input := withQueryTimeRange fromRaw toRaw (Target.InputInsightsStartQuery target) in
  let* svc :=
    try (getClient (DatasourceRequest.Datasource tsdbReq) (Target.Region target)) in
  (* start query *)
  if bool_decide (Target.QueryId target = EmptyString) then
    tell OpStartQuery ;;;
    let* queryId := try (startQuery svc input) in
    ret (DatasourceResponse.mk
           [ metaResult (Target.RefId target) {[ "QueryId" := queryId ]} ])
  else
    let* logGroupName :=
      match StartQueryInput.LogGroupNames input with
      | Some names => let* name := deref (head names) in ret (Some name)
      | None => ret (StartQueryInput.LogGroupName input)
      end in
    tell OpDescribeQueries ;;;
    let* queries := try (describeQueries svc logGroupName) in
    match findQuery (Target.QueryId target) queries with
    | None => raise (Target.QueryId target +:+ " is not found")
    | Some q =>
        if negb (bool_decide (QueryInfo.Status q = "Complete")) then
          ret (DatasourceResponse.mk
                 [ metaResult (Target.RefId target)
                     {[ "QueryId" := Target.QueryId target;
                        "Status" := QueryInfo.Status q ]} ])
        else
          tell OpGetQueryResults ;;;
          let* gresp := try (getQueryResults svc (Target.QueryId target)) in
          if negb (bool_decide (GetQueryResultsOutput.Status gresp = "Complete")) then
            raise "unexpected status"
          else
            tell OpStopQuery ;;;    (* its error is ignored *)
            let meta : gmap string string :=
              {[ "QueryId" := Target.QueryId target;
                 "Status" := GetQueryResultsOutput.Status gresp ]} in
            let results := GetQueryResultsOutput.Results gresp in
            if len results =? 0 then
              ret (DatasourceResponse.mk [ metaResult (Target.RefId target) meta ])
            else if bool_decide (Target.Format target = "timeserie") then
              let* series := try (collectSeries target 0 results ∅) in
              ret (DatasourceResponse.mk
                     [ {| QueryResult.Error := EmptyString;
                          QueryResult.RefId := Target.RefId target;
                          QueryResult.MetaJson := MetaObject meta;
                          QueryResult.Series := map snd (rangeSeries series);
                          QueryResult.Tables := [] |} ])
            else
              ret (DatasourceResponse.mk
                     [ {| QueryResult.Error := EmptyString;
                          QueryResult.RefId := Target.RefId target;
                          QueryResult.MetaJson := MetaObject meta;
                          QueryResult.Series := [];
                          QueryResult.Tables := [ insightsTable results ] |} ])
    end.

(** *** [metricFindQuery] *)

(** The page callback of both listings. *)
Definition afterListing {A} (entries : list A) (lastPage : bool) : M (bool * list A) :=
  if 100 <? len entries then ret (false, entries)    (* safety limit *)
  else ret (negb lastPage, entries).

(** [aws.String(prefix)] when [len(prefix) > 0]. *)
Definition optionalPrefix (prefix : string) : option string :=
  if (0 <? String.length prefix)%nat then Some prefix else None.

(** [metricFindQuery(ctx, tsdbReq, parameters)] *)
Definition metricFindQuery (tsdbReq : DatasourceRequest.t)
    (parameters : gmap string string) : M DatasourceResponse.t :=
  let region := MustString parameters "region" in
  let* svc := try (getClient (DatasourceRequest.Datasource tsdbReq) region) in
  let subtype := MustString parameters "subtype" in
  let* data :=
    if bool_decide (subtype = "log_group_names") then
      let prefix := MustString parameters "logGroupNamePrefix" in
      let* groups :=
        DescribeLogGroupsPages svc (optionalPrefix prefix)
          (fun groups page lastPage => afterListing (groups ++ page) lastPage) [] in
      let groups :=
        sortSlice _ (fun a b => LogGroup.CreationTime b <? LogGroup.CreationTime a) groups in
      ret (map (fun g => suggestData.mk (LogGroup.LogGroupName g) (LogGroup.LogGroupName g))
               groups)
    else if bool_decide (subtype = "log_stream_names") then
      let logGroupName := MustString parameters "logGroupName" in
      let prefix := MustString parameters "logStreamNamePrefix" in
      let* streams :=
        DescribeLogStreamsPagesWithContext svc (Some logGroupName) (optionalPrefix prefix)
          (fun streams page lastPage => afterListing (streams ++ page) lastPage) [] in
      let streams :=
        sortSlice _ (fun a b => LogStream.CreationTime b <? LogStream.CreationTime a) streams in
      ret (map (fun g =>
                  suggestData.mk (LogStream.LogStreamName g) (LogStream.LogStreamName g))
               streams)
    else ret [] in
  let table := transformToTable data in
  ret (DatasourceResponse.mk
         [ {| QueryResult.Error := EmptyString;
              QueryResult.RefId := "metricFindQuery";
              QueryResult.MetaJson := MetaNone;
              QueryResult.Series := [];
              QueryResult.Tables := [table] |} ]).

(** *** [Query] *)

(** A response of one result that carries the error of a query path. *)
Definition errorResponse (refId : string) (m : M DatasourceResponse.t)
    : M DatasourceResponse.t :=
  match m with
  | (tr, Err e) =>
      (tr, Ok (DatasourceResponse.mk
                 [ {| QueryResult.Error := e;
                      QueryResult.RefId := refId;
                      QueryResult.MetaJson := MetaNone;
                      QueryResult.Series := [];
                      QueryResult.Tables := [] |} ]))
  | _ => m
  end.

(** The loop that looks for [UseInsights] among the targets. *)
Fixpoint includesInsights (queries : list Query.t) (includeInsightsQuery : bool)
    : M bool :=
  match queries with
  | [] => ret includeInsightsQuery
  | query :: rest =>
      let* target := try (Unmarshal (Query.ModelJson query)) in
      includesInsights rest (includeInsightsQuery || Target.UseInsights target)
  end.

(** [Query(ctx, tsdbReq)]; an [Err] outcome is the [error] handed to the
    plugin transport. *)
Definition Query (tsdbReq : DatasourceRequest.t) : M DatasourceResponse.t :=
  let queries := DatasourceRequest.Queries tsdbReq in
  let* query0 := deref (head queries) in
  let* modelJson := try (NewJson (Query.ModelJson query0)) in
  if bool_decide (MustString modelJson "queryType" = "metricFindQuery") then
    errorResponse "metricFindQuery" (metricFindQuery tsdbReq modelJson)
  else if bool_decide (MustString modelJson "queryType" = "annotationQuery") then
    let* target := try (Unmarshal (Query.ModelJson query0)) in
    let* fromRaw := try (ParseInt (FromRaw (DatasourceRequest.TimeRange tsdbReq))) in
    let* toRaw := try (ParseInt (ToRaw (DatasourceRequest.TimeRange tsdbReq))) in
    let target := withTimeRange fromRaw toRaw target in
    let* resp := getLogEvent tsdbReq (Target.Region target) (Target.Input target) true in
    ret (DatasourceResponse.mk
           [ {| QueryResult.Error := EmptyString;
                QueryResult.RefId := EmptyString;
                QueryResult.MetaJson := MetaEvents resp;
                QueryResult.Series := [];
                QueryResult.Tables := [] |} ])
  else
    let* includeInsightsQuery := includesInsights queries false in
    if negb includeInsightsQuery then
      errorResponse EmptyString (handleQuery tsdbReq)
    else if negb (len queries =? 1) then
      raise "invalid insights query, it should be single"
    else
      errorResponse EmptyString (handleInsightsQuery tsdbReq query0).

End Engine.


(** ** Notions the properties are stated with *)

Definition mapPages {P Q} (f : P -> Q) : Pages P -> Pages Q :=
  fix go ps :=
    match ps with
    | NextPage page more => NextPage (f page) (go more)
    | LastPage page => LastPage (f page)
    | RequestFailed e => RequestFailed e
    end.

(** What the service has on offer for a retrieval target (section 4.2 of
    the design): the stream-read operation and its pages, each event with
    the stream's name, when the filter pattern is empty and one stream is
    named; the filter operation and its pages otherwise. *)
Definition offered (svc : Client) (input : FilterLogEventsInput.t)
    (startFromHead : bool) : Op * Pages (list FilteredLogEvent.t) :=
  match FilterLogEventsInput.FilterPattern input,
        FilterLogEventsInput.LogStreamNames input with
  | Some EmptyString, [name] =>
      (OpGetLogEvents,
       mapPages (map (filteredEvent name))
                (getLogEvents svc (streamInput input name startFromHead)))
  | _, _ => (OpFilterLogEvents, filterLogEvents svc input)
  end.

(** The records available to a retrieval, page by page. *)
Definition available (svc : Client) (input : FilterLogEventsInput.t)
    (startFromHead : bool) : list (list FilteredLogEvent.t) :=
  allPages (snd (offered svc input startFromHead)).

(** ** Sample data *)

Definition sampleEvent (i : Z) : FilteredLogEvent.t :=
  {| FilteredLogEvent.LogStreamName := "web-1";
     FilteredLogEvent.IngestionTime := 1577836800500 + i;
     FilteredLogEvent.Message := "ERROR timeout";
     FilteredLogEvent.Timestamp := 1577836800000 + i |}.

(** A page of [n] events. *)
Definition samplePage (n : Z) : list FilteredLogEvent.t :=
  map sampleEvent (seqZ 0 n).

(** A client whose filter operation answers with [ps] and whose other
    operations have nothing. *)
Definition filterClient (ps : Pages (list FilteredLogEvent.t)) : Client :=
  {| filterLogEvents := fun _ => ps;
     getLogEvents := fun _ => LastPage [];
     startQuery := fun _ => inl "AccessDeniedException";
     describeQueries := fun _ => inr [];
     getQueryResults := fun _ => inl "ResourceNotFoundException";
     stopQuery := fun _ => inr true;
     describeLogGroups := fun _ => LastPage [];
     describeLogStreams := fun _ _ => LastPage [] |}.

Definition sampleRequest (queries : list Query.t) : DatasourceRequest.t :=
  {| DatasourceRequest.TimeRange := mkTimeRange "1577836800000" "1577840400000";
     DatasourceRequest.Datasource := mkDatasourceInfo 1 "{}";
     DatasourceRequest.Queries := queries |}.

(** A retrieval input on the group [app] with the pattern and limit
    given. *)
Definition sampleInput (names : list string) (filterPattern : option string)
    (limit : option Z) : FilterLogEventsInput.t :=
  {| FilterLogEventsInput.StartTime := Some 1577836800000;
     FilterLogEventsInput.EndTime := Some 1577840400000;
     FilterLogEventsInput.LogGroupName := Some "app";
     FilterLogEventsInput.LogStreamNames := names;
     FilterLogEventsInput.FilterPattern := filterPattern;
     FilterLogEventsInput.Limit := limit |}.

(** [getClient] that hands out the one client [svc]. *)
Definition clientFor (svc : Client) : DatasourceInfo -> string -> Error + Client :=
  fun _ _ => inr svc.

(** Two pages of 6000 events each. *)
Definition twoLargePages : Pages (list FilteredLogEvent.t) :=
  NextPage (samplePage 6000) (LastPage (samplePage 6000)).

(** A page of three events, then a last page of four. *)
Definition threeThenFour : Pages (list FilteredLogEvent.t) :=
  NextPage (samplePage 3) (LastPage (samplePage 4)).

(** The first answer of a paginated operation. *)
Definition firstPage {P} (ps : Pages P) : Error + P :=
  match ps with
  | NextPage page _ => inr page
  | LastPage page => inr page
  | RequestFailed e => inl e
  end.

Definition sampleOutputEvent (i : Z) : OutputLogEvent.t :=
  {| OutputLogEvent.IngestionTime := 1577836800500 + i;
     OutputLogEvent.Message := "GET /health 200";
     OutputLogEvent.Timestamp := 1577836800000 + i |}.

(** A client whose stream-read operation answers with [ps] and whose
    filter operation has nothing. *)
Definition streamClient (ps : Pages (list OutputLogEvent.t)) : Client :=
  {| filterLogEvents := fun _ => LastPage [];
     getLogEvents := fun _ => ps;
     startQuery := fun _ => inl "AccessDeniedException";
     describeQueries := fun _ => inr [];
     getQueryResults := fun _ => inl "ResourceNotFoundException";
     stopQuery := fun _ => inr true;
     describeLogGroups := fun _ => LastPage [];
     describeLogStreams := fun _ _ => LastPage [] |}.

(** Two events, then a last page of one. *)
Definition streamPages : Pages (list OutputLogEvent.t) :=
  NextPage (map sampleOutputEvent [0; 1]) (LastPage (map sampleOutputEvent [2])).

(** [getClient] without credentials. *)
Definition noClient : DatasourceInfo -> string -> Error + Client :=
  fun _ _ => inl "NoCredentialProviders: no valid providers in chain".

(** *** Legend templates, as the design describes them (section 4.5)

    A template is text with placeholders [{{ fieldName }}]; rendering it
    puts the tag value in the place of each placeholder whose field is a
    tag and leaves the other placeholders as they are. *)
Inductive Segment : Type :=
| Literal (text : string)
| Placeholder (before name after : string).   (* white space, name, white space *)

Definition segmentText (seg : Segment) : string :=
  match seg with
  | Literal text => text
  | Placeholder before name after => "{{" +:+ before +:+ name +:+ after +:+ "}}"
  end.

Definition templateText (segs : list Segment) : string :=
  foldr (fun seg s => segmentText seg +:+ s) EmptyString segs.

Definition renderSegment (kv : gmap string string) (seg : Segment) : string :=
  match seg with
  | Literal text => text
  | Placeholder _ name _ => default (segmentText seg) (kv !! name)
  end.

Definition renderTemplate (kv : gmap string string) (segs : list Segment) : string :=
  foldr (fun seg s => renderSegment kv seg +:+ s) EmptyString segs.

Fixpoint allBytes (P : ascii -> bool) (s : string) : bool :=
  match s with
  | EmptyString => true
  | String c s' => P c && allBytes P s'
  end.

(** Text in which every opening brace is followed by a byte that is no
    opening brace: no two opening braces stand in a row, and none stands at
    the end, where it would join the braces of what follows. *)
Fixpoint plainText (s : string) : bool :=
  match s with
  | EmptyString => true
  | String c s' =>
      (negb (isChar 123 c)
       || match s' with
          | String d _ => negb (isChar 123 d)
          | EmptyString => false
          end)
      && plainText s'
  end.

(** The segments of a template that reads one way only: literal text
    whose opening braces are each followed by another byte than an opening
    brace; placeholders whose name is not empty, has no white space of its
    own around it, and holds neither a closing brace nor a line feed, with
    white space of the pattern's [\s] around the name. *)
Definition wellFormed (seg : Segment) : Prop :=
  match seg with
  | Literal text => plainText text = true
  | Placeholder before name after =>
      allBytes isReSpace before = true /\
      allBytes isReSpace after = true /\
      name <> EmptyString /\
      TrimSpace name = name /\
      allBytes (fun c => isReDot c && negb (isChar 125 c)) name = true
  end.

(** *** Notions of the proofs about the legend formatter *)

(** The first byte, and the last byte, of a string is no [\s]. *)
Definition headSolid (s : string) : Prop :=
  match s with
  | String c _ => isReSpace c = false
  | EmptyString => False
  end.

Fixpoint lastSolid (s : string) : Prop :=
  match s with
  | EmptyString => False
  | String c EmptyString => isReSpace c = false
  | String _ s' => lastSolid s'
  end.

Definition nameByte (c : ascii) : bool := isReDot c && negb (isChar 125 c).

Definition revRunes : list string := map String.rev spaceRunes.

(** A rune whose bytes after the first are no [\s]. *)
Definition tailSolid (p : string) : bool :=
  match p with
  | String _ p' => allBytes (fun c => negb (isReSpace c)) p'
  | EmptyString => false
  end.


(** A template of two placeholders and the text around them, single
    braces included. *)
Definition sampleTemplate : list Segment :=
  [ Literal "{host="; Placeholder " " "host" "  "; Literal ", zone=";
    Placeholder "" "zone" ""; Literal "}" ].

(** A placeholder with one more brace on either side. *)
Definition bracedTemplate : list Segment :=
  [ Literal "{"; Placeholder "" "host" ""; Literal "}" ].

(** *** The rows of the time-series transformation *)

(** A result row as the loop of the time-series branch reads it: the
    legend name derived from its tags, the tags, and its point. [i] is the
    number of the row. *)
Definition labelRow (ParseFloat : string -> Error + float64)
    (rangeTags : nat -> MapOrder string) (target : Target.t) (i : nat)
    (r : list ResultField.t) : Error + (string * gmap string string * Point.t) :=
  '(timestamp, value, kv) ← readFields ParseFloat target r 0 float64_zero ∅;
  inr (formatLegend (rangeTags i) kv (Target.LegendFormat target), kv,
       Point.mk timestamp value).

Fixpoint labelRows (ParseFloat : string -> Error + float64)
    (rangeTags : nat -> MapOrder string) (target : Target.t) (i : nat)
    (rows : list (list ResultField.t))
    : Error + list (string * gmap string string * Point.t) :=
  match rows with
  | [] => inr []
  | r :: rest =>
      rec ← labelRow ParseFloat rangeTags target i r;
      recs ← labelRows ParseFloat rangeTags target (S i) rest;
      inr (rec :: recs)
  end.

(** The series of a legend name: the points of the rows of that name, in
    row order, under the tags of the first of them. *)
Definition seriesOf (name : string)
    (recs : list (string * gmap string string * Point.t)) : option TimeSeries.t :=
  match filter (fun rec => rec.1.1 = name) recs with
  | [] => None
  | (_, kv, p) :: rest =>
      Some {| TimeSeries.Name := name;
              TimeSeries.Tags := kv;
              TimeSeries.Points := p :: map snd rest |}
  end.

(** [strconv.ParseFloat] on the texts 1 and 2. *)
Definition float64_one : float64 := S754_finite false 4503599627370496 (-52).
Definition float64_two : float64 := S754_finite false 4503599627370496 (-51).

Definition sampleParseFloat (s : string) : Error + float64 :=
  if bool_decide (s = "1") then inr float64_one
  else if bool_decide (s = "2") then inr float64_two
  else inl "strconv.ParseFloat: invalid syntax".

(** An Insights target on the group [app], its rows read with the columns
    [bin] and [count]. *)
Definition insightsTarget (queryId format legendFormat : string) : Target.t :=
  {| Target.RefId := "A";
     Target.QueryType := EmptyString;
     Target.Format := format;
     Target.Region := "us-east-1";
     Target.UseInsights := true;
     Target.Input := sampleInput [] None None;
     Target.InputInsightsStartQuery :=
       {| StartQueryInput.StartTime := None;
          StartQueryInput.EndTime := None;
          StartQueryInput.Limit := None;
          StartQueryInput.LogGroupName := Some "app";
          StartQueryInput.LogGroupNames := None;
          StartQueryInput.QueryString := Some "stats count(*) by bin(1m), host, zone" |};
     Target.InputInsightsQueryId := EmptyString;
     Target.QueryId := queryId;
     Target.LegendFormat := legendFormat;
     Target.TimestampColumn := "bin";
     Target.ValueColumn := "count";
     Target.StartFromHead := false |}.

(** A result row of the fields [bin], [host], [zone] and [count]. *)
Definition sampleRow (bin host zone count : string) : list ResultField.t :=
  [ ResultField.mk "bin" bin; ResultField.mk "host" host;
    ResultField.mk "zone" zone; ResultField.mk "count" count ].

(** The map order of the library for the rows of even number, its reverse
    for the rows of odd number. *)
Definition alternatingOrder (i : nat) : MapOrder string :=
  fun m => if Nat.even i then map_to_list m else reverse (map_to_list m).

(** The two default legends of the tags {host: a, zone: x}. *)
Definition legendZoneHost : string :=
  "{zone=" +:+ quote +:+ "x" +:+ quote +:+ ",host=" +:+ quote +:+ "a" +:+ quote +:+ "}".
Definition legendHostZone : string :=
  "{host=" +:+ quote +:+ "a" +:+ quote +:+ ",zone=" +:+ quote +:+ "x" +:+ quote +:+ "}".

(** The instant of a [Time] in milliseconds since the epoch. *)
Definition UnixMilli (t : Time) : Z := unixSec t * 1000 + nsec t / 1000000.

(** A client whose start-job call assigns the job id [queryId]. *)
Definition startClient (queryId : string) : Client :=
  {| filterLogEvents := fun _ => LastPage [];
     getLogEvents := fun _ => LastPage [];
     startQuery := fun _ => inr queryId;
     describeQueries := fun _ => inr [];
     getQueryResults := fun _ => inl "ResourceNotFoundException";
     stopQuery := fun _ => inr true;
     describeLogGroups := fun _ => LastPage [];
     describeLogStreams := fun _ _ => LastPage [] |}.

(** The query of a target that decodes. *)
Definition queryOf (target : Target.t) : Query.t :=
  Query.mk (Target.RefId target) (Parsed ∅ (inr target)).

(** The two sample rows of the tags {host: a, zone: x}, as read under the
    template [{{ host }}/{{ zone }}]. *)
Definition sampleLabelled : list (string * gmap string string * Point.t) :=
  [ ("a/x", {[ "host" := "a"; "zone" := "x" ]}, Point.mk 1577836800000 float64_one);
    ("a/x", {[ "host" := "a"; "zone" := "x" ]}, Point.mk 1577836860000 float64_two) ].

(** *** Listings and sorting *)

(** Every request of a paginated listing is answered. *)
Fixpoint answered {P} (ps : Pages P) : Prop :=
  match ps with
  | NextPage _ more => answered more
  | LastPage _ => True
  | RequestFailed _ => False
  end.

(** What [sort.Slice] promises: the elements are kept, and under a [less]
    that compares a numeric key from large to small, no element stands
    before one of a larger key. The order among equal keys is left open:
    the sort is not stable. *)
Definition sortsSlices (sortSlice : forall A : Type, (A -> A -> bool) -> list A -> list A)
    : Prop :=
  (forall A (less : A -> A -> bool) l, sortSlice A less l ≡ₚ l) /\
  (forall A (key : A -> Z) l,
      StronglySorted (fun a b => key b <= key a)
                     (sortSlice A (fun a b => key b <? key a) l)).

(** A sort to stand for [sort.Slice]: insertion from the right. *)
Fixpoint insertBy {A} (less : A -> A -> bool) (x : A) (l : list A) : list A :=
  match l with
  | [] => [x]
  | y :: l' => if less y x then y :: insertBy less x l' else x :: l
  end.

Definition insertionSort (A : Type) (less : A -> A -> bool) (l : list A) : list A :=
  foldr (insertBy less) [] l.

Definition sampleGroup (i : Z) : LogGroup.t :=
  {| LogGroup.LogGroupName := "/app/web"; LogGroup.CreationTime := 1577836800000 + i |}.

(** Three pages of fifty log groups each. *)
Definition threePagesOfFifty : Pages (list LogGroup.t) :=
  NextPage (map sampleGroup (seqZ 0 50))
    (NextPage (map sampleGroup (seqZ 50 50))
       (LastPage (map sampleGroup (seqZ 100 50)))).

(** A client whose log-group listing answers with [ps]. *)
Definition groupsClient (ps : Pages (list LogGroup.t)) : Client :=
  {| filterLogEvents := fun _ => LastPage [];
     getLogEvents := fun _ => LastPage [];
     startQuery := fun _ => inl "AccessDeniedException";
     describeQueries := fun _ => inr [];
     getQueryResults := fun _ => inl "ResourceNotFoundException";
     stopQuery := fun _ => inr true;
     describeLogGroups := fun _ => ps;
     describeLogStreams := fun _ _ => LastPage [] |}.

(** The row of a suggestion: the name, twice. *)
Definition suggestionRow (name : string) : TableRow.t :=
  TableRow.mk [ RowValue.mk RowValue_TYPE_STRING name;
                RowValue.mk RowValue_TYPE_STRING name ].

(** The response of a suggestion query with the rows [rows]. *)
Definition suggestionResponse (rows : list TableRow.t) : DatasourceResponse.t :=
  DatasourceResponse.mk
    [ {| QueryResult.Error := EmptyString;
         QueryResult.RefId := "metricFindQuery";
         QueryResult.MetaJson := MetaNone;
         QueryResult.Series := [];
         QueryResult.Tables :=
           [ {| Table.Columns := [ TableColumn.mk "text"; TableColumn.mk "value" ];
                Table.Rows := rows |} ] |} ].

(** *** [Format(time.RFC3339)] of a process whose zone is UTC *)

Definition twoDigits (n : Z) : string :=
  String (byte (Z.to_N (48 + n / 10 mod 10))) (String (byte (Z.to_N (48 + n mod 10))) EmptyString).

Definition formatRFC3339UTC (t : Time) : string :=
  let days := unixSec t / 86400 in
  let secs := unixSec t mod 86400 in
  let z := days + 719468 in
  let era := z / 146097 in
  let doe := z - era * 146097 in
  let yoe := (doe - doe / 1460 + doe / 36524 - doe / 146096) / 365 in
  let doy := doe - (365 * yoe + yoe / 4 - yoe / 100) in
  let mp := (5 * doy + 2) / 153 in
  let d := doy - (153 * mp + 2) / 5 + 1 in
  let m := if mp <? 10 then mp + 3 else mp - 9 in
  let y := yoe + era * 400 + (if m <=? 2 then 1 else 0) in
  twoDigits (y / 100) +:+ twoDigits y +:+ "-" +:+ twoDigits m +:+ "-" +:+ twoDigits d
  +:+ "T" +:+ twoDigits (secs / 3600) +:+ ":" +:+ twoDigits (secs / 60 mod 60)
  +:+ ":" +:+ twoDigits (secs mod 60) +:+ "Z".

(** A plain-retrieval target on the group [app]. *)
Definition retrievalTarget (refId format : string) : Target.t :=
  {| Target.RefId := refId;
     Target.QueryType := EmptyString;
     Target.Format := format;
     Target.Region := "us-east-1";
     Target.UseInsights := false;
     Target.Input := sampleInput [] (Some "ERROR") (Some 5);
     Target.InputInsightsStartQuery :=
       {| StartQueryInput.StartTime := None;
          StartQueryInput.EndTime := None;
          StartQueryInput.Limit := None;
          StartQueryInput.LogGroupName := None;
          StartQueryInput.LogGroupNames := None;
          StartQueryInput.QueryString := None |};
     Target.InputInsightsQueryId := EmptyString;
     Target.QueryId := EmptyString;
     Target.LegendFormat := EmptyString;
     Target.TimestampColumn := EmptyString;
     Target.ValueColumn := EmptyString;
     Target.StartFromHead := false |}.

(** The retrieval of a target within a request. *)
Definition retrieval (getClient : DatasourceInfo -> string -> Error + Client)
    (tsdbReq : DatasourceRequest.t) (target : Target.t) : M FilterLogEventsOutput.t :=
  getLogEvent getClient tsdbReq (Target.Region target) (Target.Input target)
              (Target.StartFromHead target).

(** ** Notions of the further properties *)

(** The error of the request that a listing fails at, when there is one. *)
Fixpoint failure {P} (ps : Pages P) : option Error :=
  match ps with
  | NextPage _ more => failure more
  | LastPage _ => None
  | RequestFailed e => Some e
  end.

(** The requests that reading a listing to its end takes: one per page, and
    the failing one. *)
Definition requestsToEnd {P} (ps : Pages P) : nat :=
  length (allPages ps) + (match failure ps with Some _ => 1 | None => 0 end).

(** Three events, then a refused request. *)
Definition threeThenRefused : Pages (list FilteredLogEvent.t) :=
  NextPage (samplePage 3) (RequestFailed "ThrottlingException").

(** The result that carries an error and nothing else. *)
Definition errorResult (refId : string) (e : Error) : QueryResult.t :=
  {| QueryResult.Error := e;
     QueryResult.RefId := refId;
     QueryResult.MetaJson := MetaNone;
     QueryResult.Series := [];
     QueryResult.Tables := [] |}.

(** The two bounds of the time range, read the way every path reads them:
    [FromRaw] first. *)
Definition parseTimeRange (tr : TimeRange) : Error + (Z * Z) :=
  fromRaw ← ParseInt (FromRaw tr);
  toRaw ← ParseInt (ToRaw tr);
  inr (fromRaw, toRaw).

(** The second of a millisecond clock reading, counted from the epoch
    downwards as well as upwards, and the nanoseconds within it. *)
Definition instantOfMillis (ms : Z) : Time :=
  mkTime (ms / 1000) (ms mod 1000 * 1000000).

(** [r] is the table of the records of [resp] under the reference [refId]:
    the four columns, and one row of four strings per record, in the order
    of the records. *)
Definition isLogTable (FormatRFC3339 : Time -> string) (refId : string)
    (resp : FilterLogEventsOutput.t) (r : QueryResult.t) : Prop :=
  QueryResult.RefId r = refId /\
  QueryResult.Error r = EmptyString /\
  QueryResult.MetaJson r = MetaNone /\
  QueryResult.Series r = [] /\
  exists table,
    QueryResult.Tables r = [table] /\
    map TableColumn.Name (Table.Columns table)
    = ["Timestamp"; "IngestionTime"; "LogStreamName"; "Message"] /\
    Forall2 (fun row e =>
               Forall (fun v => RowValue.Kind v = RowValue_TYPE_STRING) (TableRow.Values row) /\
               map RowValue.StringValue (TableRow.Values row)
               = [ FormatRFC3339 (instantOfMillis (FilteredLogEvent.Timestamp e));
                   FormatRFC3339 (instantOfMillis (FilteredLogEvent.IngestionTime e));
                   FilteredLogEvent.LogStreamName e;
                   FilteredLogEvent.Message e ])
            (Table.Rows table) (FilterLogEventsOutput.Events resp).

(** The targets of the table format, each with the response of its
    retrieval. *)
Definition tableTargets (pairs : list (Target.t * FilterLogEventsOutput.t))
    : list (Target.t * FilterLogEventsOutput.t) :=
  filter (fun p => Target.Format p.1 = "table") pairs.

(** A retrieval target of some other format. *)
Definition sampleBatch : list Target.t :=
  [ retrievalTarget "A" "table"; retrievalTarget "B" "logs"; retrievalTarget "C" "table" ].

(** The batches of [Query]'s third path: the first query is neither a
    suggestion nor an annotation query, and every query decodes;
    [decoded] are the targets. *)
Definition decodedBatch (tsdbReq : DatasourceRequest.t) (decoded : list Target.t) : Prop :=
  exists query0 (members : gmap string string),
    head (DatasourceRequest.Queries tsdbReq) = Some query0 /\
    NewJson (Query.ModelJson query0) = inr members /\
    MustString members "queryType" <> "metricFindQuery" /\
    MustString members "queryType" <> "annotationQuery" /\
    Forall2 (fun q t => Unmarshal (Query.ModelJson q) = inr t)
            (DatasourceRequest.Queries tsdbReq) decoded.

(** The batches that go to plain retrieval: no target asks for Insights. *)
Definition plainBatch (tsdbReq : DatasourceRequest.t) (decoded : list Target.t) : Prop :=
  decodedBatch tsdbReq decoded /\
  Forall (fun t => Target.UseInsights t = false) decoded.

(** The response of the filter operation on [threeThenFour]. *)
Definition sevenEvents : FilterLogEventsOutput.t :=
  FilterLogEventsOutput.mk (samplePage 3 ++ samplePage 4).

(** A batch whose second retrieval the service refuses: the filter
    operation answers the group [app] and refuses the others. *)
Definition refusingClient : Client :=
  {| filterLogEvents :=
       fun input =>
         if bool_decide (FilterLogEventsInput.LogGroupName input = Some "app")
         then threeThenFour
         else RequestFailed "ResourceNotFoundException";
     getLogEvents := fun _ => LastPage [];
     startQuery := fun _ => inl "AccessDeniedException";
     describeQueries := fun _ => inr [];
     getQueryResults := fun _ => inl "ResourceNotFoundException";
     stopQuery := fun _ => inr true;
     describeLogGroups := fun _ => LastPage [];
     describeLogStreams := fun _ _ => LastPage [] |}.

(** The target [retrievalTarget refId format] on the group [gone]. *)
Definition goneTarget (refId format : string) : Target.t :=
  let t := retrievalTarget refId format in
  {| Target.RefId := Target.RefId t;
     Target.QueryType := Target.QueryType t;
     Target.Format := Target.Format t;
     Target.Region := Target.Region t;
     Target.UseInsights := Target.UseInsights t;
     Target.Input :=
       {| FilterLogEventsInput.StartTime := None;
          FilterLogEventsInput.EndTime := None;
          FilterLogEventsInput.LogGroupName := Some "gone";
          FilterLogEventsInput.LogStreamNames := [];
          FilterLogEventsInput.FilterPattern := Some "ERROR";
          FilterLogEventsInput.Limit := Some 5 |};
     Target.InputInsightsStartQuery := Target.InputInsightsStartQuery t;
     Target.InputInsightsQueryId := Target.InputInsightsQueryId t;
     Target.QueryId := Target.QueryId t;
     Target.LegendFormat := Target.LegendFormat t;
     Target.TimestampColumn := Target.TimestampColumn t;
     Target.ValueColumn := Target.ValueColumn t;
     Target.StartFromHead := Target.StartFromHead t |}.

(** A request like [sampleRequest] with a time range that is no number. *)
Definition undatedRequest (queries : list Query.t) : DatasourceRequest.t :=
  {| DatasourceRequest.TimeRange := mkTimeRange "now-6h" "now";
     DatasourceRequest.Datasource := mkDatasourceInfo 1 "{}";
     DatasourceRequest.Queries := queries |}.

(** The query of an annotation target. *)
Definition annotationQueryOf (target : Target.t) : Query.t :=
  Query.mk (Target.RefId target)
           (Parsed {[ "queryType" := "annotationQuery" ]} (inr target)).

(** *** The resumption of an Insights job *)

(** The log group that the job listing is asked for: the first of
    [LogGroupNames] when that slice is not nil, [LogGroupName] otherwise.
    [None]: the slice is empty, and its first element does not exist. *)
Definition jobScope (input : StartQueryInput.t) : option (option string) :=
  match StartQueryInput.LogGroupNames input with
  | Some names => Some <$> head names
  | None => Some (StartQueryInput.LogGroupName input)
  end.

(** The metadata of a resumed job. *)
Definition jobMeta (queryId status : string) : gmap string string :=
  {[ "QueryId" := queryId; "Status" := status ]}.

(** A call of [handleInsightsQuery] that resumes the job of [target] with
    the client [svc], the job listing answering with [queries]. *)
Record Resumes (getClient : DatasourceInfo -> string -> Error + Client)
    (tsdbReq : DatasourceRequest.t) (query : Query.t) (target : Target.t)
    (svc : Client) (queries : list QueryInfo.t) : Prop := mkResumes {
  resumes_range :
    exists fromRaw toRaw,
      parseTimeRange (DatasourceRequest.TimeRange tsdbReq) = inr (fromRaw, toRaw);
  resumes_target : Unmarshal (Query.ModelJson query) = inr target;
  resumes_client :
    getClient (DatasourceRequest.Datasource tsdbReq) (Target.Region target) = inr svc;
  resumes_job : Target.QueryId target <> EmptyString;
  resumes_listing :
    exists logGroupName,
      jobScope (Target.InputInsightsStartQuery target) = Some logGroupName /\
      describeQueries svc logGroupName = inr queries
}.

(** The table of Insights results is read off the rows as they are: the
    columns are the fields of the first row, and each row gives its own
    values, as many as it has. *)
Definition isInsightsTable (results : list (list ResultField.t)) (table : Table.t) : Prop :=
  map TableColumn.Name (Table.Columns table)
  = map ResultField.Field (default [] (head results)) /\
  Forall2 (fun row r =>
             Forall (fun v => RowValue.Kind v = RowValue_TYPE_STRING) (TableRow.Values row) /\
             map RowValue.StringValue (TableRow.Values row) = map ResultField.Value r)
          (Table.Rows table) results.

(** A client for the job [q-1] on the group [app]: the job listing answers
    with [queries], the fetch with [results]. *)
Definition jobClient (queries : list QueryInfo.t)
    (results : Error + GetQueryResultsOutput.t) : Client :=
  {| filterLogEvents := fun _ => LastPage [];
     getLogEvents := fun _ => LastPage [];
     startQuery := fun _ => inl "LimitExceededException";
     describeQueries := fun _ => inr queries;
     getQueryResults := fun _ => results;
     stopQuery := fun _ => inl "InvalidParameterException";
     describeLogGroups := fun _ => LastPage [];
     describeLogStreams := fun _ _ => LastPage [] |}.

Definition sampleRows : list (list ResultField.t) :=
  [ sampleRow "2020-01-01 00:00:00.000" "a" "x" "1";
    sampleRow "2020-01-01 00:01:00.000" "a" "x" "2" ].

(** A row whose time is no time. *)
Definition brokenRows : list (list ResultField.t) :=
  [ sampleRow "2020-01-01 00:00:00.000" "a" "x" "1";
    sampleRow "yesterday" "a" "x" "2" ].

(** An Insights target like [insightsTarget] whose [LogGroupNames] is the
    empty slice. *)
Definition scopelessTarget : Target.t :=
  let t := insightsTarget "q-1" "table" EmptyString in
  {| Target.RefId := Target.RefId t;
     Target.QueryType := Target.QueryType t;
     Target.Format := Target.Format t;
     Target.Region := Target.Region t;
     Target.UseInsights := Target.UseInsights t;
     Target.Input := Target.Input t;
     Target.InputInsightsStartQuery :=
       {| StartQueryInput.StartTime := None;
          StartQueryInput.EndTime := None;
          StartQueryInput.Limit := None;
          StartQueryInput.LogGroupName := Some "app";
          StartQueryInput.LogGroupNames := Some [];
          StartQueryInput.QueryString := Some "stats count(*) by bin(1m)" |};
     Target.InputInsightsQueryId := Target.InputInsightsQueryId t;
     Target.QueryId := Target.QueryId t;
     Target.LegendFormat := Target.LegendFormat t;
     Target.TimestampColumn := Target.TimestampColumn t;
     Target.ValueColumn := Target.ValueColumn t;
     Target.StartFromHead := Target.StartFromHead t |}.

(** A call of [handleInsightsQuery] that resumes a job listed as
    [Complete] and fetches [gresp], itself [Complete]. *)
Definition Fetches (getClient : DatasourceInfo -> string -> Error + Client)
    (tsdbReq : DatasourceRequest.t) (query : Query.t) (target : Target.t)
    (gresp : GetQueryResultsOutput.t) : Prop :=
  exists svc queries q,
    Resumes getClient tsdbReq query target svc queries /\
    findQuery (Target.QueryId target) queries = Some q /\
    QueryInfo.Status q = "Complete" /\
    getQueryResults svc (Target.QueryId target) = inr gresp /\
    GetQueryResultsOutput.Status gresp = "Complete".

(** The result of a completed job with the series and tables given. *)
Definition completeResult (target : Target.t) (series : list TimeSeries.t)
    (tables : list Table.t) : QueryResult.t :=
  {| QueryResult.Error := EmptyString;
     QueryResult.RefId := Target.RefId target;
     QueryResult.MetaJson := MetaObject (jobMeta (Target.QueryId target) "Complete");
     QueryResult.Series := series;
     QueryResult.Tables := tables |}.

(** The client of the completed job [q-1] with the result rows [rows]. *)
Definition completeClient (rows : list (list ResultField.t)) : Client :=
  jobClient [QueryInfo.mk "q-1" "Complete"] (inr (GetQueryResultsOutput.mk rows "Complete")).

(** *** Suggestions *)

(** The parameters of a suggestion query of the subtype [subtype]. *)
Definition suggestParameters (subtype : string) : gmap string string :=
  {[ "queryType" := "metricFindQuery"; "subtype" := subtype; "region" := "us-east-1" ]}.

(** Fifty log groups, then a refused request. *)
Definition fiftyThenRefused : Pages (list LogGroup.t) :=
  NextPage (map sampleGroup (seqZ 0 50)) (RequestFailed "ThrottlingException").

Definition sampleStream (i : Z) : LogStream.t :=
  {| LogStream.LogStreamName := "i-0abc"; LogStream.CreationTime := 1577836800000 + i |}.

(** Two pages of forty log streams each, then a refused request. *)
Definition eightyThenRefused : Pages (list LogStream.t) :=
  NextPage (map sampleStream (seqZ 0 40))
    (NextPage (map sampleStream (seqZ 40 40)) (RequestFailed "ThrottlingException")).

(** A client whose log-stream listing answers with [ps]. *)
Definition streamsClient (ps : Pages (list LogStream.t)) : Client :=
  {| filterLogEvents := fun _ => LastPage [];
     getLogEvents := fun _ => LastPage [];
     startQuery := fun _ => inl "AccessDeniedException";
     describeQueries := fun _ => inr [];
     getQueryResults := fun _ => inl "ResourceNotFoundException";
     stopQuery := fun _ => inr true;
     describeLogGroups := fun _ => LastPage [];
     describeLogStreams := fun _ _ => ps |}.

(** The query of a suggestion. *)
Definition suggestQuery (subtype : string) : Query.t :=
  Query.mk "metricFindQuery" (Parsed (suggestParameters subtype) (inl "json: cannot unmarshal"))
.

(** *** Templates without a closing *)

(** Two closing braces in a row occur in [s]. *)
Fixpoint hasClosing (s : string) : bool :=
  match s with
  | String c s' =>
      (isChar 125 c && match s' with String d _ => isChar 125 d | EmptyString => false end)
      || hasClosing s'
  | EmptyString => false
  end.

(** *** The tags of a row *)

(** The value of the last field of the name [k] in the row [r]. *)
Definition lastField (k : string) (r : list ResultField.t) : option string :=
  ResultField.Value <$> last (filter (fun d => ResultField.Field d = k) r).


(** * Properties *)

(** ** The monad *)

Lemma bind_ret_l {A B} (a : A) (f : A -> M B) : bind (ret a) f = f a.
Proof. unfold bind, ret. destruct (f a) as [tr r]. done. Qed.

Lemma bind_tell {B} (op : Op) (k : M B) :
  (tell op ;;; k) = (op :: requests k, outcome k).
Proof. unfold bind, tell. by destruct k. Qed.

(** ** Pagination *)

Lemma len_app {A} (l1 l2 : list A) : len (l1 ++ l2) = len l1 + len l2.
Proof. unfold len. rewrite length_app. lia. Qed.

Lemma len_nonneg {A} (l : list A) : 0 <= len l.
Proof. unfold len. lia. Qed.

(** [afterPage] with a limit stops exactly at the threshold
    [Z.min limit 10001]. *)
Lemma afterPage_threshold limit events lastPage :
  afterPage (Some limit) events lastPage
  = ret (if Z.min limit 10001 <=? len events then false else negb lastPage, events).
Proof.
  unfold afterPage. simpl.
  destruct (10000 <? len events) eqn:E1.
  - apply Z.ltb_lt in E1.
    destruct (Z.leb_spec (Z.min limit 10001) (len events)); [done | lia].
  - apply Z.ltb_ge in E1.
    destruct (Z.leb_spec limit (len events));
      destruct (Z.leb_spec (Z.min limit 10001) (len events)); try done; lia.
Qed.

(** With a limit, pagination reads whole pages up to the first one at which
    the accumulated count reaches the threshold. *)
Lemma eachPage_threshold op limit (ps : Pages (list FilteredLogEvent.t)) :
  forall acc,
    let T := Z.min limit 10001 in
    len acc < T ->
    T <= len acc + len (concat (allPages ps)) ->
    exists k : nat,
      (1 <= k)%nat /\
      eachPage op ps
        (fun events page lastPage => afterPage (Some limit) (events ++ page) lastPage)
        acc
      = (replicate k op, Ok (acc ++ concat (take k (allPages ps)))) /\
      T <= len (acc ++ concat (take k (allPages ps))) /\
      len (acc ++ concat (take (k - 1) (allPages ps))) < T.
Proof.
  induction ps as [page more IH | page | e]; intros acc T Hacc Htotal;
    cbn [eachPage allPages concat] in *.
  - rewrite afterPage_threshold, bind_tell, bind_ret_l. fold T.
    destruct (Z.leb_spec T (len (acc ++ page))) as [Hstop | Hgo].
    + exists 1%nat. cbn. rewrite !app_nil_r. repeat split; (done || lia).
    + destruct (IH (acc ++ page)) as (k & Hk & Heq & Hge & Hlt).
      * done.
      * rewrite !len_app in *. lia.
      * exists (S k). fold T in Hge, Hlt. cbn [negb].
        rewrite Heq. cbn [requests outcome fst snd replicate take concat].
        rewrite <- !(assoc_L (++)) in *.
        repeat split; try (done || lia).
        destruct k as [|k]; [lia|]. cbn [Nat.sub take concat] in *.
        by rewrite Nat.sub_0_r in Hlt.
  - rewrite afterPage_threshold, bind_tell, bind_ret_l. fold T.
    exists 1%nat. cbn. rewrite !app_nil_r in *.
    rewrite len_app in *. repeat split; (done || lia).
  - unfold len in Htotal at 2. cbn in Htotal. lia.
Qed.

Lemma eachPage_mapPages {P Q St} op (f : P -> Q) (ps : Pages P)
    (fn : St -> Q -> bool -> M (bool * St)) :
  forall st,
    eachPage op (mapPages f ps) fn st
    = eachPage op ps (fun st page lastPage => fn st (f page) lastPage) st.
Proof.
  induction ps as [page more IH | page | e]; intros st; cbn [mapPages eachPage].
  - f_equal. destruct (fn st (f page) false) as [tr [[goOn st'] | e | ]]; cbn; [|done..].
    destruct goOn; [|done]. by rewrite IH.
  - done.
  - done.
Qed.

(** [getLogEvent] paginates what [offered] describes, with the page
    callback of the source. *)
Lemma getLogEvent_offered getClient tsdbReq region input startFromHead svc fp :
  getClient (DatasourceRequest.Datasource tsdbReq) region = inr svc ->
  FilterLogEventsInput.FilterPattern input = Some fp ->
  getLogEvent getClient tsdbReq region input startFromHead
  = (let* events :=
       eachPage (fst (offered svc input startFromHead))
                (snd (offered svc input startFromHead))
                (fun events page lastPage =>
                   afterPage (FilterLogEventsInput.Limit input) (events ++ page) lastPage)
                [] in
     ret (FilterLogEventsOutput.mk events)).
Proof.
  intros Hsvc Hfp. unfold getLogEvent, offered. rewrite Hsvc, Hfp.
  cbn [try deref]. rewrite !bind_ret_l.
  destruct fp as [|c fp].
  - rewrite bool_decide_eq_true_2 by done.
    destruct (FilterLogEventsInput.LogStreamNames input) as [|name [|name' names]].
    + done.
    + change (len [name] =? 1) with true. cbn [negb orb head deref fst snd].
      rewrite bind_ret_l. unfold GetLogEventsPages. by rewrite eachPage_mapPages.
    + replace (len (name :: name' :: names) =? 1) with false; [done|].
      symmetry. apply Z.eqb_neq. unfold len. cbn [length]. lia.
  - rewrite bool_decide_eq_false_2 by done. cbn [negb orb].
    by destruct (FilterLogEventsInput.LogStreamNames input) as [|name [|name' names]].
Qed.

(** The outcome of a retrieval with a limit, when the records on offer
    reach the threshold [Z.min limit 10001]: whole pages, up to the first
    page at which the accumulated count reaches the threshold. *)
Lemma getLogEvent_threshold getClient tsdbReq region input startFromHead svc fp limit :
  getClient (DatasourceRequest.Datasource tsdbReq) region = inr svc ->
  FilterLogEventsInput.FilterPattern input = Some fp ->
  FilterLogEventsInput.Limit input = Some limit ->
  0 < limit ->
  Z.min limit 10001 <= len (concat (available svc input startFromHead)) ->
  exists k : nat,
    getLogEvent getClient tsdbReq region input startFromHead
    = (replicate k (fst (offered svc input startFromHead)),
       Ok (FilterLogEventsOutput.mk (concat (take k (available svc input startFromHead)))))
    /\ Z.min limit 10001 <= len (concat (take k (available svc input startFromHead)))
    /\ len (concat (take (k - 1) (available svc input startFromHead))) < Z.min limit 10001.
Proof.
  intros Hsvc Hfp Hlimit Hpos Htotal.
  rewrite (getLogEvent_offered _ _ _ _ _ _ _ Hsvc Hfp), Hlimit.
  destruct (eachPage_threshold (fst (offered svc input startFromHead)) limit
              (snd (offered svc input startFromHead)) [])
    as (k & _ & Heq & Hge & Hlt).
  - unfold len. cbn. lia.
  - unfold len at 1. cbn [length]. exact Htotal.
  - exists k. rewrite Heq. cbn [app] in *. unfold bind, ret, available.
    by rewrite app_nil_r.
Qed.

(** ** C1: the safety cap *)

(** C1, as stated, fails: 12,000 records are on offer in two pages of 6,000
    and the requested limit is 20,000; the retrieval returns all 12,000
    records, not 10,000. *)
Lemma C1_counterexample :
  let svc := filterClient twoLargePages in
  let input := sampleInput [] (Some "ERROR") (Some 20000) in
  len (concat (available svc input false)) = 12000 /\
  exists resp,
    getLogEvent (clientFor svc) (sampleRequest []) "us-east-1" input false
    = ([OpFilterLogEvents; OpFilterLogEvents], Ok resp)
    /\ len (FilterLogEventsOutput.Events resp) = 12000.
Proof.
  cbv zeta. split; [by vm_compute|].
  exists (FilterLogEventsOutput.mk (samplePage 6000 ++ samplePage 6000)).
  split; by vm_compute.
Qed.

(** C1, amended. For every plain retrieval (filter or single-stream
    strategy) with a requested limit above 10,000 for which more than 10,000
    records are on offer, no error is raised and the retrieval returns whole
    pages, in the order the service produced them, up to and including the
    first page at which the accumulated count exceeds 10,000: more than
    10,000 records, of which at most 10,000 came before the last page
    read. *)
Theorem C1_safety_cap_stops_after_exceeding
    getClient tsdbReq region input startFromHead svc fp limit :
  getClient (DatasourceRequest.Datasource tsdbReq) region = inr svc ->
  FilterLogEventsInput.FilterPattern input = Some fp ->
  FilterLogEventsInput.Limit input = Some limit ->
  10000 < limit ->
  10000 < len (concat (available svc input startFromHead)) ->
  exists k : nat,
    getLogEvent getClient tsdbReq region input startFromHead
    = (replicate k (fst (offered svc input startFromHead)),
       Ok (FilterLogEventsOutput.mk (concat (take k (available svc input startFromHead)))))
    /\ 10000 < len (concat (take k (available svc input startFromHead)))
    /\ len (concat (take (k - 1) (available svc input startFromHead))) <= 10000.
Proof.
  intros Hsvc Hfp Hlimit Hlarge Htotal.
  destruct (getLogEvent_threshold getClient tsdbReq region input startFromHead
              svc fp limit Hsvc Hfp Hlimit) as (k & Heq & Hge & Hlt); [lia | lia |].
  exists k. repeat split; [done | lia | lia].
Qed.

Lemma C1_safety_cap_witness :
  let svc := filterClient twoLargePages in
  let input := sampleInput [] (Some "ERROR") (Some 20000) in
  exists k : nat,
    getLogEvent (clientFor svc) (sampleRequest []) "us-east-1" input false
    = (replicate k (fst (offered svc input false)),
       Ok (FilterLogEventsOutput.mk (concat (take k (available svc input false)))))
    /\ 10000 < len (concat (take k (available svc input false)))
    /\ len (concat (take (k - 1) (available svc input false))) <= 10000.
Proof.
  cbv zeta.
  apply (C1_safety_cap_stops_after_exceeding
           (clientFor (filterClient twoLargePages)) (sampleRequest []) "us-east-1"
           (sampleInput [] (Some "ERROR") (Some 20000)) false
           (filterClient twoLargePages) "ERROR" 20000).
  - reflexivity.
  - reflexivity.
  - reflexivity.
  - lia.
  - vm_compute. reflexivity.
Defined.

(** ** C2: the requested limit *)

(** C2, as stated, fails: with Limit = 5 and seven records on offer, in a
    page of three and a page of four, the retrieval returns seven records,
    not five. *)
Lemma C2_counterexample :
  let svc := filterClient threeThenFour in
  let input := sampleInput [] (Some "ERROR") (Some 5) in
  len (concat (available svc input false)) = 7 /\
  getLogEvent (clientFor svc) (sampleRequest []) "us-east-1" input false
  = ([OpFilterLogEvents; OpFilterLogEvents],
     Ok (FilterLogEventsOutput.mk (samplePage 3 ++ samplePage 4)))
  /\ len (samplePage 3 ++ samplePage 4) = 7.
Proof. cbv zeta. repeat split; by vm_compute. Qed.

(** C2, amended. For every plain retrieval with requested Limit = 5 for
    which at least 5 records are on offer, the retrieval returns whole
    pages, in the order the service produced them, up to and including the
    first page at which the accumulated count reaches 5: at least 5 records,
    fewer than 5 of which came before the last page read. *)
Theorem C2_limit_stops_after_reaching
    getClient tsdbReq region input startFromHead svc fp :
  getClient (DatasourceRequest.Datasource tsdbReq) region = inr svc ->
  FilterLogEventsInput.FilterPattern input = Some fp ->
  FilterLogEventsInput.Limit input = Some 5 ->
  5 <= len (concat (available svc input startFromHead)) ->
  exists k : nat,
    getLogEvent getClient tsdbReq region input startFromHead
    = (replicate k (fst (offered svc input startFromHead)),
       Ok (FilterLogEventsOutput.mk (concat (take k (available svc input startFromHead)))))
    /\ 5 <= len (concat (take k (available svc input startFromHead)))
    /\ len (concat (take (k - 1) (available svc input startFromHead))) < 5.
Proof.
  intros Hsvc Hfp Hlimit Htotal.
  destruct (getLogEvent_threshold getClient tsdbReq region input startFromHead
              svc fp 5 Hsvc Hfp Hlimit) as (k & Heq & Hge & Hlt); [lia | |].
  - replace (Z.min 5 10001) with 5 by lia. done.
  - exists k. replace (Z.min 5 10001) with 5 in * by lia. done.
Qed.

Lemma C2_limit_witness :
  let svc := filterClient threeThenFour in
  let input := sampleInput [] (Some "ERROR") (Some 5) in
  exists k : nat,
    getLogEvent (clientFor svc) (sampleRequest []) "us-east-1" input false
    = (replicate k (fst (offered svc input false)),
       Ok (FilterLogEventsOutput.mk (concat (take k (available svc input false)))))
    /\ 5 <= len (concat (take k (available svc input false)))
    /\ len (concat (take (k - 1) (available svc input false))) < 5.
Proof.
  cbv zeta.
  apply (C2_limit_stops_after_reaching
           (clientFor (filterClient threeThenFour)) (sampleRequest []) "us-east-1"
           (sampleInput [] (Some "ERROR") (Some 5)) false
           (filterClient threeThenFour) "ERROR").
  - reflexivity.
  - reflexivity.
  - reflexivity.
  - vm_compute. discriminate.
Defined.

(** ** C7: the choice of the strategy *)

Lemma afterPage_requests limit events lastPage :
  requests (afterPage limit events lastPage) = [].
Proof.
  unfold afterPage. destruct (10000 <? len events); [done|].
  destruct limit as [l|]; [|done]. cbn. by destruct (l <=? len events).
Qed.

(** A paginator whose callback sends nothing sends one request per page it
    reads, and at least one. *)
Lemma eachPage_requests {P St} op (ps : Pages P) (fn : St -> P -> bool -> M (bool * St)) :
  (forall st page lastPage, requests (fn st page lastPage) = []) ->
  forall st, exists k : nat,
    (1 <= k)%nat /\ requests (eachPage op ps fn st) = replicate k op.
Proof.
  intros Hfn. induction ps as [page more IH | page | e]; intros st; cbn [eachPage].
  - rewrite bind_tell. specialize (Hfn st page false).
    destruct (fn st page false) as [tr [[goOn st'] | e | ]]; cbn in Hfn; subst tr;
      try (exists 1%nat; split; [lia | done]).
    destruct goOn.
    + destruct (IH st') as (k & Hk & Hreq). exists (S k). split; [lia|].
      cbn. unfold requests in Hreq.
      destruct (eachPage op more fn st') as [tr r]. cbn in *. by subst.
    + exists 1%nat. split; [lia | done].
  - rewrite bind_tell. specialize (Hfn st page true).
    destruct (fn st page true) as [tr [[goOn st'] | e | ]]; cbn in Hfn; subst tr;
      exists 1%nat; (split; [lia | done]).
  - exists 1%nat. split; [lia | done].
Qed.

(** What the callback keeps, the paginator keeps. *)
Lemma eachPage_invariant {P St} (I : St -> Prop) op (ps : Pages P)
    (fn : St -> P -> bool -> M (bool * St)) :
  (forall st page lastPage goOn st',
      I st -> outcome (fn st page lastPage) = Ok (goOn, st') -> I st') ->
  forall st st', I st -> outcome (eachPage op ps fn st) = Ok st' -> I st'.
Proof.
  intros Hfn. induction ps as [page more IH | page | e]; intros st st' Hst; cbn [eachPage].
  - rewrite bind_tell. cbn [outcome snd].
    specialize (Hfn st page false).
    destruct (fn st page false) as [tr [[goOn st1] | e | ]]; cbn; try done.
    specialize (Hfn goOn st1 Hst eq_refl).
    destruct goOn.
    + intros H. apply (IH st1 st' Hfn).
      unfold outcome. destruct (eachPage op more fn st1) as [tr' r]. exact H.
    + intros H. by inversion H; subst.
  - rewrite bind_tell. cbn [outcome snd].
    specialize (Hfn st page true).
    destruct (fn st page true) as [tr [[goOn st1] | e | ]]; cbn; try done.
    intros H. inversion H; subst. by apply (Hfn goOn).
  - done.
Qed.

Lemma afterPage_events limit events lastPage goOn events' :
  outcome (afterPage limit events lastPage) = Ok (goOn, events') -> events' = events.
Proof.
  unfold afterPage. destruct (10000 <? len events); [cbn; congruence|].
  destruct limit as [l|]; [|done]. cbn. destruct (l <=? len events); cbn; congruence.
Qed.

Lemma bind_requests_ret {A B} (m : M A) (f : A -> B) :
  requests (let* a := m in ret (f a)) = requests m.
Proof.
  destruct m as [tr [a | e | ]]; cbn; [|done..]. by rewrite app_nil_r.
Qed.

Lemma bind_outcome_ret {A B} (m : M A) (f : A -> B) b :
  outcome (let* a := m in ret (f a)) = Ok b ->
  exists a, outcome m = Ok a /\ b = f a.
Proof.
  destruct m as [tr [a | e | ]]; cbn; [|done..]. intros H. inversion H. eauto.
Qed.

(** C7. For a retrieval target whose filter pattern is set: when the
    pattern is empty and exactly one stream is named, every request of the
    retrieval is a stream read ([GetLogEvents], whose events carry no stream
    name) and every record returned is an event of that read with the
    requested stream name attached; in every other case (a non-empty
    pattern, or a number of stream names other than one) every request is a
    filter request. At least one request is sent either way. *)
Theorem C7_single_stream_strategy
    getClient tsdbReq region input startFromHead svc fp :
  getClient (DatasourceRequest.Datasource tsdbReq) region = inr svc ->
  FilterLogEventsInput.FilterPattern input = Some fp ->
  let call := getLogEvent getClient tsdbReq region input startFromHead in
  (forall name,
      fp = EmptyString ->
      FilterLogEventsInput.LogStreamNames input = [name] ->
      (exists k : nat, (1 <= k)%nat /\ requests call = replicate k OpGetLogEvents) /\
      (forall resp,
          outcome call = Ok resp ->
          (exists es : list OutputLogEvent.t,
              FilterLogEventsOutput.Events resp = map (filteredEvent name) es) /\
          Forall (fun e => FilteredLogEvent.LogStreamName e = name)
                 (FilterLogEventsOutput.Events resp)))
  /\
  (fp <> EmptyString \/ length (FilterLogEventsInput.LogStreamNames input) <> 1%nat ->
   exists k : nat, (1 <= k)%nat /\ requests call = replicate k OpFilterLogEvents).
Proof.
  intros Hsvc Hfp call. subst call. unfold getLogEvent. rewrite Hsvc, Hfp.
  cbn [try deref]. rewrite !bind_ret_l. split.
  - intros name -> Hnames. rewrite Hnames.
    rewrite bool_decide_eq_true_2 by done.
    change (len [name] =? 1) with true. cbn [negb orb head deref].
    rewrite bind_ret_l. unfold GetLogEventsPages. split.
    + rewrite bind_requests_ret. apply eachPage_requests.
      intros. apply afterPage_requests.
    + intros resp Hresp. apply bind_outcome_ret in Hresp as (events & Hev & ->).
      cbn [FilterLogEventsOutput.Events].
      assert (exists es, events = map (filteredEvent name) es) as [es ->].
      { revert Hev.
        apply (eachPage_invariant
                 (fun events => exists es, events = map (filteredEvent name) es));
          [|by exists []].
        intros st page lastPage goOn st' [es ->] Hcb.
        apply afterPage_events in Hcb. subst st'.
        exists (es ++ page). by rewrite map_app. }
      split; [by exists es|]. by apply Forall_map, Forall_true.
  - intros Hother.
    assert (negb (bool_decide (fp = EmptyString))
            || negb (len (FilterLogEventsInput.LogStreamNames input) =? 1) = true) as ->.
    { destruct Hother as [Hne | Hne].
      - by rewrite bool_decide_eq_false_2.
      - apply orb_true_iff. right. apply negb_true_iff, Z.eqb_neq. unfold len. lia. }
    unfold FilterLogEventsPages. rewrite bind_requests_ret.
    apply eachPage_requests. intros. apply afterPage_requests.
Qed.

Lemma C7_single_stream_witness :
  let call :=
    getLogEvent (clientFor (streamClient streamPages)) (sampleRequest []) "us-east-1"
                (sampleInput ["web-1"] (Some EmptyString) (Some 100)) true in
  (exists k : nat, (1 <= k)%nat /\ requests call = replicate k OpGetLogEvents) /\
  (forall resp,
      outcome call = Ok resp ->
      (exists es : list OutputLogEvent.t,
          FilterLogEventsOutput.Events resp = map (filteredEvent "web-1") es) /\
      Forall (fun e => FilteredLogEvent.LogStreamName e = "web-1")
             (FilterLogEventsOutput.Events resp)).
Proof.
  cbv zeta.
  apply (C7_single_stream_strategy
           (clientFor (streamClient streamPages)) (sampleRequest []) "us-east-1"
           (sampleInput ["web-1"] (Some EmptyString) (Some 100)) true
           (streamClient streamPages) EmptyString eq_refl eq_refl);
    reflexivity.
Defined.

(** ** C9: the nil pointers of a retrieval input *)

(** C9, as stated, fails. A target without a limit whose first request the
    service refuses comes to an error result, not to a panic: [Limit] is
    dereferenced in the page callback only. And a target without a filter
    pattern comes to an error result when no client can be made: the client
    is made before [FilterPattern] is dereferenced. *)
Lemma C9_counterexample :
  getLogEvent (clientFor (filterClient (RequestFailed "AccessDeniedException")))
              (sampleRequest []) "us-east-1"
              (sampleInput [] (Some "ERROR") None) false
  = ([OpFilterLogEvents], Err "AccessDeniedException")
  /\
  getLogEvent noClient (sampleRequest []) "us-east-1" (sampleInput [] None None) false
  = ([], Err "NoCredentialProviders: no valid providers in chain").
Proof. split; reflexivity. Qed.

(** C9, amended. The retrieval engine (plain retrieval and annotation
    calls alike) makes the client first and returns the error when that
    fails. It then dereferences [FilterPattern], before the strategy choice
    and before any request: a nil [FilterPattern] is a nil-pointer panic
    with nothing sent. [Limit] is dereferenced inside the page callback
    only, once a page is appended and the accumulated count is at most
    10,000: with a nil [Limit] the call panics when the first page arrives
    with at most 10,000 records, returns that page when it holds more, and
    returns the error of the service when the first request fails. *)
Theorem C9_nil_filter_pattern_and_limit
    getClient tsdbReq region input startFromHead :
  let call := getLogEvent getClient tsdbReq region input startFromHead in
  (forall e,
      getClient (DatasourceRequest.Datasource tsdbReq) region = inl e ->
      call = ([], Err e))
  /\
  (forall svc,
      getClient (DatasourceRequest.Datasource tsdbReq) region = inr svc ->
      FilterLogEventsInput.FilterPattern input = None ->
      call = ([], Panic))
  /\
  (forall svc fp,
      getClient (DatasourceRequest.Datasource tsdbReq) region = inr svc ->
      FilterLogEventsInput.FilterPattern input = Some fp ->
      FilterLogEventsInput.Limit input = None ->
      let op := fst (offered svc input startFromHead) in
      match firstPage (snd (offered svc input startFromHead)) with
      | inl e => call = ([op], Err e)
      | inr page =>
          if 10000 <? len page
          then call = ([op], Ok (FilterLogEventsOutput.mk page))
          else call = ([op], Panic)
      end).
Proof.
  cbv zeta. split; [|split].
  - intros e He. unfold getLogEvent. by rewrite He.
  - intros svc Hsvc Hfp. unfold getLogEvent. by rewrite Hsvc, Hfp.
  - intros svc fp Hsvc Hfp Hlimit.
    rewrite (getLogEvent_offered _ _ _ _ _ _ _ Hsvc Hfp), Hlimit.
    destruct (snd (offered svc input startFromHead)) as [page more | page | e];
      cbn [firstPage eachPage app]; unfold afterPage.
    + destruct (10000 <? len page); reflexivity.
    + destruct (10000 <? len page); reflexivity.
    + reflexivity.
Qed.

Lemma C9_nil_limit_witness :
  getLogEvent (clientFor (filterClient threeThenFour)) (sampleRequest []) "us-east-1"
              (sampleInput [] (Some "ERROR") None) false
  = ([OpFilterLogEvents], Panic).
Proof.
  exact (proj2 (proj2 (C9_nil_filter_pattern_and_limit
                         (clientFor (filterClient threeThenFour)) (sampleRequest [])
                         "us-east-1" (sampleInput [] (Some "ERROR") None) false))
               (filterClient threeThenFour) "ERROR" eq_refl eq_refl eq_refl).
Defined.

(** ** C6: the legend formatter *)

(** *** Strings *)

Lemma append_cons c s1 s2 : String c s1 +:+ s2 = String c (s1 +:+ s2).
Proof. reflexivity. Qed.

Lemma append_nil_l s : EmptyString +:+ s = s.
Proof. reflexivity. Qed.

Lemma append_nil_r s : s +:+ EmptyString = s.
Proof. induction s as [|c s IH]; [done|]. by rewrite append_cons, IH. Qed.

Lemma append_assoc s1 s2 s3 : (s1 +:+ s2) +:+ s3 = s1 +:+ (s2 +:+ s3).
Proof. induction s1 as [|c s1 IH]; [done|]. by rewrite !append_cons, IH. Qed.

Lemma length_append s1 s2 :
  String.length (s1 +:+ s2) = (String.length s1 + String.length s2)%nat.
Proof. induction s1 as [|c s1 IH]; [done|]. rewrite append_cons. cbn. by rewrite IH. Qed.

Lemma rev_app_spec s1 s2 : String.rev_app s1 s2 = String.rev s1 +:+ s2.
Proof.
  unfold String.rev. revert s2. induction s1 as [|c s1 IH]; intros s2; [done|].
  cbn. rewrite IH, (IH (String c EmptyString)). by rewrite append_assoc.
Qed.

Lemma rev_cons c s : String.rev (String c s) = String.rev s +:+ String c EmptyString.
Proof. unfold String.rev at 1. cbn. by rewrite rev_app_spec. Qed.

Lemma rev_append s1 s2 : String.rev (s1 +:+ s2) = String.rev s2 +:+ String.rev s1.
Proof.
  induction s1 as [|c s1 IH].
  - by rewrite append_nil_l, append_nil_r.
  - by rewrite append_cons, !rev_cons, IH, append_assoc.
Qed.

Lemma rev_involutive s : String.rev (String.rev s) = s.
Proof.
  induction s as [|c s IH]; [done|]. by rewrite rev_cons, rev_append, IH.
Qed.

Lemma length_rev s : String.length (String.rev s) = String.length s.
Proof.
  induction s as [|c s IH]; [done|].
  rewrite rev_cons, length_append, IH. cbn. lia.
Qed.

Lemma allBytes_append P s1 s2 :
  allBytes P (s1 +:+ s2) = allBytes P s1 && allBytes P s2.
Proof.
  induction s1 as [|c s1 IH]; [done|]. rewrite append_cons. cbn.
  by rewrite IH, andb_assoc.
Qed.

Lemma allBytes_rev P s : allBytes P (String.rev s) = allBytes P s.
Proof.
  induction s as [|c s IH]; [done|].
  rewrite rev_cons, allBytes_append, IH. cbn. by rewrite andb_true_r, andb_comm.
Qed.

Lemma stripPrefix_length p s r :
  stripPrefix p s = Some r ->
  String.length s = (String.length p + String.length r)%nat.
Proof.
  revert s. induction p as [|a p IH]; intros s H; cbn in *.
  - by inversion H.
  - destruct s as [|b s]; [done|]. destruct (Ascii.eqb a b); [|done].
    cbn. by rewrite (IH _ H).
Qed.

Lemma stripPrefix_append p s : stripPrefix p (p +:+ s) = Some s.
Proof.
  induction p as [|a p IH]; [done|]. rewrite append_cons. cbn.
  by rewrite Ascii.eqb_refl.
Qed.

(** *** The pattern on a well-formed placeholder *)

Lemma isChar_eq n c : isChar n c = true -> c = byte n.
Proof.
  unfold isChar, code, byte. intros H%N.eqb_eq. by rewrite <- H, ascii_N_embedding.
Qed.

Lemma isReSpace_not_brace c : isReSpace c = true -> isChar 125 c = false.
Proof.
  unfold isReSpace. rewrite !orb_true_iff.
  intros [[[[H | H] | H] | H] | H]; apply isChar_eq in H; by subst.
Qed.

Lemma matchClose_spaces a rest :
  allBytes isReSpace a = true ->
  matchClose (a +:+ closing +:+ rest) = Some (a +:+ closing, rest).
Proof.
  induction a as [|c a IH]; intros H.
  - reflexivity.
  - cbn in H. apply andb_true_iff in H as [Hc Ha].
    rewrite !append_cons. cbn [matchClose]. by rewrite Hc, (IH Ha).
Qed.

Lemma matchClose_solid n x :
  allBytes nameByte n = true -> lastSolid n -> matchClose (n +:+ x) = None.
Proof.
  induction n as [|c n IH]; intros Hn Hlast; [by cbn in Hlast|].
  cbn in Hn. apply andb_true_iff in Hn as [Hc Hn].
  unfold nameByte in Hc. apply andb_true_iff in Hc as [_ Hc%negb_true_iff].
  rewrite append_cons. cbn [matchClose].
  destruct (isReSpace c) eqn:Hsp.
  - destruct n as [|c' n]; [cbn in Hlast; congruence|].
    by rewrite (IH Hn Hlast).
  - unfold closing. cbn [stripPrefix].
    destruct (Ascii.eqb_spec "}" c) as [<- | Hne]; [by vm_compute in Hc | done].
Qed.

Lemma matchLazy_name n a rest :
  allBytes nameByte n = true -> lastSolid n -> allBytes isReSpace a = true ->
  matchLazy (n +:+ a +:+ closing +:+ rest) = Some (n +:+ a +:+ closing, rest).
Proof.
  intros Hn Hlast Ha. induction n as [|c n IH]; [by cbn in Hlast|].
  cbn in Hn. apply andb_true_iff in Hn as [Hc Hn].
  assert (isReDot c = true) as Hdot by (by apply andb_true_iff in Hc as [? _]).
  rewrite !append_cons. cbn [matchLazy]. rewrite Hdot.
  destruct n as [|c' n].
  - rewrite !append_nil_l, (matchClose_spaces a rest Ha). done.
  - rewrite (matchClose_solid (String c' n) _ Hn Hlast), (IH Hn Hlast). done.
Qed.

Lemma matchLazy_cons_solid c s :
  isReSpace c = false -> matchOpenSpace (String c s) = matchLazy (String c s).
Proof. intros H. cbn [matchOpenSpace]. by rewrite H. Qed.

Lemma matchOpenSpace_name b n a rest :
  allBytes isReSpace b = true ->
  allBytes nameByte n = true -> headSolid n -> lastSolid n ->
  allBytes isReSpace a = true ->
  matchOpenSpace (b +:+ n +:+ a +:+ closing +:+ rest)
  = Some (b +:+ n +:+ a +:+ closing, rest).
Proof.
  intros Hb Hn Hhead Hlast Ha. induction b as [|c b IH].
  - rewrite !append_nil_l. destruct n as [|c n]; [done|].
    rewrite append_cons, (matchLazy_cons_solid _ _ Hhead), <- append_cons.
    by apply matchLazy_name.
  - cbn in Hb. apply andb_true_iff in Hb as [Hc Hb].
    rewrite !append_cons. cbn [matchOpenSpace]. by rewrite Hc, (IH Hb).
Qed.

Lemma matchAt_placeholder b n a rest :
  allBytes isReSpace b = true ->
  allBytes nameByte n = true -> headSolid n -> lastSolid n ->
  allBytes isReSpace a = true ->
  matchAt (segmentText (Placeholder b n a) +:+ rest)
  = Some (segmentText (Placeholder b n a), rest).
Proof.
  intros Hb Hn Hhead Hlast Ha. unfold matchAt, segmentText.
  rewrite !append_assoc, stripPrefix_append. cbn [mbind option_bind].
  rewrite <- !append_assoc.
  rewrite !append_assoc. change "}}" with closing.
  by rewrite (matchOpenSpace_name b n a rest Hb Hn Hhead Hlast Ha).
Qed.

(** *** The scan *)

Lemma replaceAllFrom_skip m r repl :
  replaceAllFrom (String.length m) (m +:+ r) repl = replaceAllFrom 0 r repl.
Proof.
  induction m as [|c m IH]; [by destruct r|]. rewrite append_cons. cbn. exact IH.
Qed.

Lemma ReplaceAllFunc_match m r repl :
  m <> EmptyString ->
  matchAt (m +:+ r) = Some (m, r) ->
  ReplaceAllFunc (m +:+ r) repl = repl m +:+ ReplaceAllFunc r repl.
Proof.
  intros Hm Hmatch. unfold ReplaceAllFunc.
  destruct m as [|c m]; [done|]. rewrite append_cons in *.
  cbn [replaceAllFrom]. rewrite Hmatch. cbn [String.length].
  replace (S (String.length m) - 1)%nat with (String.length m) by lia.
  by rewrite replaceAllFrom_skip.
Qed.

(** No match begins inside plain text, whatever follows it. *)
Lemma plainText_no_match c text r :
  plainText (String c text) = true -> matchAt (String c (text +:+ r)) = None.
Proof.
  cbn [plainText]. intros H. apply andb_true_iff in H as [Hc _].
  unfold matchAt. cbn [stripPrefix].
  destruct (Ascii.eqb_spec "{" c) as [<- | Hne]; [|done].
  destruct text as [|d text]; [by vm_compute in Hc|].
  rewrite append_cons. cbn [stripPrefix].
  destruct (Ascii.eqb_spec "{" d) as [<- | Hne]; [by vm_compute in Hc | done].
Qed.

Lemma ReplaceAllFunc_literal text r repl :
  plainText text = true ->
  ReplaceAllFunc (text +:+ r) repl = text +:+ ReplaceAllFunc r repl.
Proof.
  unfold ReplaceAllFunc. induction text as [|c text IH]; intros H; [done|].
  pose proof (plainText_no_match c text r H) as Hnone.
  cbn [plainText] in H. apply andb_true_iff in H as [_ H].
  rewrite !append_cons. cbn [replaceAllFrom]. rewrite Hnone.
  by rewrite (IH H).
Qed.

(** *** [TrimSpace] around a name *)

Lemma spaceRunes_tailSolid : Forall (fun p => tailSolid p = true) spaceRunes.
Proof. repeat constructor. Qed.

Lemma revRunes_tailSolid : Forall (fun p => tailSolid p = true) revRunes.
Proof. repeat constructor. Qed.

Lemma isReSpace_cases c :
  isReSpace c = true ->
  c = byte 9 \/ c = byte 10 \/ c = byte 12 \/ c = byte 13 \/ c = byte 32.
Proof.
  unfold isReSpace. rewrite !orb_true_iff.
  intros [[[[H | H] | H] | H] | H]; apply isChar_eq in H; tauto.
Qed.

Lemma stripAny_space c x :
  isReSpace c = true ->
  stripAny spaceRunes (String c x) = Some x /\ stripAny revRunes (String c x) = Some x.
Proof.
  intros H. destruct (isReSpace_cases c H) as [-> | [-> | [-> | [-> | ->]]]];
    split; reflexivity.
Qed.

Lemma stripAny_shorter ps s r :
  Forall (fun p => tailSolid p = true) ps ->
  stripAny ps s = Some r -> (String.length r < String.length s)%nat.
Proof.
  induction 1 as [|p ps Hp _ IH]; [done|]. cbn.
  destruct (stripPrefix p s) as [r'|] eqn:E; [|done].
  intros [= <-]. apply stripPrefix_length in E.
  destruct p; [done|]. cbn in E. lia.
Qed.

Lemma trimLeftLoop_length ps fuel s :
  (String.length (trimLeftLoop ps fuel s) <= String.length s)%nat.
Proof.
  revert s. induction fuel as [|fuel IH]; intros s; cbn; [lia|].
  destruct (stripAny ps s) as [r|] eqn:E; [|lia].
  specialize (IH r).
  assert (String.length r <= String.length s)%nat; [|lia].
  clear IH. revert E. induction ps as [|p ps IHps]; [done|]. cbn.
  destruct (stripPrefix p s) as [r'|] eqn:E'; [|done].
  intros [= <-]. apply stripPrefix_length in E'. lia.
Qed.

(** A string that trimming leaves whole starts with no rune of the list. *)
Lemma trimLeft_fixed ps s :
  Forall (fun p => tailSolid p = true) ps ->
  s <> EmptyString -> trimLeft ps s = s -> stripAny ps s = None.
Proof.
  intros Hps Hs. unfold trimLeft. destruct s as [|c s]; [done|]. cbn [String.length trimLeftLoop].
  destruct (stripAny ps (String c s)) as [r|] eqn:E; [|done].
  intros Heq. apply (stripAny_shorter _ _ _ Hps) in E.
  pose proof (trimLeftLoop_length ps (String.length s) r) as Hlen.
  rewrite Heq in Hlen. lia.
Qed.

Lemma trimLeft_none ps s : stripAny ps s = None -> trimLeft ps s = s.
Proof.
  intros H. unfold trimLeft. destruct (String.length s); [done|]. cbn. by rewrite H.
Qed.

Lemma trimLeft_spaces ps b x :
  (forall c y, isReSpace c = true -> stripAny ps (String c y) = Some y) ->
  allBytes isReSpace b = true ->
  trimLeft ps (b +:+ x) = trimLeft ps x.
Proof.
  intros Hps. induction b as [|c b IH]; intros Hb; [done|].
  cbn in Hb. apply andb_true_iff in Hb as [Hc Hb].
  rewrite append_cons. unfold trimLeft at 1. cbn [String.length trimLeftLoop].
  rewrite (Hps _ _ Hc). by apply IH.
Qed.

Lemma stripPrefix_solid_append p n a :
  allBytes (fun c => negb (isReSpace c)) p = true ->
  allBytes isReSpace a = true ->
  stripPrefix p n = None -> stripPrefix p (n +:+ a) = None.
Proof.
  revert n. induction p as [|z p IH]; intros n Hp Ha; [done|].
  cbn in Hp. apply andb_true_iff in Hp as [Hz%negb_true_iff Hp].
  destruct n as [|y n].
  - intros _. rewrite append_nil_l. destruct a as [|w a]; [done|].
    cbn in Ha. apply andb_true_iff in Ha as [Hw _]. cbn.
    destruct (Ascii.eqb_spec z w) as [-> | Hne]; [congruence | done].
  - rewrite append_cons. cbn. destruct (Ascii.eqb z y); [by apply IH | done].
Qed.

Lemma stripAny_append ps n a :
  Forall (fun p => tailSolid p = true) ps ->
  n <> EmptyString -> allBytes isReSpace a = true ->
  stripAny ps n = None -> stripAny ps (n +:+ a) = None.
Proof.
  intros Hps Hn Ha. induction Hps as [|p ps Hp _ IH]; [done|]. cbn.
  destruct (stripPrefix p n) as [r|] eqn:E; [done|]. intros Hrest.
  assert (stripPrefix p (n +:+ a) = None) as ->; [|by apply IH].
  destruct p as [|x p]; [done|]. destruct n as [|y n]; [done|].
  rewrite append_cons. cbn in *.
  destruct (Ascii.eqb x y); [|done]. by apply stripPrefix_solid_append.
Qed.

(** A name that [TrimSpace] leaves whole has no white space rune at either
    end. *)
Lemma TrimSpace_fixed n :
  TrimSpace n = n ->
  trimLeft spaceRunes n = n /\ trimLeft revRunes (String.rev n) = String.rev n.
Proof.
  unfold TrimSpace. fold revRunes. intros H.
  pose proof (trimLeftLoop_length spaceRunes (String.length n) n) as H1.
  fold (trimLeft spaceRunes n) in H1.
  set (n1 := trimLeft spaceRunes n) in *.
  pose proof (trimLeftLoop_length revRunes (String.length (String.rev n1)) (String.rev n1)) as H2.
  fold (trimLeft revRunes (String.rev n1)) in H2.
  set (t := trimLeft revRunes (String.rev n1)) in *.
  assert (String.length t = String.length n) as Ht.
  { apply (f_equal String.length) in H. by rewrite length_rev in H. }
  rewrite length_rev in H2.
  assert (n1 = n) as Hn1.
  { subst n1. unfold trimLeft in *. destruct (String.length n) eqn:El.
    - done.
    - cbn [trimLeftLoop] in *. destruct (stripAny spaceRunes n) as [r|] eqn:E; [|done].
      apply (stripAny_shorter _ _ _ spaceRunes_tailSolid) in E.
      pose proof (trimLeftLoop_length spaceRunes n0 r). lia. }
  split; [done|]. subst t. rewrite Hn1 in *.
  apply (f_equal String.rev) in H. by rewrite rev_involutive in H.
Qed.

Lemma TrimSpace_around b n a :
  allBytes isReSpace b = true -> allBytes isReSpace a = true ->
  n <> EmptyString -> TrimSpace n = n ->
  TrimSpace (b +:+ n +:+ a) = n.
Proof.
  intros Hb Ha Hn Hfix. destruct (TrimSpace_fixed n Hfix) as [Hl Hr].
  unfold TrimSpace. fold revRunes.
  rewrite (trimLeft_spaces spaceRunes b);
    [|intros c y Hc; exact (proj1 (stripAny_space c y Hc)) | exact Hb].
  rewrite (trimLeft_none spaceRunes (n +:+ a)).
  2:{ apply stripAny_append; [apply spaceRunes_tailSolid | done..|].
      by apply trimLeft_fixed; [apply spaceRunes_tailSolid|..]. }
  rewrite rev_append.
  rewrite (trimLeft_spaces revRunes (String.rev a));
    [|intros c y Hc; exact (proj2 (stripAny_space c y Hc)) | by rewrite allBytes_rev].
  by rewrite Hr, rev_involutive.
Qed.

Lemma TrimSpace_headSolid n : n <> EmptyString -> TrimSpace n = n -> headSolid n.
Proof.
  intros Hn Hfix. destruct (TrimSpace_fixed n Hfix) as [Hl _].
  apply trimLeft_fixed in Hl; [|apply spaceRunes_tailSolid | done].
  destruct n as [|c n]; [done|]. cbn. destruct (isReSpace c) eqn:E; [|done].
  destruct (stripAny_space c n E) as [H _]. congruence.
Qed.

Lemma lastSolid_snoc s c : lastSolid (s +:+ String c EmptyString) <-> isReSpace c = false.
Proof.
  induction s as [|c' s IH]; [done|]. rewrite append_cons.
  cbn [lastSolid]. destruct s; [done|]. by rewrite append_cons in *.
Qed.

Lemma TrimSpace_lastSolid n : n <> EmptyString -> TrimSpace n = n -> lastSolid n.
Proof.
  intros Hn Hfix. destruct (TrimSpace_fixed n Hfix) as [_ Hr].
  assert (String.rev n <> EmptyString) as Hrev.
  { intros E. apply (f_equal String.length) in E. rewrite length_rev in E. by destruct n. }
  apply trimLeft_fixed in Hr; [|apply revRunes_tailSolid | done].
  destruct (String.rev n) as [|c y] eqn:E; [done|].
  rewrite <- (rev_involutive n), E, rev_cons. apply lastSolid_snoc.
  destruct (isReSpace c) eqn:Ec; [|done].
  destruct (stripAny_space c y Ec) as [_ H]. congruence.
Qed.

(** *** The replacement of one placeholder *)

Lemma allBytes_impl (P Q : ascii -> bool) s :
  (forall c, P c = true -> Q c = true) -> allBytes P s = true -> allBytes Q s = true.
Proof.
  intros HPQ. induction s as [|c s IH]; [done|]. cbn.
  rewrite !andb_true_iff. intros [Hc Hs]. auto.
Qed.

Lemma ReplaceFirst_closing t :
  allBytes (fun c => negb (isChar 125 c)) t = true ->
  ReplaceFirst (t +:+ closing) closing EmptyString = t.
Proof.
  induction t as [|c t IH]; intros H; [done|].
  cbn in H. apply andb_true_iff in H as [Hc%negb_true_iff H].
  rewrite append_cons. unfold closing at 2. cbn [ReplaceFirst stripPrefix].
  destruct (Ascii.eqb_spec "}" c) as [<- | Hne]; [by vm_compute in Hc|].
  fold closing. by rewrite (IH H).
Qed.

(** The column name the callback of [formatLegend] reads off a
    well-formed placeholder is its name. *)
Lemma columnName_placeholder b n a :
  wellFormed (Placeholder b n a) ->
  TrimSpace
    (ReplaceFirst
       (ReplaceFirst (segmentText (Placeholder b n a)) "{{" EmptyString)
       "}}" EmptyString)
  = n.
Proof.
  intros (Hb & Ha & Hn & Hfix & Hbytes). unfold segmentText.
  rewrite !append_cons, append_nil_l. cbn [ReplaceFirst stripPrefix].
  rewrite !Ascii.eqb_refl, append_nil_l.
  change "}}" with closing. rewrite <- !append_assoc.
  rewrite ReplaceFirst_closing.
  - rewrite append_assoc. by apply TrimSpace_around.
  - rewrite !allBytes_append, !andb_true_iff. repeat split.
    + revert Hb. apply allBytes_impl. intros c Hc.
      by rewrite (isReSpace_not_brace c Hc).
    + revert Hbytes. apply allBytes_impl. intros c Hc.
      unfold nameByte in Hc. by apply andb_true_iff in Hc as [_ Hc].
    + revert Ha. apply allBytes_impl. intros c Hc.
      by rewrite (isReSpace_not_brace c Hc).
Qed.

Lemma templateText_cons seg segs :
  templateText (seg :: segs) = segmentText seg +:+ templateText segs.
Proof. reflexivity. Qed.

Lemma segmentText_placeholder_nonempty b n a :
  segmentText (Placeholder b n a) <> EmptyString.
Proof. unfold segmentText. by rewrite !append_cons. Qed.

(** The scan of [formatLegend] renders a well-formed template. *)
Lemma ReplaceAllFunc_template (kv : gmap string string) segs :
  Forall wellFormed segs ->
  ReplaceAllFunc (templateText segs)
    (fun in_ =>
       let columnName := ReplaceFirst in_ "{{" EmptyString in
       let columnName := ReplaceFirst columnName "}}" EmptyString in
       let columnName := TrimSpace columnName in
       match kv !! columnName with
       | Some val => val
       | None => in_
       end)
  = renderTemplate kv segs.
Proof.
  induction 1 as [|seg segs Hseg _ IH]; [done|].
  rewrite templateText_cons. destruct seg as [text | b n a].
  - rewrite ReplaceAllFunc_literal by exact Hseg. by rewrite IH.
  - pose proof Hseg as (Hb & Ha & Hn & Hfix & Hbytes).
    rewrite ReplaceAllFunc_match.
    + rewrite IH. cbv zeta. rewrite (columnName_placeholder b n a Hseg).
      change (renderTemplate kv (Placeholder b n a :: segs))
        with (default (segmentText (Placeholder b n a)) (kv !! n) +:+ renderTemplate kv segs).
      by destruct (kv !! n).
    + apply segmentText_placeholder_nonempty.
    + apply matchAt_placeholder; try done.
      * by apply TrimSpace_headSolid.
      * by apply TrimSpace_lastSolid.
Qed.

(** C6, as stated, fails. The template [{{{host}}}] holds the placeholder
    [{{host}}] between two braces, and [host] is a tag: the rendering of the
    design puts the tag value in its place and gives [{a}]. The formatter
    reads the template from the left: the placeholder it finds begins at the
    first brace, its name is [{host], which is no tag, and the template
    comes back as it was. *)
Lemma C6_counterexample :
  let kv : gmap string string := {[ "host" := "a" ]} in
  templateText bracedTemplate = "{{{host}}}"
  /\ renderTemplate kv bracedTemplate = "{a}"
  /\ formatLegend map_to_list kv "{{{host}}}" = "{{{host}}}"
  /\ formatLegend map_to_list kv "{{{host}}}" <> renderTemplate kv bracedTemplate.
Proof. cbv zeta. split; [|split; [|split]]; by vm_compute. Qed.

(** C6. Applied to a tag mapping and a non-empty template, the legend
    formatter replaces the placeholders [{{ fieldName }}] (white space
    around the name trimmed) by the tag value of [fieldName] when the tags
    have one and leaves the other placeholders verbatim, provided the
    template reads one way only: on every template made of literal text in
    which each opening brace is followed by a byte that is no opening brace
    (so that no brace of the text joins the braces of a placeholder) and of
    placeholders whose name is not empty, carries no white space of its own
    at its ends and holds no closing brace or line feed, the formatter
    agrees with the rendering of the design. In particular tags {host: a}
    with template [{{ host }}] give [a], and tags {a: 1} with the empty
    template give [{a="1"}], whatever order the tags are visited in. *)
Theorem C6_formatLegend_renders_template (order : MapOrder string) :
  (forall (kv : gmap string string) segs,
      Forall wellFormed segs ->
      templateText segs <> EmptyString ->
      formatLegend order kv (templateText segs) = renderTemplate kv segs)
  /\ formatLegend order {[ "host" := "a" ]} "{{ host }}" = "a"
  /\ (validOrder order ->
      formatLegend order {[ "a" := "1" ]} EmptyString
      = "{a=" +:+ quote +:+ "1" +:+ quote +:+ "}").
Proof.
  split; [|split].
  - intros kv segs Hwf Hne. unfold formatLegend.
    rewrite bool_decide_eq_false_2 by done. by apply ReplaceAllFunc_template.
  - reflexivity.
  - intros Hvalid. unfold formatLegend. rewrite bool_decide_eq_true_2 by done.
    specialize (Hvalid {[ "a" := "1" ]}). rewrite map_to_list_singleton in Hvalid.
    apply Permutation_singleton_r in Hvalid. rewrite Hvalid. reflexivity.
Qed.

Lemma C6_formatLegend_witness :
  formatLegend map_to_list {[ "host" := "a" ]} "{host={{ host  }}, zone={{zone}}}"
  = "{host=a, zone={{zone}}}"
  /\ formatLegend map_to_list {[ "a" := "1" ]} EmptyString
     = "{a=" +:+ quote +:+ "1" +:+ quote +:+ "}".
Proof.
  split.
  - change (formatLegend map_to_list {[ "host" := "a" ]} (templateText sampleTemplate)
            = renderTemplate {[ "host" := "a" ]} sampleTemplate).
    apply (proj1 (C6_formatLegend_renders_template map_to_list)).
    + repeat constructor; done.
    + done.
  - apply (proj2 (proj2 (C6_formatLegend_renders_template map_to_list))).
    intros m. reflexivity.
Defined.


(** ** C3: the grouping of rows into series *)

Lemma alternatingOrder_valid i : validOrder (alternatingOrder i).
Proof.
  intros m. unfold alternatingOrder. destruct (Nat.even i); [done|].
  apply reverse_Permutation.
Qed.

(** C3, as stated, fails. Two rows with the tags {host: a, zone: x} and
    the empty legend template, the tags of the second row visited in the
    reverse order: two series, one per derived name. And two rows with the
    different tags {host: a, zone: x} and {host: a, zone: y} under the
    template [{{ host }}]: one series. The key of the grouping is the
    derived name. *)
Lemma C3_counterexample :
  let tags : gmap string string := {[ "host" := "a"; "zone" := "x" ]} in
  (forall i, validOrder (alternatingOrder i))
  /\ collectSeries sampleParseFloat alternatingOrder
       (insightsTarget "q-1" "timeserie" EmptyString) 0
       [ sampleRow "2020-01-01 00:00:00.000" "a" "x" "1";
         sampleRow "2020-01-01 00:01:00.000" "a" "x" "2" ] ∅
     = inr {[ legendZoneHost :=
                {| TimeSeries.Name := legendZoneHost;
                   TimeSeries.Tags := tags;
                   TimeSeries.Points := [ Point.mk 1577836800000 float64_one ] |};
              legendHostZone :=
                {| TimeSeries.Name := legendHostZone;
                   TimeSeries.Tags := tags;
                   TimeSeries.Points := [ Point.mk 1577836860000 float64_two ] |} ]}
  /\ legendZoneHost <> legendHostZone
  /\ collectSeries sampleParseFloat alternatingOrder
       (insightsTarget "q-1" "timeserie" "{{ host }}") 0
       [ sampleRow "2020-01-01 00:00:00.000" "a" "x" "1";
         sampleRow "2020-01-01 00:01:00.000" "a" "y" "2" ] ∅
     = inr {[ "a" :=
                {| TimeSeries.Name := "a";
                   TimeSeries.Tags := tags;
                   TimeSeries.Points := [ Point.mk 1577836800000 float64_one;
                                          Point.mk 1577836860000 float64_two ] |} ]}.
Proof.
  cbv zeta. split; [exact alternatingOrder_valid|].
  split; [by vm_compute|]. split; [by vm_compute|]. by vm_compute.
Qed.

Lemma seriesOf_snoc_same name recs kv p :
  seriesOf name (recs ++ [(name, kv, p)])
  = match seriesOf name recs with
    | None => Some {| TimeSeries.Name := name;
                      TimeSeries.Tags := kv;
                      TimeSeries.Points := [p] |}
    | Some s => Some (appendPoint p s)
    end.
Proof.
  unfold seriesOf. rewrite filter_app, filter_cons_True, filter_nil by done.
  destruct (filter _ recs) as [|[[n0 kv0] p0] l]; [done|].
  cbn. unfold appendPoint. cbn. by rewrite map_app.
Qed.

Lemma seriesOf_snoc_other name name' recs kv p :
  name' <> name ->
  seriesOf name (recs ++ [(name', kv, p)]) = seriesOf name recs.
Proof.
  intros Hne. unfold seriesOf.
  by rewrite filter_app, filter_cons_False, filter_nil, app_nil_r.
Qed.

Lemma seriesOf_name name recs s : seriesOf name recs = Some s -> TimeSeries.Name s = name.
Proof.
  unfold seriesOf. destruct (filter _ recs) as [|[[n0 kv0] p0] l]; [done|].
  by intros [= <-].
Qed.

(** One turn of the loop keeps the map of series in step with the rows read
    so far. *)
Lemma collectSeries_step (series : gmap string TimeSeries.t) recs name kv p :
  (forall n, series !! n = seriesOf n recs) ->
  forall n,
    alter (appendPoint p) name
      (match series !! name with
       | None => <[name := {| TimeSeries.Name := name;
                              TimeSeries.Tags := kv;
                              TimeSeries.Points := [] |}]> series
       | Some _ => series
       end) !! n
    = seriesOf n (recs ++ [(name, kv, p)]).
Proof.
  intros Hinv n. destruct (decide (name = n)) as [<- | Hne].
  - rewrite seriesOf_snoc_same, <- Hinv, lookup_alter_eq.
    destruct (series !! name) as [s|] eqn:E.
    + by rewrite E.
    + by rewrite lookup_insert_eq.
  - rewrite seriesOf_snoc_other, <- Hinv, lookup_alter_ne by done.
    destruct (series !! name) as [s|] eqn:E; [done|]. by rewrite lookup_insert_ne.
Qed.

Lemma collectSeries_groups ParseFloat rangeTags target rows :
  forall i (series0 : gmap string TimeSeries.t) recs0 recs,
    (forall n, series0 !! n = seriesOf n recs0) ->
    labelRows ParseFloat rangeTags target i rows = inr recs ->
    exists series : gmap string TimeSeries.t,
      collectSeries ParseFloat rangeTags target i rows series0 = inr series /\
      forall n, series !! n = seriesOf n (recs0 ++ recs).
Proof.
  induction rows as [|r rows IH]; intros i series0 recs0 recs Hinv Hrows.
  - cbn in Hrows. injection Hrows as <-. exists series0. by rewrite app_nil_r.
  - cbn [labelRows collectSeries] in *. unfold labelRow in Hrows.
    destruct (readFields ParseFloat target r 0 float64_zero ∅)
      as [e | [[timestamp value] kv]]; [done|].
    cbn [mbind result_bind] in *.
    destruct (labelRows ParseFloat rangeTags target (S i) rows) as [e | recs'] eqn:E;
      [done|].
    injection Hrows as <-.
    set (name := formatLegend (rangeTags i) kv (Target.LegendFormat target)) in *.
    destruct (IH (S i) _ (recs0 ++ [(name, kv, Point.mk timestamp value)]) recs'
                 (collectSeries_step series0 recs0 name kv _ Hinv) E)
      as (series & Hseries & Hgroups).
    exists series. split; [exact Hseries|].
    intros n. by rewrite Hgroups, <- (assoc_L (++)).
Qed.

(** C3, amended. In the async time-series transformation, rows are grouped
    into series by the legend name that the formatter derives from the
    row's tag set: when every row reads without a parse error, the series of
    a name holds the points of exactly the rows of that name, in row order,
    under the tags of the first of them; two rows are in the same series
    exactly when their derived names are equal. With a non-empty legend
    template the derived name is a function of the tag set, so rows with
    identical tag sets then share a series. *)
Theorem C3_series_grouped_by_legend_name ParseFloat rangeTags target rows recs :
  labelRows ParseFloat rangeTags target 0 rows = inr recs ->
  (exists series : gmap string TimeSeries.t,
      collectSeries ParseFloat rangeTags target 0 rows ∅ = inr series /\
      forall name, series !! name = seriesOf name recs)
  /\
  (Target.LegendFormat target <> EmptyString ->
   forall (order1 order2 : MapOrder string) kv,
     formatLegend order1 kv (Target.LegendFormat target)
     = formatLegend order2 kv (Target.LegendFormat target)).
Proof.
  intros Hrows. split.
  - apply (collectSeries_groups ParseFloat rangeTags target rows 0 ∅ [] recs); [|done].
    intros n. by rewrite lookup_empty.
  - intros Hne order1 order2 kv. unfold formatLegend.
    by rewrite bool_decide_eq_false_2.
Qed.

Lemma C3_series_witness :
  exists series : gmap string TimeSeries.t,
    collectSeries sampleParseFloat alternatingOrder
      (insightsTarget "q-1" "timeserie" "{{ host }}/{{ zone }}") 0
      [ sampleRow "2020-01-01 00:00:00.000" "a" "x" "1";
        sampleRow "2020-01-01 00:01:00.000" "a" "x" "2" ] ∅
    = inr series /\
    forall name, series !! name = seriesOf name sampleLabelled.
Proof.
  apply (C3_series_grouped_by_legend_name sampleParseFloat alternatingOrder
           (insightsTarget "q-1" "timeserie" "{{ host }}/{{ zone }}")
           [ sampleRow "2020-01-01 00:00:00.000" "a" "x" "1";
             sampleRow "2020-01-01 00:01:00.000" "a" "x" "2" ]
           sampleLabelled).
  vm_compute. reflexivity.
Defined.

(** ** C4: the submission of a fresh job *)

(** C4, as stated, fails. The target has no job id and the start-job call
    assigns the id q-7: the metadata of the one result holds the id under
    [QueryId] and nothing else; there is no status, and no [Started]. *)
Lemma C4_counterexample :
  let target := insightsTarget EmptyString "table" EmptyString in
  let meta : gmap string string := {[ "QueryId" := "q-7" ]} in
  handleInsightsQuery (clientFor (startClient "q-7")) sampleParseFloat alternatingOrder
    map_to_list (sampleRequest [queryOf target]) (queryOf target)
  = ([OpStartQuery],
     Ok (DatasourceResponse.mk
           [ {| QueryResult.Error := EmptyString;
                QueryResult.RefId := "A";
                QueryResult.MetaJson := MetaObject meta;
                QueryResult.Series := [];
                QueryResult.Tables := [] |} ]))
  /\ meta !! "Status" = None
  /\ meta <> {[ "QueryId" := "q-7"; "Status" := "Started" ]}.
Proof.
  cbv zeta. split; [by vm_compute|]. split; [by vm_compute|].
  intros H. apply (f_equal (fun m : gmap string string => m !! "Status")) in H.
  by vm_compute in H.
Qed.

(** C4, amended. For every async target submitted with an empty job id, a
    successful start-job call yields a response of exactly one result, whose
    metadata holds the newly assigned job id under [QueryId] and nothing
    else (no status), with no table and no series. *)
Theorem C4_fresh_submission_returns_job_id
    getClient ParseFloat rangeTags rangeSeries tsdbReq query
    fromRaw toRaw target svc queryId :
  ParseInt (FromRaw (DatasourceRequest.TimeRange tsdbReq)) = inr fromRaw ->
  ParseInt (ToRaw (DatasourceRequest.TimeRange tsdbReq)) = inr toRaw ->
  Unmarshal (Query.ModelJson query) = inr target ->
  Target.QueryId target = EmptyString ->
  getClient (DatasourceRequest.Datasource tsdbReq) (Target.Region target) = inr svc ->
  startQuery svc (withQueryTimeRange fromRaw toRaw (Target.InputInsightsStartQuery target))
  = inr queryId ->
  handleInsightsQuery getClient ParseFloat rangeTags rangeSeries tsdbReq query
  = ([OpStartQuery],
     Ok (DatasourceResponse.mk
           [ {| QueryResult.Error := EmptyString;
                QueryResult.RefId := Target.RefId target;
                QueryResult.MetaJson := MetaObject {[ "QueryId" := queryId ]};
                QueryResult.Series := [];
                QueryResult.Tables := [] |} ])).
Proof.
  intros Hfrom Hto Htarget Hfresh Hsvc Hstart. unfold handleInsightsQuery.
  rewrite Hfrom, Hto, Htarget. cbn [try]. rewrite !bind_ret_l, Hsvc.
  cbn [try]. rewrite bind_ret_l, Hfresh, bool_decide_eq_true_2 by done.
  rewrite bind_tell, Hstart. reflexivity.
Qed.

Lemma C4_fresh_submission_witness :
  let target := insightsTarget EmptyString "table" EmptyString in
  handleInsightsQuery (clientFor (startClient "q-7")) sampleParseFloat alternatingOrder
    map_to_list (sampleRequest [queryOf target]) (queryOf target)
  = ([OpStartQuery],
     Ok (DatasourceResponse.mk
           [ {| QueryResult.Error := EmptyString;
                QueryResult.RefId := "A";
                QueryResult.MetaJson := MetaObject {[ "QueryId" := "q-7" ]};
                QueryResult.Series := [];
                QueryResult.Tables := [] |} ])).
Proof.
  cbv zeta.
  apply (C4_fresh_submission_returns_job_id
           (clientFor (startClient "q-7")) sampleParseFloat alternatingOrder map_to_list
           (sampleRequest [queryOf (insightsTarget EmptyString "table" EmptyString)])
           (queryOf (insightsTarget EmptyString "table" EmptyString))
           1577836800000 1577840400000
           (insightsTarget EmptyString "table" EmptyString) (startClient "q-7") "q-7");
    reflexivity.
Defined.

(** ** C5: the timestamp of a point *)

(** C5 against the code, at a row whose time has a fraction. The text
    [2020-01-01 00:00:00.123] parses to the instant 1577836800123 ms, and the
    point the transformation makes of the row has the timestamp
    1577836800000: [t.Unix() * 1000] drops the milliseconds that the layout
    has just read. *)
Theorem C5_fraction_of_second_dropped :
  let target := insightsTarget "q-1" "timeserie" "{{ host }}" in
  let row := sampleRow "2020-01-01 00:00:00.123" "a" "x" "1" in
  (exists t, timeParse "2020-01-01 00:00:00.123" = inr t /\ UnixMilli t = 1577836800123)
  /\ readFields sampleParseFloat target row 0 float64_zero ∅
     = inr (1577836800000, float64_one, {[ "host" := "a"; "zone" := "x" ]})
  /\ collectSeries sampleParseFloat alternatingOrder target 0 [row] ∅
     = inr {[ "a" :=
                {| TimeSeries.Name := "a";
                   TimeSeries.Tags := {[ "host" := "a"; "zone" := "x" ]};
                   TimeSeries.Points := [ Point.mk 1577836800000 float64_one ] |} ]}.
Proof.
  cbv zeta. split; [|split].
  - exists (mkTime 1577836800 123000000). split; by vm_compute.
  - by vm_compute.
  - by vm_compute.
Qed.

Example formatRFC3339UTC_examples :
  formatRFC3339UTC (mkTime 1577836800 0) = "2020-01-01T00:00:00Z"
  /\ formatRFC3339UTC (mkTime 1709251199 0) = "2024-02-29T23:59:59Z"
  /\ formatRFC3339UTC (mkTime 0 0) = "1970-01-01T00:00:00Z"
  /\ formatRFC3339UTC (mkTime 951868800 0) = "2000-03-01T00:00:00Z".
Proof. repeat split; by vm_compute. Qed.

(** ** C8: the suggestion query *)

Lemma insertBy_Permutation {A} (less : A -> A -> bool) x l :
  insertBy less x l ≡ₚ x :: l.
Proof.
  induction l as [|y l IH]; [done|]. cbn. destruct (less y x); [|done].
  rewrite IH. apply Permutation_swap.
Qed.

Lemma insertBy_sorted {A} (key : A -> Z) x l :
  StronglySorted (fun a b => key b <= key a) l ->
  StronglySorted (fun a b => key b <= key a) (insertBy (fun a b => key b <? key a) x l).
Proof.
  induction 1 as [|y l Hl IH Hy]; cbn.
  - repeat constructor.
  - destruct (Z.ltb_spec (key x) (key y)).
    + constructor; [done|]. rewrite insertBy_Permutation. constructor; [lia | done].
    + constructor; [by constructor|]. constructor; [done|].
      eapply Forall_impl; [exact Hy|]. intros z Hz. cbn in *. lia.
Qed.

Lemma insertionSort_sortsSlices : sortsSlices insertionSort.
Proof.
  split.
  - intros A less l. induction l as [|x l IH]; [done|]. cbn.
    by rewrite insertBy_Permutation, IH.
  - intros A key l. induction l as [|x l IH]; [constructor|]. cbn.
    by apply insertBy_sorted.
Qed.

Lemma afterListing_eq {A} (entries : list A) lastPage :
  afterListing entries lastPage
  = ret (if 100 <? len entries then false else negb lastPage, entries).
Proof. unfold afterListing. by destruct (100 <? len entries). Qed.

(** A listing that is answered throughout is read in whole pages, up to the
    first page at which more than 100 entries are accumulated or to its
    end. *)
Lemma eachPage_listing {A} op (ps : Pages (list A)) :
  answered ps ->
  forall acc,
    len acc <= 100 ->
    exists k : nat,
      (1 <= k <= length (allPages ps))%nat /\
      eachPage op ps (fun entries page lastPage => afterListing (entries ++ page) lastPage) acc
      = (replicate k op, Ok (acc ++ concat (take k (allPages ps)))) /\
      (k = length (allPages ps) \/ 100 < len (acc ++ concat (take k (allPages ps)))) /\
      len (acc ++ concat (take (k - 1) (allPages ps))) <= 100.
Proof.
  induction ps as [page more IH | page | e]; intros Hans acc Hacc;
    cbn [eachPage allPages answered] in *; [| |done].
  - rewrite afterListing_eq, bind_tell, bind_ret_l.
    destruct (Z.ltb_spec 100 (len (acc ++ page))) as [Hstop | Hgo].
    + exists 1%nat. cbn. rewrite !app_nil_r.
      split; [lia|]. split; [done|]. split; [by right | lia].
    + destruct (IH Hans (acc ++ page) Hgo) as (k & Hk & Heq & Hend & Hbefore).
      exists (S k). cbn [negb]. rewrite Heq.
      cbn [requests outcome fst snd replicate take concat length].
      rewrite <- !(assoc_L (++)) in *.
      split; [lia|]. split; [done|]. split.
      * destruct Hend as [-> | Hend]; [by left | by right].
      * destruct k as [|k]; [lia|]. cbn [Nat.sub take concat] in *.
        rewrite Nat.sub_0_r in *. done.
  - rewrite afterListing_eq, bind_tell, bind_ret_l.
    exists 1%nat. cbn [length take concat Nat.sub]. rewrite !app_nil_r.
    split; [lia|]. split; [done|]. split; [by left | done].
Qed.

(** C8, as stated, fails. The listing of log groups comes in three pages
    of fifty: after two pages 100 entries are accumulated, which is not more
    than 100, so the third page is read too, and the table has 150 rows. *)
Lemma C8_counterexample :
  let parameters : gmap string string :=
    {[ "queryType" := "metricFindQuery"; "subtype" := "log_group_names";
       "region" := "us-east-1" ]} in
  exists rows,
    metricFindQuery (clientFor (groupsClient threePagesOfFifty)) insertionSort
      (sampleRequest []) parameters
    = ([OpDescribeLogGroups; OpDescribeLogGroups; OpDescribeLogGroups],
       Ok (suggestionResponse rows))
    /\ len rows = 150.
Proof.
  cbv zeta.
  exists (map (fun g => suggestionRow (LogGroup.LogGroupName g))
              (insertionSort _ (fun a b => LogGroup.CreationTime b <? LogGroup.CreationTime a)
                 (map sampleGroup (seqZ 0 150)))).
  split; by vm_compute.
Qed.

(** C8, amended. For every suggestion query (listing log groups or listing
    log streams) whose listing is answered throughout, the engine reads the
    listing in whole pages and stops after the first page at which more than
    100 entries are accumulated (so more than 100 entries can be kept; at
    most 100 came before the last page read), sorts the accumulated entries
    by creation time descending, and returns one two-column table, with the
    columns [text] and [value], whose row for each entry holds the
    resource's name in both cells. *)
Theorem C8_suggestions_listed_newest_first
    getClient sortSlice tsdbReq (parameters : gmap string string) svc :
  sortsSlices sortSlice ->
  getClient (DatasourceRequest.Datasource tsdbReq) (MustString parameters "region")
  = inr svc ->
  (MustString parameters "subtype" = "log_group_names" ->
   let pages :=
     describeLogGroups svc (optionalPrefix (MustString parameters "logGroupNamePrefix")) in
   answered pages ->
   exists (k : nat) (sorted : list LogGroup.t),
     (1 <= k <= length (allPages pages))%nat /\
     (k = length (allPages pages) \/ 100 < len (concat (take k (allPages pages)))) /\
     len (concat (take (k - 1) (allPages pages))) <= 100 /\
     sorted ≡ₚ concat (take k (allPages pages)) /\
     StronglySorted (fun a b => LogGroup.CreationTime b <= LogGroup.CreationTime a) sorted /\
     metricFindQuery getClient sortSlice tsdbReq parameters
     = (replicate k OpDescribeLogGroups,
        Ok (suggestionResponse
              (map (fun g => suggestionRow (LogGroup.LogGroupName g)) sorted))))
  /\
  (MustString parameters "subtype" = "log_stream_names" ->
   let pages :=
     describeLogStreams svc (Some (MustString parameters "logGroupName"))
       (optionalPrefix (MustString parameters "logStreamNamePrefix")) in
   answered pages ->
   exists (k : nat) (sorted : list LogStream.t),
     (1 <= k <= length (allPages pages))%nat /\
     (k = length (allPages pages) \/ 100 < len (concat (take k (allPages pages)))) /\
     len (concat (take (k - 1) (allPages pages))) <= 100 /\
     sorted ≡ₚ concat (take k (allPages pages)) /\
     StronglySorted (fun a b => LogStream.CreationTime b <= LogStream.CreationTime a) sorted /\
     metricFindQuery getClient sortSlice tsdbReq parameters
     = (replicate k OpDescribeLogStreams,
        Ok (suggestionResponse
              (map (fun g => suggestionRow (LogStream.LogStreamName g)) sorted)))).
Proof.
  intros [Hperm Hsorted] Hsvc. split.
  - intros Hsub pages Hans.
    destruct (eachPage_listing OpDescribeLogGroups pages Hans []) as (k & Hk & Heq & Hend & Hbefore);
      [done|].
    cbn [app] in *.
    exists k,
      (sortSlice _ (fun a b => LogGroup.CreationTime b <? LogGroup.CreationTime a)
                 (concat (take k (allPages pages)))).
    split; [done|]. split; [done|]. split; [done|]. split; [apply Hperm|].
    split; [apply (Hsorted _ LogGroup.CreationTime)|].
    unfold metricFindQuery. rewrite Hsvc, Hsub. cbn [try]. rewrite bind_ret_l.
    rewrite bool_decide_eq_true_2 by done.
    unfold DescribeLogGroupsPages. fold pages. rewrite Heq.
    cbn. rewrite !app_nil_r. unfold suggestionResponse, transformToTable.
    by rewrite map_map.
  - intros Hsub pages Hans.
    destruct (eachPage_listing OpDescribeLogStreams pages Hans []) as (k & Hk & Heq & Hend & Hbefore);
      [done|].
    cbn [app] in *.
    exists k,
      (sortSlice _ (fun a b => LogStream.CreationTime b <? LogStream.CreationTime a)
                 (concat (take k (allPages pages)))).
    split; [done|]. split; [done|]. split; [done|]. split; [apply Hperm|].
    split; [apply (Hsorted _ LogStream.CreationTime)|].
    unfold metricFindQuery. rewrite Hsvc, Hsub. cbn [try]. rewrite bind_ret_l.
    rewrite bool_decide_eq_false_2 by done.
    rewrite bool_decide_eq_true_2 by done.
    unfold DescribeLogStreamsPagesWithContext. fold pages. rewrite Heq.
    cbn. rewrite !app_nil_r. unfold suggestionResponse, transformToTable.
    by rewrite map_map.
Qed.

Lemma C8_suggestions_witness :
  let parameters : gmap string string :=
    {[ "queryType" := "metricFindQuery"; "subtype" := "log_group_names";
       "region" := "us-east-1" ]} in
  let pages := threePagesOfFifty in
  exists (k : nat) (sorted : list LogGroup.t),
    (1 <= k <= length (allPages pages))%nat /\
    (k = length (allPages pages) \/ 100 < len (concat (take k (allPages pages)))) /\
    len (concat (take (k - 1) (allPages pages))) <= 100 /\
    sorted ≡ₚ concat (take k (allPages pages)) /\
    StronglySorted (fun a b => LogGroup.CreationTime b <= LogGroup.CreationTime a) sorted /\
    metricFindQuery (clientFor (groupsClient threePagesOfFifty)) insertionSort
      (sampleRequest []) parameters
    = (replicate k OpDescribeLogGroups,
       Ok (suggestionResponse
             (map (fun g => suggestionRow (LogGroup.LogGroupName g)) sorted))).
Proof.
  cbv zeta.
  apply (proj1 (C8_suggestions_listed_newest_first
                  (clientFor (groupsClient threePagesOfFifty)) insertionSort
                  (sampleRequest [])
                  {[ "queryType" := "metricFindQuery"; "subtype" := "log_group_names";
                     "region" := "us-east-1" ]}
                  (groupsClient threePagesOfFifty)
                  insertionSort_sortsSlices eq_refl)).
  - reflexivity.
  - exact I.
Defined.

(** ** C10: the time-series format in the plain-retrieval path *)

Lemma bind_ok {A B} tr (a : A) (f : A -> M B) :
  bind (tr, Ok a) f = (tr ++ requests (f a), outcome (f a)).
Proof. unfold bind. by destruct (f a). Qed.

Lemma M_eta {A} (m : M A) : m = (requests m, outcome m).
Proof. by destruct m. Qed.

Lemma decodeTargets_decoded fromRaw toRaw queries decoded :
  Forall2 (fun q t => Unmarshal (Query.ModelJson q) = inr t) queries decoded ->
  decodeTargets fromRaw toRaw queries = ret (map (withTimeRange fromRaw toRaw) decoded).
Proof.
  induction 1 as [|q t queries decoded Hq _ IH]; [done|].
  cbn [decodeTargets map]. rewrite Hq. cbn [try]. by rewrite bind_ret_l, IH, bind_ret_l.
Qed.

Lemma includesInsights_decoded queries decoded b :
  Forall2 (fun q t => Unmarshal (Query.ModelJson q) = inr t) queries decoded ->
  includesInsights queries b = ret (b || existsb Target.UseInsights decoded).
Proof.
  intros H. revert b. induction H as [|q t queries decoded Hq _ IH]; intros b.
  - cbn. by rewrite orb_false_r.
  - cbn [includesInsights existsb]. rewrite Hq. cbn [try].
    by rewrite bind_ret_l, IH, orb_assoc.
Qed.

(** The loop over the targets stops with [not supported] at the first
    target of the time-series format, once its retrieval has returned. *)
Lemma retrieveTargets_timeserie getClient FormatRFC3339 tsdbReq target post :
  Target.Format target = "timeserie" ->
  forall pre results,
    Forall (fun t => Target.Format t <> "timeserie") pre ->
    Forall (fun t => exists resp, outcome (retrieval getClient tsdbReq t) = Ok resp)
           (pre ++ [target]) ->
    retrieveTargets getClient FormatRFC3339 tsdbReq (pre ++ target :: post) results
    = (concat (map (fun t => requests (retrieval getClient tsdbReq t)) (pre ++ [target])),
       Err "not supported").
Proof.
  intros Hformat. induction pre as [|t pre IH]; intros results Hpre Hok.
  - cbn [app retrieveTargets map concat]. apply Forall_singleton in Hok as [resp Hresp].
    unfold retrieval in *.
    rewrite (M_eta (getLogEvent _ _ _ _ _)), Hresp, bind_ok, Hformat.
    rewrite bool_decide_eq_true_2 by done. cbn. by rewrite !app_nil_r.
  - cbn [app retrieveTargets map concat].
    apply Forall_cons in Hpre as [Ht Hpre]. apply Forall_cons in Hok as [[resp Hresp] Hok].
    unfold retrieval in Hresp |- *.
    rewrite (M_eta (getLogEvent _ _ _ _ _)), Hresp, bind_ok.
    rewrite bool_decide_eq_false_2 by done.
    destruct (bool_decide (Target.Format t = "table")).
    + unfold parseTableResponse. rewrite bind_ret_l, (IH _ Hpre Hok). done.
    + rewrite (IH _ Hpre Hok). done.
Qed.

(** Every result the loop adds is one table. *)
Lemma retrieveTargets_tables getClient FormatRFC3339 tsdbReq targets :
  forall results results',
    Forall (fun r => QueryResult.Series r = [] /\ exists table, QueryResult.Tables r = [table])
           results ->
    outcome (retrieveTargets getClient FormatRFC3339 tsdbReq targets results) = Ok results' ->
    Forall (fun r => QueryResult.Series r = [] /\ exists table, QueryResult.Tables r = [table])
           results'.
Proof.
  induction targets as [|t targets IH]; intros results results' Hres.
  - cbn. by intros [= <-].
  - cbn [retrieveTargets].
    destruct (getLogEvent getClient tsdbReq (Target.Region t) (Target.Input t)
                (Target.StartFromHead t)) as [tr [resp | e | ]]; [|done..].
    rewrite bind_ok. cbn [outcome snd].
    destruct (bool_decide (Target.Format t = "timeserie")); [done|].
    destruct (bool_decide (Target.Format t = "table")).
    + unfold parseTableResponse. rewrite bind_ret_l. apply IH.
      apply Forall_app. split; [done|]. apply Forall_singleton. cbn. eauto.
    + by apply IH.
Qed.

(** C10. In the plain-retrieval path (the first query is neither a
    suggestion nor an annotation query, every query decodes, none asks for
    Insights, the time range parses), for every batch with a target whose
    format is [timeserie], once the retrievals of the targets up to and
    including the first such target have returned, the call yields one
    result that carries the error [not supported] and nothing else: the
    results of the earlier targets are discarded and the later targets are
    not retrieved. And whatever a successful plain retrieval returns, each
    of its results is one table and no series. *)
Theorem C10_timeserie_not_supported
    getClient ParseFloat FormatRFC3339 sortSlice rangeTags rangeSeries
    tsdbReq query0 (members : gmap string string) fromRaw toRaw decoded pre target post :
  head (DatasourceRequest.Queries tsdbReq) = Some query0 ->
  NewJson (Query.ModelJson query0) = inr members ->
  MustString members "queryType" <> "metricFindQuery" ->
  MustString members "queryType" <> "annotationQuery" ->
  Forall2 (fun q t => Unmarshal (Query.ModelJson q) = inr t)
          (DatasourceRequest.Queries tsdbReq) decoded ->
  Forall (fun t => Target.UseInsights t = false) decoded ->
  ParseInt (FromRaw (DatasourceRequest.TimeRange tsdbReq)) = inr fromRaw ->
  ParseInt (ToRaw (DatasourceRequest.TimeRange tsdbReq)) = inr toRaw ->
  map (withTimeRange fromRaw toRaw) decoded = pre ++ target :: post ->
  Forall (fun t => Target.Format t <> "timeserie") pre ->
  Target.Format target = "timeserie" ->
  Forall (fun t => exists resp, outcome (retrieval getClient tsdbReq t) = Ok resp)
         (pre ++ [target]) ->
  Query getClient ParseFloat FormatRFC3339 sortSlice rangeTags rangeSeries tsdbReq
  = (concat (map (fun t => requests (retrieval getClient tsdbReq t)) (pre ++ [target])),
     Ok (DatasourceResponse.mk
           [ {| QueryResult.Error := "not supported";
                QueryResult.RefId := EmptyString;
                QueryResult.MetaJson := MetaNone;
                QueryResult.Series := [];
                QueryResult.Tables := [] |} ]))
  /\
  (forall resp,
      outcome (handleQuery getClient FormatRFC3339 tsdbReq) = Ok resp ->
      Forall (fun r => QueryResult.Series r = [] /\ exists table, QueryResult.Tables r = [table])
             (DatasourceResponse.Results resp)).
Proof.
  intros Hhead Hjson Hfind Hannot Hdecoded Hplain Hfrom Hto Htargets Hpre Hformat Hok.
  split.
  - unfold Query. rewrite Hhead. cbn [deref]. rewrite bind_ret_l, Hjson. cbn [try].
    rewrite bind_ret_l, !bool_decide_eq_false_2 by done.
    rewrite (includesInsights_decoded _ _ _ Hdecoded), bind_ret_l.
    assert (existsb Target.UseInsights decoded = false) as ->.
    { clear -Hplain. induction Hplain as [|t l Ht _ IH]; [done|]. cbn. by rewrite Ht, IH. }
    cbn [orb negb]. unfold handleQuery. rewrite Hfrom, Hto. cbn [try].
    rewrite !bind_ret_l, (decodeTargets_decoded _ _ _ _ Hdecoded), bind_ret_l, Htargets.
    rewrite (retrieveTargets_timeserie _ _ _ _ _ Hformat _ _ Hpre Hok). reflexivity.
  - intros resp. unfold handleQuery.
    destruct (ParseInt (FromRaw (DatasourceRequest.TimeRange tsdbReq))) as [e | f]; [done|].
    destruct (ParseInt (ToRaw (DatasourceRequest.TimeRange tsdbReq))) as [e | t]; [done|].
    cbn [try]. rewrite !bind_ret_l.
    destruct (decodeTargets f t (DatasourceRequest.Queries tsdbReq)) as [tr [ts | e | ]];
      [|done..].
    rewrite bind_ok. cbn [outcome snd]. intros H.
    apply bind_outcome_ret in H as (results & Hres & ->). cbn.
    by apply (retrieveTargets_tables _ _ _ _ [] results) in Hres.
Qed.

Lemma C10_timeserie_not_supported_witness :
  let tsdbReq :=
    sampleRequest [ queryOf (retrievalTarget "A" "table");
                    queryOf (retrievalTarget "B" "timeserie");
                    queryOf (retrievalTarget "C" "table") ] in
  Query (clientFor (filterClient threeThenFour)) sampleParseFloat formatRFC3339UTC
        insertionSort alternatingOrder map_to_list tsdbReq
  = ([OpFilterLogEvents; OpFilterLogEvents; OpFilterLogEvents; OpFilterLogEvents],
     Ok (DatasourceResponse.mk
           [ {| QueryResult.Error := "not supported";
                QueryResult.RefId := EmptyString;
                QueryResult.MetaJson := MetaNone;
                QueryResult.Series := [];
                QueryResult.Tables := [] |} ])).
Proof.
  cbv zeta.
  refine (proj1 (C10_timeserie_not_supported
                   (clientFor (filterClient threeThenFour)) sampleParseFloat formatRFC3339UTC
                   insertionSort alternatingOrder map_to_list
                   (sampleRequest [ queryOf (retrievalTarget "A" "table");
                                    queryOf (retrievalTarget "B" "timeserie");
                                    queryOf (retrievalTarget "C" "table") ])
                   (queryOf (retrievalTarget "A" "table")) ∅
                   1577836800000 1577840400000
                   [ retrievalTarget "A" "table"; retrievalTarget "B" "timeserie";
                     retrievalTarget "C" "table" ]
                   [ withTimeRange 1577836800000 1577840400000 (retrievalTarget "A" "table") ]
                   (withTimeRange 1577836800000 1577840400000 (retrievalTarget "B" "timeserie"))
                   [ withTimeRange 1577836800000 1577840400000 (retrievalTarget "C" "table") ]
                   eq_refl eq_refl _ _ _ _ eq_refl eq_refl eq_refl _ eq_refl _)).
  - done.
  - done.
  - repeat constructor.
  - repeat constructor.
  - repeat constructor. done.
  - repeat constructor; eexists; reflexivity.
Defined.

(** * Further properties of the engine *)

(** ** The retrieval: [getLogEvent] *)

(** Whatever stops it, a pagination that returns has read whole pages from
    the front of the listing, one request each. *)
Lemma eachPage_prefix op limit (ps : Pages (list FilteredLogEvent.t)) :
  forall acc tr st,
    eachPage op ps
      (fun events page lastPage => afterPage limit (events ++ page) lastPage) acc
    = (tr, Ok st) ->
    exists k : nat,
      (1 <= k <= length (allPages ps))%nat /\
      tr = replicate k op /\
      st = acc ++ concat (take k (allPages ps)).
Proof.
  induction ps as [page more IH | page | e]; intros acc tr st;
    cbn [eachPage allPages]; rewrite bind_tell; [| |done].
  - pose proof (afterPage_requests limit (acc ++ page) false) as Hreq.
    pose proof (afterPage_events limit (acc ++ page) false) as Hev.
    destruct (afterPage limit (acc ++ page) false) as [tr' [[goOn st'] | e | ]];
      [|done..].
    cbn in Hreq. subst tr'. specialize (Hev goOn st' eq_refl). subst st'.
    rewrite bind_ok. destruct goOn.
    + cbn [requests outcome fst snd app].
      destruct (eachPage op more _ (acc ++ page)) as [tr1 r1] eqn:E. cbn [fst snd].
      intros [= <- ->]. destruct (IH _ _ _ E) as (k & Hk & -> & ->).
      exists (S k). cbn [length take concat replicate].
      split; [lia|]. split; [done|]. by rewrite (assoc_L (++)).
    + cbn. intros [= <- <-]. exists 1%nat. cbn. rewrite app_nil_r.
      split; [lia | done].
  - pose proof (afterPage_requests limit (acc ++ page) true) as Hreq.
    pose proof (afterPage_events limit (acc ++ page) true) as Hev.
    destruct (afterPage limit (acc ++ page) true) as [tr' [[goOn st'] | e | ]];
      [|done..].
    cbn in Hreq. subst tr'. specialize (Hev goOn st' eq_refl). subst st'.
    cbn. intros [= <- <-]. exists 1%nat. cbn. rewrite app_nil_r.
    split; [lia | done].
Qed.

(** X1. A retrieval that returns hands back the records of whole pages
    from the front of what the service has on offer, in the service's order,
    and has sent one request per page it read: no record is reordered or
    left out in between and no page is split, whichever of the stopping
    conditions ended the pagination. *)
Theorem getLogEvent_returns_whole_pages
    getClient tsdbReq region input startFromHead svc tr resp :
  getClient (DatasourceRequest.Datasource tsdbReq) region = inr svc ->
  getLogEvent getClient tsdbReq region input startFromHead = (tr, Ok resp) ->
  exists k : nat,
    (1 <= k <= length (available svc input startFromHead))%nat /\
    tr = replicate k (fst (offered svc input startFromHead)) /\
    FilterLogEventsOutput.Events resp
    = concat (take k (available svc input startFromHead)).
Proof.
  intros Hsvc Hcall.
  destruct (FilterLogEventsInput.FilterPattern input) as [fp|] eqn:Hfp.
  - rewrite (getLogEvent_offered _ _ _ _ _ _ _ Hsvc Hfp) in Hcall.
    destruct (eachPage _ _ _ _) as [tr' [events | e | ]] eqn:E in Hcall; [|done..].
    cbn in Hcall. rewrite app_nil_r in Hcall. injection Hcall as <- <-.
    apply eachPage_prefix in E as (k & Hk & -> & ->). by exists k.
  - unfold getLogEvent in Hcall. by rewrite Hsvc, Hfp in Hcall.
Qed.

Lemma getLogEvent_returns_whole_pages_witness :
  exists k : nat,
    (1 <= k <= length (available (filterClient threeThenFour)
                         (sampleInput [] (Some "ERROR") (Some 5%Z)) false))%nat /\
    [OpFilterLogEvents; OpFilterLogEvents]
    = replicate k (fst (offered (filterClient threeThenFour)
                          (sampleInput [] (Some "ERROR") (Some 5)) false)) /\
    samplePage 3 ++ samplePage 4
    = concat (take k (available (filterClient threeThenFour)
                        (sampleInput [] (Some "ERROR") (Some 5)) false)).
Proof.
  apply (getLogEvent_returns_whole_pages
           (clientFor (filterClient threeThenFour)) (sampleRequest []) "us-east-1"
           (sampleInput [] (Some "ERROR") (Some 5)) false (filterClient threeThenFour)
           [OpFilterLogEvents; OpFilterLogEvents]
           (FilterLogEventsOutput.mk (samplePage 3 ++ samplePage 4))).
  - reflexivity.
  - vm_compute. reflexivity.
Defined.

(** Below the threshold a listing is read to its end. *)
Lemma eachPage_below op limit (ps : Pages (list FilteredLogEvent.t)) :
  forall acc,
    len acc + len (concat (allPages ps)) < Z.min limit 10001 ->
    eachPage op ps
      (fun events page lastPage => afterPage (Some limit) (events ++ page) lastPage) acc
    = (replicate (requestsToEnd ps) op,
       match failure ps with
       | Some e => Err e
       | None => Ok (acc ++ concat (allPages ps))
       end).
Proof.
  unfold requestsToEnd.
  induction ps as [page more IH | page | e]; intros acc Hbelow;
    cbn [eachPage allPages failure concat length] in *.
  - rewrite afterPage_threshold, bind_tell, bind_ret_l. rewrite len_app in Hbelow.
    destruct (Z.leb_spec (Z.min limit 10001) (len (acc ++ page))) as [Hstop | Hgo].
    { rewrite len_app in Hstop. pose proof (len_nonneg (concat (allPages more))). lia. }
    cbn [negb]. rewrite IH by (rewrite len_app; lia).
    cbn [requests outcome fst snd]. rewrite <- (assoc_L (++)). done.
  - rewrite afterPage_threshold, bind_tell, bind_ret_l. cbn. by rewrite !app_nil_r.
  - done.
Qed.

(** X2. When the service has fewer records than the requested limit and no
    more than the safety cap allows, and answers every request, the
    retrieval reads the listing to its end: it returns all the records of
    all pages, in order, with one request per page. *)
Theorem getLogEvent_reads_short_listing_to_end
    getClient tsdbReq region input startFromHead svc fp limit :
  getClient (DatasourceRequest.Datasource tsdbReq) region = inr svc ->
  FilterLogEventsInput.FilterPattern input = Some fp ->
  FilterLogEventsInput.Limit input = Some limit ->
  failure (snd (offered svc input startFromHead)) = None ->
  len (concat (available svc input startFromHead)) < Z.min limit 10001 ->
  getLogEvent getClient tsdbReq region input startFromHead
  = (replicate (length (available svc input startFromHead))
               (fst (offered svc input startFromHead)),
     Ok (FilterLogEventsOutput.mk (concat (available svc input startFromHead)))).
Proof.
  intros Hsvc Hfp Hlimit Hfail Hbelow.
  rewrite (getLogEvent_offered _ _ _ _ _ _ _ Hsvc Hfp), Hlimit.
  rewrite eachPage_below by (unfold len at 1; cbn [length]; exact Hbelow).
  unfold requestsToEnd. rewrite Hfail. cbn. unfold available.
  by rewrite Nat.add_0_r, app_nil_r.
Qed.

Lemma getLogEvent_reads_short_listing_witness :
  getLogEvent (clientFor (filterClient threeThenFour)) (sampleRequest []) "us-east-1"
              (sampleInput [] (Some "ERROR") (Some 100)) false
  = ([OpFilterLogEvents; OpFilterLogEvents],
     Ok (FilterLogEventsOutput.mk (samplePage 3 ++ samplePage 4 ++ []))).
Proof.
  apply (getLogEvent_reads_short_listing_to_end
           (clientFor (filterClient threeThenFour)) (sampleRequest []) "us-east-1"
           (sampleInput [] (Some "ERROR") (Some 100)) false
           (filterClient threeThenFour) "ERROR" 100);
    try reflexivity.
Defined.

(** X3. When a request of the listing fails before either limit is
    reached, the retrieval returns the service's error and none of the
    records of the pages read before it. *)
Theorem getLogEvent_failed_request_discards_pages
    getClient tsdbReq region input startFromHead svc fp limit e :
  getClient (DatasourceRequest.Datasource tsdbReq) region = inr svc ->
  FilterLogEventsInput.FilterPattern input = Some fp ->
  FilterLogEventsInput.Limit input = Some limit ->
  failure (snd (offered svc input startFromHead)) = Some e ->
  len (concat (available svc input startFromHead)) < Z.min limit 10001 ->
  getLogEvent getClient tsdbReq region input startFromHead
  = (replicate (S (length (available svc input startFromHead)))
               (fst (offered svc input startFromHead)),
     Err e).
Proof.
  intros Hsvc Hfp Hlimit Hfail Hbelow.
  rewrite (getLogEvent_offered _ _ _ _ _ _ _ Hsvc Hfp), Hlimit.
  rewrite eachPage_below by (unfold len at 1; cbn [length]; exact Hbelow).
  unfold requestsToEnd. rewrite Hfail. cbn. unfold available.
  by rewrite Nat.add_1_r.
Qed.

Lemma getLogEvent_failed_request_witness :
  getLogEvent (clientFor (filterClient threeThenRefused)) (sampleRequest []) "us-east-1"
              (sampleInput [] (Some "ERROR") (Some 100)) false
  = ([OpFilterLogEvents; OpFilterLogEvents], Err "ThrottlingException").
Proof.
  apply (getLogEvent_failed_request_discards_pages
           (clientFor (filterClient threeThenRefused)) (sampleRequest []) "us-east-1"
           (sampleInput [] (Some "ERROR") (Some 100)) false
           (filterClient threeThenRefused) "ERROR" 100 "ThrottlingException");
    try reflexivity.
Defined.

(** ** The table of a plain retrieval: [parseTableResponse] *)

Lemma timeUnix_of_millis ms :
  timeUnix (ms ÷ 1000) (ms `rem` 1000 * 1000 * 1000) = instantOfMillis ms.
Proof.
  unfold timeUnix, instantOfMillis.
  pose proof (Z.quot_rem' ms 1000) as Hqr.
  pose proof (Z.div_mod ms 1000 ltac:(lia)) as Hdm.
  pose proof (Z.mod_pos_bound ms 1000 ltac:(lia)) as Hmod.
  destruct (Z.le_gt_cases 0 ms) as [Hpos | Hneg].
  - pose proof (Z.rem_bound_pos ms 1000 Hpos ltac:(lia)) as Hrem.
    assert (ms ÷ 1000 = ms / 1000 /\ ms `rem` 1000 = ms mod 1000) as [-> ->].
    { rewrite Z.quot_div_nonneg, Z.rem_mod_nonneg by lia. done. }
    rewrite (Z.div_small (ms mod 1000 * 1000 * 1000)),
      (Z.mod_small (ms mod 1000 * 1000 * 1000)) by lia.
    f_equal; lia.
  - assert (-1000 < ms `rem` 1000 <= 0) as Hrem.
    { pose proof (Z.rem_bound_pos (- ms) 1000 ltac:(lia) ltac:(lia)) as Hb.
      rewrite Z.rem_opp_l in Hb by lia. lia. }
    destruct (Z.eq_dec (ms `rem` 1000) 0) as [Hz | Hnz].
    + assert (ms mod 1000 = 0 /\ ms ÷ 1000 = ms / 1000) as [Hm ->].
      { assert (ms = 1000 * (ms ÷ 1000)) as Hms by lia.
        split.
        - rewrite Hms, Z.mul_comm. apply Z.mod_mul. lia.
        - rewrite Hms at 2. rewrite Z.mul_comm, Z.div_mul by lia. done. }
      rewrite Hz, Hm. by vm_compute (0 * 1000 * 1000); rewrite Z.add_0_r.
    + assert (ms `rem` 1000 = ms mod 1000 - 1000 /\ ms ÷ 1000 = ms / 1000 + 1) as [Hr Hq].
      { assert (ms mod 1000 = ms `rem` 1000 + 1000) as Hm.
        { symmetry. apply (Z.mod_unique ms 1000 (ms ÷ 1000 - 1)); lia. }
        split; [lia|]. lia. }
      rewrite Hr, Hq.
      replace ((ms mod 1000 - 1000) * 1000 * 1000)
        with (ms mod 1000 * 1000000 + (-1) * 1000000000) by lia.
      rewrite Z.div_add, Z.mod_add by lia.
      rewrite (Z.div_small (ms mod 1000 * 1000000)),
        (Z.mod_small (ms mod 1000 * 1000000)) by lia.
      f_equal; lia.
Qed.

Lemma parseTableResponse_ret FormatRFC3339 resp refId :
  exists r,
    parseTableResponse FormatRFC3339 resp refId = ret r /\
    isLogTable FormatRFC3339 refId resp r.
Proof.
  eexists. split; [reflexivity|].
  unfold isLogTable. cbn. repeat split; try done.
  eexists. split; [reflexivity|]. split; [done|]. cbn.
  induction (FilterLogEventsOutput.Events resp) as [|e events IH]; [constructor|].
  cbn. constructor; [|exact IH].
  split; [repeat constructor|]. by rewrite !timeUnix_of_millis.
Qed.

(** X4. The table of a plain retrieval has the four columns [Timestamp],
    [IngestionTime], [LogStreamName] and [Message] and one row of four
    string values per record, in retrieval order: the two clock readings
    formatted from the second they fall in (rounded down, also for readings
    before the epoch), then the stream name and the message as they are.
    Making the table sends nothing and cannot fail. *)
Theorem parseTableResponse_is_log_table FormatRFC3339 resp refId :
  exists r,
    parseTableResponse FormatRFC3339 resp refId = ret r /\
    isLogTable FormatRFC3339 refId resp r.
Proof. apply parseTableResponse_ret. Qed.

(** ** The plain-retrieval path: [handleQuery] under [Query] *)

Lemma existsb_UseInsights_false decoded :
  Forall (fun t => Target.UseInsights t = false) decoded ->
  existsb Target.UseInsights decoded = false.
Proof. induction 1 as [|t l Ht _ IH]; [done|]. cbn. by rewrite Ht, IH. Qed.

(** A plain batch is handled by [handleQuery], its error put into a
    result. *)
Lemma Query_plain getClient ParseFloat FormatRFC3339 sortSlice rangeTags rangeSeries
    tsdbReq decoded :
  plainBatch tsdbReq decoded ->
  Query getClient ParseFloat FormatRFC3339 sortSlice rangeTags rangeSeries tsdbReq
  = errorResponse EmptyString (handleQuery getClient FormatRFC3339 tsdbReq).
Proof.
  intros [(query0 & members & Hhead & Hjson & Hfind & Hannot & Hdecoded) Hplain].
  unfold Query. rewrite Hhead. cbn [deref]. rewrite bind_ret_l, Hjson. cbn [try].
  rewrite bind_ret_l, !bool_decide_eq_false_2 by done.
  rewrite (includesInsights_decoded _ _ _ Hdecoded), bind_ret_l.
  by rewrite (existsb_UseInsights_false _ Hplain).
Qed.

Lemma handleQuery_decoded getClient FormatRFC3339 tsdbReq decoded fromRaw toRaw :
  Forall2 (fun q t => Unmarshal (Query.ModelJson q) = inr t)
          (DatasourceRequest.Queries tsdbReq) decoded ->
  parseTimeRange (DatasourceRequest.TimeRange tsdbReq) = inr (fromRaw, toRaw) ->
  handleQuery getClient FormatRFC3339 tsdbReq
  = (let* results :=
       retrieveTargets getClient FormatRFC3339 tsdbReq
         (map (withTimeRange fromRaw toRaw) decoded) [] in
     ret (DatasourceResponse.mk results)).
Proof.
  intros Hdecoded Hrange. unfold handleQuery, parseTimeRange in *.
  destruct (ParseInt (FromRaw _)) as [e | f]; [done|].
  destruct (ParseInt (ToRaw _)) as [e | t]; [done|].
  cbn in Hrange. injection Hrange as -> ->. cbn [try].
  by rewrite !bind_ret_l, (decodeTargets_decoded _ _ _ _ Hdecoded), bind_ret_l.
Qed.

Lemma retrieveTargets_in_order getClient FormatRFC3339 tsdbReq :
  forall (pairs : list (Target.t * FilterLogEventsOutput.t)) results,
    Forall (fun p => Target.Format p.1 <> "timeserie") pairs ->
    Forall (fun p => outcome (retrieval getClient tsdbReq p.1) = Ok p.2) pairs ->
    exists added,
      retrieveTargets getClient FormatRFC3339 tsdbReq (map fst pairs) results
      = (concat (map (fun p => requests (retrieval getClient tsdbReq p.1)) pairs),
         Ok (results ++ added)) /\
      Forall2 (fun r p => isLogTable FormatRFC3339 (Target.RefId p.1) p.2 r)
              added (tableTargets pairs).
Proof.
  induction pairs as [|[t resp] pairs IH]; intros results Hformat Hok.
  - exists []. rewrite app_nil_r. split; [done | constructor].
  - apply Forall_cons in Hformat as [Ht Hformat]. apply Forall_cons in Hok as [Hresp Hok].
    cbn [fst snd] in *. cbn [map retrieveTargets concat fst].
    unfold retrieval in Hresp.
    rewrite (M_eta (getLogEvent _ _ _ _ _)), Hresp, bind_ok.
    rewrite bool_decide_eq_false_2 by done. unfold tableTargets.
    destruct (decide (Target.Format t = "table")) as [Htable | Hother].
    + rewrite bool_decide_eq_true_2 by done.
      destruct (parseTableResponse_ret FormatRFC3339 resp (Target.RefId t))
        as (r & -> & Hr).
      rewrite bind_ret_l.
      destruct (IH (results ++ [r]) Hformat Hok) as (added & -> & Hadded).
      exists (r :: added). rewrite <- (assoc_L (++)). split; [done|].
      rewrite filter_cons_True by done. by constructor.
    + rewrite bool_decide_eq_false_2 by done.
      destruct (IH results Hformat Hok) as (added & -> & Hadded).
      exists added. split; [done|]. by rewrite filter_cons_False.
Qed.

(** X5. A plain batch, none of whose targets has the format [timeserie]
    and all of whose retrievals return, yields one table per target of the
    format [table], in target order, each under the target's reference id
    and holding the records of that target's retrieval; targets of any
    other format are retrieved all the same and contribute nothing. *)
Theorem Query_plain_tables_in_target_order
    getClient ParseFloat FormatRFC3339 sortSlice rangeTags rangeSeries
    tsdbReq decoded fromRaw toRaw (pairs : list (Target.t * FilterLogEventsOutput.t)) :
  plainBatch tsdbReq decoded ->
  parseTimeRange (DatasourceRequest.TimeRange tsdbReq) = inr (fromRaw, toRaw) ->
  map fst pairs = map (withTimeRange fromRaw toRaw) decoded ->
  Forall (fun p => Target.Format p.1 <> "timeserie") pairs ->
  Forall (fun p => outcome (retrieval getClient tsdbReq p.1) = Ok p.2) pairs ->
  exists results,
    Query getClient ParseFloat FormatRFC3339 sortSlice rangeTags rangeSeries tsdbReq
    = (concat (map (fun p => requests (retrieval getClient tsdbReq p.1)) pairs),
       Ok (DatasourceResponse.mk results)) /\
    Forall2 (fun r p => isLogTable FormatRFC3339 (Target.RefId p.1) p.2 r)
            results (tableTargets pairs).
Proof.
  intros Hbatch Hrange Hpairs Hformat Hok.
  rewrite (Query_plain _ _ _ _ _ _ _ _ Hbatch).
  destruct Hbatch as [(query0 & members & _ & _ & _ & _ & Hdecoded) _].
  rewrite (handleQuery_decoded _ _ _ _ _ _ Hdecoded Hrange), <- Hpairs.
  destruct (retrieveTargets_in_order getClient FormatRFC3339 tsdbReq pairs [] Hformat Hok)
    as (added & -> & Hadded).
  exists added. split; [|done]. cbn. by rewrite app_nil_r.
Qed.

Lemma Query_plain_tables_witness :
  let pairs :=
    map (fun t => (withTimeRange 1577836800000 1577840400000 t, sevenEvents)) sampleBatch in
  exists results,
    Query (clientFor (filterClient threeThenFour)) sampleParseFloat formatRFC3339UTC
          insertionSort alternatingOrder map_to_list (sampleRequest (map queryOf sampleBatch))
    = (concat (map (fun p => requests (retrieval (clientFor (filterClient threeThenFour))
                                         (sampleRequest (map queryOf sampleBatch)) p.1))
                   pairs),
       Ok (DatasourceResponse.mk results)) /\
    Forall2 (fun r p => isLogTable formatRFC3339UTC (Target.RefId p.1) p.2 r)
            results (tableTargets pairs).
Proof.
  cbv zeta.
  apply (Query_plain_tables_in_target_order
           (clientFor (filterClient threeThenFour)) sampleParseFloat formatRFC3339UTC
           insertionSort alternatingOrder map_to_list
           (sampleRequest (map queryOf sampleBatch)) sampleBatch
           1577836800000 1577840400000).
  - split.
    + exists (queryOf (retrievalTarget "A" "table")), ∅.
      repeat split; try done. repeat constructor.
    + repeat constructor.
  - reflexivity.
  - reflexivity.
  - repeat constructor; done.
  - repeat constructor.
Defined.

Lemma retrieveTargets_error getClient FormatRFC3339 tsdbReq target post e :
  outcome (retrieval getClient tsdbReq target) = Err e ->
  forall pre results,
    Forall (fun t => Target.Format t <> "timeserie") pre ->
    Forall (fun t => exists resp, outcome (retrieval getClient tsdbReq t) = Ok resp) pre ->
    retrieveTargets getClient FormatRFC3339 tsdbReq (pre ++ target :: post) results
    = (concat (map (fun t => requests (retrieval getClient tsdbReq t)) (pre ++ [target])),
       Err e).
Proof.
  intros He. induction pre as [|t pre IH]; intros results Hpre Hok.
  - cbn [app retrieveTargets map concat]. unfold retrieval in *.
    rewrite (M_eta (getLogEvent _ _ _ _ _)), He. cbn. by rewrite app_nil_r.
  - cbn [app retrieveTargets map concat].
    apply Forall_cons in Hpre as [Ht Hpre]. apply Forall_cons in Hok as [[resp Hresp] Hok].
    unfold retrieval in Hresp |- *.
    rewrite (M_eta (getLogEvent _ _ _ _ _)), Hresp, bind_ok.
    rewrite bool_decide_eq_false_2 by done.
    destruct (bool_decide (Target.Format t = "table")).
    + unfold parseTableResponse. rewrite bind_ret_l, (IH _ Hpre Hok). done.
    + rewrite (IH _ Hpre Hok). done.
Qed.

(** X6. In a plain batch, the first retrieval that fails ends the call:
    the response is one result that carries the service's error and
    nothing else, the tables made for the earlier targets are lost, and the
    later targets are not retrieved. *)
Theorem Query_plain_first_error_ends_batch
    getClient ParseFloat FormatRFC3339 sortSlice rangeTags rangeSeries
    tsdbReq decoded fromRaw toRaw pre target post e :
  plainBatch tsdbReq decoded ->
  parseTimeRange (DatasourceRequest.TimeRange tsdbReq) = inr (fromRaw, toRaw) ->
  map (withTimeRange fromRaw toRaw) decoded = pre ++ target :: post ->
  Forall (fun t => Target.Format t <> "timeserie") pre ->
  Forall (fun t => exists resp, outcome (retrieval getClient tsdbReq t) = Ok resp) pre ->
  outcome (retrieval getClient tsdbReq target) = Err e ->
  Query getClient ParseFloat FormatRFC3339 sortSlice rangeTags rangeSeries tsdbReq
  = (concat (map (fun t => requests (retrieval getClient tsdbReq t)) (pre ++ [target])),
     Ok (DatasourceResponse.mk [errorResult EmptyString e])).
Proof.
  intros Hbatch Hrange Htargets Hpre Hok He.
  rewrite (Query_plain _ _ _ _ _ _ _ _ Hbatch).
  destruct Hbatch as [(query0 & members & _ & _ & _ & _ & Hdecoded) _].
  rewrite (handleQuery_decoded _ _ _ _ _ _ Hdecoded Hrange), Htargets.
  by rewrite (retrieveTargets_error _ _ _ _ _ _ He _ _ Hpre Hok).
Qed.

Lemma Query_plain_first_error_witness :
  Query (clientFor refusingClient) sampleParseFloat formatRFC3339UTC
        insertionSort alternatingOrder map_to_list
        (sampleRequest (map queryOf [ retrievalTarget "A" "table"; goneTarget "B" "table";
                                      retrievalTarget "C" "table" ]))
  = ([OpFilterLogEvents; OpFilterLogEvents; OpFilterLogEvents],
     Ok (DatasourceResponse.mk [errorResult EmptyString "ResourceNotFoundException"])).
Proof.
  apply (Query_plain_first_error_ends_batch
           (clientFor refusingClient) sampleParseFloat formatRFC3339UTC
           insertionSort alternatingOrder map_to_list
           (sampleRequest (map queryOf [ retrievalTarget "A" "table"; goneTarget "B" "table";
                                         retrievalTarget "C" "table" ]))
           [ retrievalTarget "A" "table"; goneTarget "B" "table"; retrievalTarget "C" "table" ]
           1577836800000 1577840400000
           [ withTimeRange 1577836800000 1577840400000 (retrievalTarget "A" "table") ]
           (withTimeRange 1577836800000 1577840400000 (goneTarget "B" "table"))
           [ withTimeRange 1577836800000 1577840400000 (retrievalTarget "C" "table") ]
           "ResourceNotFoundException").
  - split.
    + exists (queryOf (retrievalTarget "A" "table")), ∅.
      repeat split; try done. repeat constructor.
    + repeat constructor.
  - reflexivity.
  - reflexivity.
  - repeat constructor; done.
  - repeat constructor. eexists. reflexivity.
  - reflexivity.
Defined.

(** ** The dispatcher: [Query] *)

(** X7. A batch in which some target asks for Insights must hold exactly
    one query: with any other number of queries the call fails with the
    error [invalid insights query, it should be single] before anything is
    sent, and the error goes to the transport, not into a result. *)
Theorem Query_insights_batch_must_be_single
    getClient ParseFloat FormatRFC3339 sortSlice rangeTags rangeSeries tsdbReq decoded :
  decodedBatch tsdbReq decoded ->
  Exists (fun t => Target.UseInsights t = true) decoded ->
  length (DatasourceRequest.Queries tsdbReq) <> 1%nat ->
  Query getClient ParseFloat FormatRFC3339 sortSlice rangeTags rangeSeries tsdbReq
  = ([], Err "invalid insights query, it should be single").
Proof.
  intros (query0 & members & Hhead & Hjson & Hfind & Hannot & Hdecoded) Hsome Hlen.
  unfold Query. rewrite Hhead. cbn [deref]. rewrite bind_ret_l, Hjson. cbn [try].
  rewrite bind_ret_l, !bool_decide_eq_false_2 by done.
  rewrite (includesInsights_decoded _ _ _ Hdecoded), bind_ret_l.
  assert (existsb Target.UseInsights decoded = true) as ->.
  { apply existsb_exists. apply Exists_exists in Hsome as (t & Ht & Hflag).
    exists t. split; [by apply list_elem_of_In | done]. }
  cbn [orb negb].
  assert ((len (DatasourceRequest.Queries tsdbReq) =? 1) = false) as ->; [|done].
  apply Z.eqb_neq. unfold len. lia.
Qed.

Lemma Query_insights_batch_witness :
  Query (clientFor (startClient "q-7")) sampleParseFloat formatRFC3339UTC
        insertionSort alternatingOrder map_to_list
        (sampleRequest (map queryOf [ retrievalTarget "A" "table";
                                      insightsTarget EmptyString "table" EmptyString ]))
  = ([], Err "invalid insights query, it should be single").
Proof.
  apply (Query_insights_batch_must_be_single
           (clientFor (startClient "q-7")) sampleParseFloat formatRFC3339UTC
           insertionSort alternatingOrder map_to_list
           (sampleRequest (map queryOf [ retrievalTarget "A" "table";
                                         insightsTarget EmptyString "table" EmptyString ]))
           [ retrievalTarget "A" "table"; insightsTarget EmptyString "table" EmptyString ]).
  - exists (queryOf (retrievalTarget "A" "table")), ∅.
    repeat split; try done. repeat constructor.
  - apply Exists_cons_tl, Exists_cons_hd. reflexivity.
  - cbn. lia.
Defined.

Lemma parseTimeRange_error tr e :
  parseTimeRange tr = inl e ->
  ParseInt (FromRaw tr) = inl e
  \/ exists fromRaw, ParseInt (FromRaw tr) = inr fromRaw /\ ParseInt (ToRaw tr) = inl e.
Proof.
  unfold parseTimeRange. destruct (ParseInt (FromRaw tr)) as [e1 | f]; cbn.
  - intros [= ->]. by left.
  - destruct (ParseInt (ToRaw tr)) as [e2 | t]; cbn; [|done]. intros [= ->]. right. eauto.
Qed.

(** X8. A time range whose bounds are not decimal integers stops every
    path that reads it before anything is sent. In the third path of the
    dispatcher (plain retrieval, or Insights with a single query) the parse
    error is returned inside a result; in the annotation path it is the
    error of the call itself. *)
Theorem Query_malformed_time_range
    getClient ParseFloat FormatRFC3339 sortSlice rangeTags rangeSeries tsdbReq e :
  parseTimeRange (DatasourceRequest.TimeRange tsdbReq) = inl e ->
  (forall decoded,
      decodedBatch tsdbReq decoded ->
      Forall (fun t => Target.UseInsights t = false) decoded
      \/ length (DatasourceRequest.Queries tsdbReq) = 1%nat ->
      Query getClient ParseFloat FormatRFC3339 sortSlice rangeTags rangeSeries tsdbReq
      = ([], Ok (DatasourceResponse.mk [errorResult EmptyString e])))
  /\
  (forall query0 (members : gmap string string) target,
      head (DatasourceRequest.Queries tsdbReq) = Some query0 ->
      NewJson (Query.ModelJson query0) = inr members ->
      MustString members "queryType" = "annotationQuery" ->
      Unmarshal (Query.ModelJson query0) = inr target ->
      Query getClient ParseFloat FormatRFC3339 sortSlice rangeTags rangeSeries tsdbReq
      = ([], Err e)).
Proof.
  intros Hrange. split.
  - intros decoded (query0 & members & Hhead & Hjson & Hfind & Hannot & Hdecoded) Hroute.
    unfold Query. rewrite Hhead. cbn [deref]. rewrite bind_ret_l, Hjson. cbn [try].
    rewrite bind_ret_l, !bool_decide_eq_false_2 by done.
    rewrite (includesInsights_decoded _ _ _ Hdecoded), bind_ret_l. cbn [orb].
    assert (handleQuery getClient FormatRFC3339 tsdbReq = ([], Err e)) as Hplain.
    { unfold handleQuery.
      destruct (parseTimeRange_error _ _ Hrange) as [-> | (f & -> & ->)]; done. }
    assert (forall query,
               handleInsightsQuery getClient ParseFloat rangeTags rangeSeries tsdbReq query
               = ([], Err e)) as Hinsights.
    { intros query. unfold handleInsightsQuery.
      destruct (parseTimeRange_error _ _ Hrange) as [-> | (f & -> & ->)]; done. }
    destruct (existsb Target.UseInsights decoded) eqn:Hflag; cbn [negb].
    + destruct Hroute as [Hnone | Hone].
      { by rewrite (existsb_UseInsights_false _ Hnone) in Hflag. }
      assert ((len (DatasourceRequest.Queries tsdbReq) =? 1) = true) as ->.
      { apply Z.eqb_eq. unfold len. lia. }
      cbn [negb]. by rewrite Hinsights.
    + by rewrite Hplain.
  - intros query0 members target Hhead Hjson Hannot Htarget.
    unfold Query. rewrite Hhead. cbn [deref]. rewrite bind_ret_l, Hjson. cbn [try].
    rewrite bind_ret_l, Hannot. rewrite bool_decide_eq_false_2 by done.
    rewrite bool_decide_eq_true_2 by done. rewrite Htarget. cbn [try]. rewrite bind_ret_l.
    destruct (parseTimeRange_error _ _ Hrange) as [-> | (f & -> & ->)]; done.
Qed.

Lemma Query_malformed_time_range_witness :
  Query (clientFor (filterClient threeThenFour)) sampleParseFloat formatRFC3339UTC
        insertionSort alternatingOrder map_to_list
        (undatedRequest (map queryOf sampleBatch))
  = ([], Ok (DatasourceResponse.mk [errorResult EmptyString errSyntax]))
  /\
  Query (clientFor (filterClient threeThenFour)) sampleParseFloat formatRFC3339UTC
        insertionSort alternatingOrder map_to_list
        (undatedRequest [annotationQueryOf (retrievalTarget "A" "table")])
  = ([], Err errSyntax).
Proof.
  split.
  - apply (proj1 (Query_malformed_time_range
                    (clientFor (filterClient threeThenFour)) sampleParseFloat
                    formatRFC3339UTC insertionSort alternatingOrder map_to_list
                    (undatedRequest (map queryOf sampleBatch)) errSyntax eq_refl)
                 sampleBatch).
    + exists (queryOf (retrievalTarget "A" "table")), ∅.
      repeat split; try done. repeat constructor.
    + left. repeat constructor.
  - apply (proj2 (Query_malformed_time_range
                    (clientFor (filterClient threeThenFour)) sampleParseFloat
                    formatRFC3339UTC insertionSort alternatingOrder map_to_list
                    (undatedRequest [annotationQueryOf (retrievalTarget "A" "table")])
                    errSyntax eq_refl)
                 (annotationQueryOf (retrievalTarget "A" "table"))
                 {[ "queryType" := "annotationQuery" ]} (retrievalTarget "A" "table"));
      reflexivity.
Defined.

(** X9. An annotation query is served from the first query of the batch
    alone, by one retrieval that reads from the head of the stream whatever
    the target's own flag says. When the retrieval returns, the response is
    one result that carries the retrieved records as metadata, without
    table, series or reference id; when it fails, the error is the error of
    the call itself and is not put into a result. *)
Theorem Query_annotation_path
    getClient ParseFloat FormatRFC3339 sortSlice rangeTags rangeSeries
    tsdbReq query0 (members : gmap string string) target fromRaw toRaw :
  head (DatasourceRequest.Queries tsdbReq) = Some query0 ->
  NewJson (Query.ModelJson query0) = inr members ->
  MustString members "queryType" = "annotationQuery" ->
  Unmarshal (Query.ModelJson query0) = inr target ->
  parseTimeRange (DatasourceRequest.TimeRange tsdbReq) = inr (fromRaw, toRaw) ->
  let call :=
    getLogEvent getClient tsdbReq (Target.Region target)
                (Target.Input (withTimeRange fromRaw toRaw target)) true in
  let answer :=
    Query getClient ParseFloat FormatRFC3339 sortSlice rangeTags rangeSeries tsdbReq in
  requests answer = requests call /\
  match outcome call with
  | Ok resp =>
      outcome answer
      = Ok (DatasourceResponse.mk
              [ {| QueryResult.Error := EmptyString;
                   QueryResult.RefId := EmptyString;
                   QueryResult.MetaJson := MetaEvents resp;
                   QueryResult.Series := [];
                   QueryResult.Tables := [] |} ])
  | Err e => outcome answer = Err e
  | Panic => outcome answer = Panic
  end.
Proof.
  intros Hhead Hjson Hannot Htarget Hrange call answer. subst call answer.
  unfold Query. rewrite Hhead. cbn [deref]. rewrite bind_ret_l, Hjson. cbn [try].
  rewrite bind_ret_l, Hannot. rewrite bool_decide_eq_false_2 by done.
  rewrite bool_decide_eq_true_2 by done. rewrite Htarget. cbn [try]. rewrite bind_ret_l.
  unfold parseTimeRange in Hrange.
  destruct (ParseInt (FromRaw _)) as [e | f]; [done|].
  destruct (ParseInt (ToRaw _)) as [e | t]; [done|].
  cbn in Hrange. injection Hrange as -> ->. cbn [try]. rewrite !bind_ret_l.
  cbn [Target.Region withTimeRange].
  destruct (getLogEvent _ _ _ _ _) as [tr [resp | e | ]]; cbn; by rewrite ?app_nil_r.
Qed.

Lemma Query_annotation_witness :
  let tsdbReq := sampleRequest [ annotationQueryOf (retrievalTarget "A" "table");
                                 queryOf (retrievalTarget "B" "table") ] in
  let call :=
    getLogEvent (clientFor (filterClient threeThenFour)) tsdbReq "us-east-1"
      (Target.Input (withTimeRange 1577836800000 1577840400000 (retrievalTarget "A" "table")))
      true in
  let answer :=
    Query (clientFor (filterClient threeThenFour)) sampleParseFloat formatRFC3339UTC
          insertionSort alternatingOrder map_to_list tsdbReq in
  requests answer = requests call /\
  match outcome call with
  | Ok resp =>
      outcome answer
      = Ok (DatasourceResponse.mk
              [ {| QueryResult.Error := EmptyString;
                   QueryResult.RefId := EmptyString;
                   QueryResult.MetaJson := MetaEvents resp;
                   QueryResult.Series := [];
                   QueryResult.Tables := [] |} ])
  | Err e => outcome answer = Err e
  | Panic => outcome answer = Panic
  end.
Proof.
  cbv zeta.
  apply (Query_annotation_path
           (clientFor (filterClient threeThenFour)) sampleParseFloat formatRFC3339UTC
           insertionSort alternatingOrder map_to_list
           (sampleRequest [ annotationQueryOf (retrievalTarget "A" "table");
                            queryOf (retrievalTarget "B" "table") ])
           (annotationQueryOf (retrievalTarget "A" "table"))
           {[ "queryType" := "annotationQuery" ]} (retrievalTarget "A" "table")
           1577836800000 1577840400000);
    reflexivity.
Defined.

(** ** The resumption of a job: [handleInsightsQuery] *)

Lemma parseTimeRange_ok tr fromRaw toRaw :
  parseTimeRange tr = inr (fromRaw, toRaw) ->
  ParseInt (FromRaw tr) = inr fromRaw /\ ParseInt (ToRaw tr) = inr toRaw.
Proof.
  unfold parseTimeRange. destruct (ParseInt (FromRaw tr)) as [e | f]; [done|].
  destruct (ParseInt (ToRaw tr)) as [e | t]; [done|]. cbn. by intros [= -> ->].
Qed.

Lemma findQuery_none queryId queries :
  Forall (fun q' => QueryInfo.QueryId q' <> queryId) queries ->
  findQuery queryId queries = None.
Proof.
  unfold findQuery. induction 1 as [|x l Hx _ IH]; [done|]. by rewrite filter_cons_False.
Qed.

Lemma findQuery_last queryId before q after :
  QueryInfo.QueryId q = queryId ->
  Forall (fun q' => QueryInfo.QueryId q' <> queryId) after ->
  findQuery queryId (before ++ q :: after) = Some q.
Proof.
  intros Hq Hafter. pose proof (findQuery_none _ _ Hafter) as Hnone.
  unfold findQuery in *. rewrite filter_app, filter_cons_True by done.
  destruct (filter _ after) as [|x l] eqn:E.
  - by rewrite last_snoc.
  - exfalso. assert (x ∈ filter (fun q' => QueryInfo.QueryId q' = queryId) after) as Hx
      by (rewrite E; left).
    apply list_elem_of_filter in Hx as [Hx Hin].
    by apply (proj1 (Forall_forall _ _) Hafter x Hin).
Qed.

(** X10. In the scan of the job listing the last job of the wanted id
    counts: jobs of other ids are passed over, and among several jobs of the
    same id the one listed last gives the status. No job of that id: no
    job. *)
Theorem findQuery_last_match queryId before q after :
  QueryInfo.QueryId q = queryId ->
  Forall (fun q' => QueryInfo.QueryId q' <> queryId) after ->
  findQuery queryId (before ++ q :: after) = Some q
  /\ (forall queries,
         Forall (fun q' => QueryInfo.QueryId q' <> queryId) queries ->
         findQuery queryId queries = None).
Proof.
  intros Hq Hafter. split; [by apply findQuery_last|]. apply findQuery_none.
Qed.

Lemma findQuery_last_match_witness :
  findQuery "q-1" ([QueryInfo.mk "q-1" "Running"; QueryInfo.mk "q-0" "Complete"]
                   ++ QueryInfo.mk "q-1" "Complete" :: [QueryInfo.mk "q-2" "Running"])
  = Some (QueryInfo.mk "q-1" "Complete").
Proof.
  apply (findQuery_last_match "q-1"
           [QueryInfo.mk "q-1" "Running"; QueryInfo.mk "q-0" "Complete"]
           (QueryInfo.mk "q-1" "Complete") [QueryInfo.mk "q-2" "Running"]).
  - reflexivity.
  - repeat constructor. done.
Defined.

(** The start of a resuming call, up to the look at the listed jobs. *)
Ltac resume H :=
  let fromRaw := fresh "fromRaw" in
  let toRaw := fresh "toRaw" in
  let Hrange := fresh "Hrange" in
  let Htarget := fresh "Htarget" in
  let Hsvc := fresh "Hsvc" in
  let Hjob := fresh "Hjob" in
  let lg := fresh "lg" in
  let Hscope := fresh "Hscope" in
  let Hlisting := fresh "Hlisting" in
  let Hfrom := fresh "Hfrom" in
  let Hto := fresh "Hto" in
  destruct H as [(fromRaw & toRaw & Hrange) Htarget Hsvc Hjob (lg & Hscope & Hlisting)];
  apply parseTimeRange_ok in Hrange as [Hfrom Hto];
  unfold handleInsightsQuery;
  rewrite Hfrom, Hto, Htarget; cbn [try];
  rewrite !bind_ret_l, Hsvc; cbn [try]; rewrite bind_ret_l;
  rewrite bool_decide_eq_false_2 by done;
  unfold jobScope in Hscope;
  cbn [withQueryTimeRange StartQueryInput.LogGroupNames StartQueryInput.LogGroupName];
  destruct (StartQueryInput.LogGroupNames (Target.InputInsightsStartQuery _))
    as [[|? ?]|]; [done | |];
  cbn in Hscope; injection Hscope as <-; cbn [head deref];
  rewrite !bind_ret_l, !bind_tell, Hlisting; cbn [try]; rewrite bind_ret_l.

(** X11. Resuming a job that the scoped listing does not hold fails with
    the error that names the job id, after the one listing request. *)
Theorem handleInsightsQuery_job_not_found getClient ParseFloat rangeTags rangeSeries
    tsdbReq query target svc queries :
  Resumes getClient tsdbReq query target svc queries ->
  Forall (fun q => QueryInfo.QueryId q <> Target.QueryId target) queries ->
  handleInsightsQuery getClient ParseFloat rangeTags rangeSeries tsdbReq query
  = ([OpDescribeQueries], Err (Target.QueryId target +:+ " is not found")).
Proof.
  intros Hresume Hnone.
  pose proof (findQuery_none _ _ Hnone) as Hfind.
  resume Hresume; by rewrite Hfind.
Qed.

Lemma handleInsightsQuery_job_not_found_witness :
  let target := insightsTarget "q-1" "table" EmptyString in
  handleInsightsQuery
    (clientFor (jobClient [QueryInfo.mk "q-0" "Complete"] (inl "ResourceNotFoundException")))
    sampleParseFloat alternatingOrder map_to_list
    (sampleRequest [queryOf target]) (queryOf target)
  = ([OpDescribeQueries], Err ("q-1" +:+ " is not found")).
Proof.
  cbv zeta.
  apply (handleInsightsQuery_job_not_found
           (clientFor (jobClient [QueryInfo.mk "q-0" "Complete"]
                                 (inl "ResourceNotFoundException")))
           sampleParseFloat alternatingOrder map_to_list
           (sampleRequest [queryOf (insightsTarget "q-1" "table" EmptyString)])
           (queryOf (insightsTarget "q-1" "table" EmptyString))
           (insightsTarget "q-1" "table" EmptyString)
           (jobClient [QueryInfo.mk "q-0" "Complete"] (inl "ResourceNotFoundException"))
           [QueryInfo.mk "q-0" "Complete"]).
  - split; try done.
    + by exists 1577836800000, 1577840400000.
    + by exists (Some "app").
  - repeat constructor. done.
Defined.

(** X12. Resuming a job whose listed status is not [Complete] sends the
    listing request and nothing else (no fetch, no stop) and answers with
    one result that carries the job id and that status as metadata, with no
    table and no series. *)
Theorem handleInsightsQuery_poll_again getClient ParseFloat rangeTags rangeSeries
    tsdbReq query target svc queries q :
  Resumes getClient tsdbReq query target svc queries ->
  findQuery (Target.QueryId target) queries = Some q ->
  QueryInfo.Status q <> "Complete" ->
  handleInsightsQuery getClient ParseFloat rangeTags rangeSeries tsdbReq query
  = ([OpDescribeQueries],
     Ok (DatasourceResponse.mk
           [ metaResult (Target.RefId target)
               (jobMeta (Target.QueryId target) (QueryInfo.Status q)) ])).
Proof.
  intros Hresume Hfind Hstatus.
  resume Hresume; rewrite Hfind; by rewrite bool_decide_eq_false_2.
Qed.

Lemma handleInsightsQuery_poll_again_witness :
  let target := insightsTarget "q-1" "table" EmptyString in
  handleInsightsQuery
    (clientFor (jobClient [QueryInfo.mk "q-1" "Running"] (inl "ResourceNotFoundException")))
    sampleParseFloat alternatingOrder map_to_list
    (sampleRequest [queryOf target]) (queryOf target)
  = ([OpDescribeQueries],
     Ok (DatasourceResponse.mk [ metaResult "A" (jobMeta "q-1" "Running") ])).
Proof.
  cbv zeta.
  apply (handleInsightsQuery_poll_again
           (clientFor (jobClient [QueryInfo.mk "q-1" "Running"]
                                 (inl "ResourceNotFoundException")))
           sampleParseFloat alternatingOrder map_to_list
           (sampleRequest [queryOf (insightsTarget "q-1" "table" EmptyString)])
           (queryOf (insightsTarget "q-1" "table" EmptyString))
           (insightsTarget "q-1" "table" EmptyString)
           (jobClient [QueryInfo.mk "q-1" "Running"] (inl "ResourceNotFoundException"))
           [QueryInfo.mk "q-1" "Running"] (QueryInfo.mk "q-1" "Running")).
  - split; try done.
    + by exists 1577836800000, 1577840400000.
    + by exists (Some "app").
  - reflexivity.
  - done.
Defined.

(** X13. When the listing says [Complete] and the fetch then reports any
    other status, the call fails with [unexpected status] and the job is not
    stopped: the requests are the listing and the fetch. *)
Theorem handleInsightsQuery_unexpected_status getClient ParseFloat rangeTags rangeSeries
    tsdbReq query target svc queries q gresp :
  Resumes getClient tsdbReq query target svc queries ->
  findQuery (Target.QueryId target) queries = Some q ->
  QueryInfo.Status q = "Complete" ->
  getQueryResults svc (Target.QueryId target) = inr gresp ->
  GetQueryResultsOutput.Status gresp <> "Complete" ->
  handleInsightsQuery getClient ParseFloat rangeTags rangeSeries tsdbReq query
  = ([OpDescribeQueries; OpGetQueryResults], Err "unexpected status").
Proof.
  intros Hresume Hfind Hstatus Hfetch Hfetched.
  resume Hresume; rewrite Hfind, Hstatus; rewrite bool_decide_eq_true_2 by done;
    cbn [negb]; rewrite Hfetch; cbn [try]; rewrite bind_ret_l;
    by rewrite bool_decide_eq_false_2.
Qed.

Lemma handleInsightsQuery_unexpected_status_witness :
  let target := insightsTarget "q-1" "table" EmptyString in
  let svc := jobClient [QueryInfo.mk "q-1" "Complete"]
                       (inr (GetQueryResultsOutput.mk [] "Running")) in
  handleInsightsQuery (clientFor svc) sampleParseFloat alternatingOrder map_to_list
    (sampleRequest [queryOf target]) (queryOf target)
  = ([OpDescribeQueries; OpGetQueryResults], Err "unexpected status").
Proof.
  cbv zeta.
  apply (handleInsightsQuery_unexpected_status
           (clientFor (jobClient [QueryInfo.mk "q-1" "Complete"]
                                 (inr (GetQueryResultsOutput.mk [] "Running"))))
           sampleParseFloat alternatingOrder map_to_list
           (sampleRequest [queryOf (insightsTarget "q-1" "table" EmptyString)])
           (queryOf (insightsTarget "q-1" "table" EmptyString))
           (insightsTarget "q-1" "table" EmptyString)
           (jobClient [QueryInfo.mk "q-1" "Complete"]
                      (inr (GetQueryResultsOutput.mk [] "Running")))
           [QueryInfo.mk "q-1" "Complete"] (QueryInfo.mk "q-1" "Complete")
           (GetQueryResultsOutput.mk [] "Running")).
  - split; try done.
    + by exists 1577836800000, 1577840400000.
    + by exists (Some "app").
  - reflexivity.
  - reflexivity.
  - reflexivity.
  - done.
Defined.

(** A resuming call up to the fetched results. *)
Ltac fetch H :=
  let svc := fresh "svc" in
  let queries := fresh "queries" in
  let q := fresh "q" in
  let Hresume := fresh "Hresume" in
  let Hfind := fresh "Hfind" in
  let Hstatus := fresh "Hstatus" in
  let Hfetch := fresh "Hfetch" in
  let Hfetched := fresh "Hfetched" in
  destruct H as (svc & queries & q & Hresume & Hfind & Hstatus & Hfetch & Hfetched);
  resume Hresume; rewrite Hfind, Hstatus; rewrite bool_decide_eq_true_2 by done;
  cbn [negb]; rewrite Hfetch; cbn [try]; rewrite bind_ret_l, Hfetched;
  rewrite bool_decide_eq_true_2 by done; cbn [negb].

Lemma sample_Fetches target rows :
  Target.QueryId target = "q-1" ->
  Target.Region target = "us-east-1" ->
  jobScope (Target.InputInsightsStartQuery target) = Some (Some "app") ->
  Fetches (clientFor (completeClient rows)) (sampleRequest [queryOf target])
          (queryOf target) target (GetQueryResultsOutput.mk rows "Complete").
Proof.
  intros Hid Hregion Hscope.
  exists (completeClient rows), [QueryInfo.mk "q-1" "Complete"], (QueryInfo.mk "q-1" "Complete").
  split; [|by rewrite Hid].
  split; try done.
  - by exists 1577836800000, 1577840400000.
  - by rewrite Hid.
  - by exists (Some "app").
Qed.

(** X14. A completed job without result rows is answered with one result
    that carries the job id and the status [Complete] as metadata and has no
    table and no series, whatever format the target asks for; the job has
    been listed, fetched and stopped. *)
Theorem handleInsightsQuery_complete_without_rows
    getClient ParseFloat rangeTags rangeSeries tsdbReq query target gresp :
  Fetches getClient tsdbReq query target gresp ->
  GetQueryResultsOutput.Results gresp = [] ->
  handleInsightsQuery getClient ParseFloat rangeTags rangeSeries tsdbReq query
  = ([OpDescribeQueries; OpGetQueryResults; OpStopQuery],
     Ok (DatasourceResponse.mk [completeResult target [] []])).
Proof. intros Hfetches Hrows. fetch Hfetches; by rewrite Hrows. Qed.

Lemma handleInsightsQuery_complete_without_rows_witness :
  let target := insightsTarget "q-1" "timeserie" EmptyString in
  handleInsightsQuery (clientFor (completeClient [])) sampleParseFloat alternatingOrder
    map_to_list (sampleRequest [queryOf target]) (queryOf target)
  = ([OpDescribeQueries; OpGetQueryResults; OpStopQuery],
     Ok (DatasourceResponse.mk [completeResult target [] []])).
Proof.
  cbv zeta.
  apply (handleInsightsQuery_complete_without_rows
           (clientFor (completeClient [])) sampleParseFloat alternatingOrder map_to_list
           (sampleRequest [queryOf (insightsTarget "q-1" "timeserie" EmptyString)])
           (queryOf (insightsTarget "q-1" "timeserie" EmptyString))
           (insightsTarget "q-1" "timeserie" EmptyString)
           (GetQueryResultsOutput.mk [] "Complete")).
  - by apply sample_Fetches.
  - reflexivity.
Defined.

Lemma insightsTable_is_table results : isInsightsTable results (insightsTable results).
Proof.
  split.
  - unfold insightsTable. cbn. by rewrite map_map.
  - unfold insightsTable. cbn. induction results as [|r results IH]; [constructor|].
    cbn. constructor; [|exact IH]. split.
    + apply Forall_map. by apply Forall_true.
    + cbn [TableRow.Values]. by rewrite map_map.
Qed.

(** X15. A completed job with result rows, for a target of any format but
    [timeserie], is answered with one result of one table: its columns are
    the field names of the first row, and each result row gives a row of its
    own values as strings, as many as it has (a row with other fields than
    the first is neither padded nor cut). *)
Theorem handleInsightsQuery_complete_table
    getClient ParseFloat rangeTags rangeSeries tsdbReq query target gresp :
  Fetches getClient tsdbReq query target gresp ->
  GetQueryResultsOutput.Results gresp <> [] ->
  Target.Format target <> "timeserie" ->
  exists table,
    handleInsightsQuery getClient ParseFloat rangeTags rangeSeries tsdbReq query
    = ([OpDescribeQueries; OpGetQueryResults; OpStopQuery],
       Ok (DatasourceResponse.mk [completeResult target [] [table]]))
    /\ isInsightsTable (GetQueryResultsOutput.Results gresp) table.
Proof.
  intros Hfetches Hrows Hformat.
  exists (insightsTable (GetQueryResultsOutput.Results gresp)).
  split; [|apply insightsTable_is_table].
  fetch Hfetches;
    (destruct (GetQueryResultsOutput.Results gresp) as [|r rows]; [done|]);
    change (len (r :: rows) =? 0) with (Z.pos (Pos.of_succ_nat (length rows)) =? 0);
    cbn [Z.eqb]; by rewrite bool_decide_eq_false_2.
Qed.

Lemma handleInsightsQuery_complete_table_witness :
  let target := insightsTarget "q-1" "table" EmptyString in
  exists table,
    handleInsightsQuery (clientFor (completeClient sampleRows)) sampleParseFloat
      alternatingOrder map_to_list (sampleRequest [queryOf target]) (queryOf target)
    = ([OpDescribeQueries; OpGetQueryResults; OpStopQuery],
       Ok (DatasourceResponse.mk [completeResult target [] [table]]))
    /\ isInsightsTable sampleRows table.
Proof.
  cbv zeta.
  apply (handleInsightsQuery_complete_table
           (clientFor (completeClient sampleRows)) sampleParseFloat alternatingOrder
           map_to_list
           (sampleRequest [queryOf (insightsTarget "q-1" "table" EmptyString)])
           (queryOf (insightsTarget "q-1" "table" EmptyString))
           (insightsTarget "q-1" "table" EmptyString)
           (GetQueryResultsOutput.mk sampleRows "Complete")).
  - by apply sample_Fetches.
  - done.
  - done.
Defined.

Lemma len_cons_nonzero {A} (x : A) l : (len (x :: l) =? 0) = false.
Proof. apply Z.eqb_neq. unfold len. cbn [length]. lia. Qed.

(** X16. A completed job with result rows, for a target of the format
    [timeserie] whose rows all read without a parse error, is answered with
    one result without table whose series are exactly the groups of the rows
    by derived legend name: every series is the series of its own name (the
    points of the rows of that name, in row order), every name that some row
    has occurs, and no name occurs twice. The order of the series is that of
    the [range] over the map and is not fixed. *)
Theorem handleInsightsQuery_complete_series
    getClient ParseFloat rangeTags rangeSeries tsdbReq query target gresp recs :
  Fetches getClient tsdbReq query target gresp ->
  GetQueryResultsOutput.Results gresp <> [] ->
  Target.Format target = "timeserie" ->
  labelRows ParseFloat rangeTags target 0 (GetQueryResultsOutput.Results gresp) = inr recs ->
  validOrder rangeSeries ->
  exists series,
    handleInsightsQuery getClient ParseFloat rangeTags rangeSeries tsdbReq query
    = ([OpDescribeQueries; OpGetQueryResults; OpStopQuery],
       Ok (DatasourceResponse.mk [completeResult target series []]))
    /\ NoDup (map TimeSeries.Name series)
    /\ forall s, s ∈ series <-> seriesOf (TimeSeries.Name s) recs = Some s.
Proof.
  intros Hfetches Hrows Hformat Hlabels Hvalid.
  destruct (collectSeries_groups ParseFloat rangeTags target
              (GetQueryResultsOutput.Results gresp) 0 ∅ [] recs)
    as (m & Hm & Hgroups); [intros n; by rewrite lookup_empty | done |].
  cbn [app] in Hgroups.
  exists (map snd (rangeSeries m)). split; [|split].
  - fetch Hfetches;
      (destruct (GetQueryResultsOutput.Results gresp) as [|r rows] eqn:E; [done|]);
      rewrite len_cons_nonzero, Hformat; rewrite bool_decide_eq_true_2 by done;
      rewrite Hm; reflexivity.
  - rewrite map_map.
    assert (map (fun x : string * TimeSeries.t => TimeSeries.Name x.2) (rangeSeries m)
            = map fst (rangeSeries m)) as ->.
    { apply map_ext_in. intros [k s] Hin. cbn.
      apply list_elem_of_In in Hin. rewrite (Hvalid m) in Hin.
      apply elem_of_map_to_list in Hin. rewrite Hgroups in Hin.
      by apply seriesOf_name in Hin. }
    rewrite (Hvalid m). apply NoDup_fst_map_to_list.
  - intros s. rewrite list_elem_of_fmap. split.
    + intros ([k s'] & -> & Hin). cbn. rewrite (Hvalid m) in Hin.
      apply elem_of_map_to_list in Hin. rewrite Hgroups in Hin.
      by rewrite (seriesOf_name _ _ _ Hin).
    + intros Hs. exists (TimeSeries.Name s, s). split; [done|].
      rewrite (Hvalid m). apply elem_of_map_to_list. by rewrite Hgroups.
Qed.

Lemma handleInsightsQuery_complete_series_witness :
  let target := insightsTarget "q-1" "timeserie" "{{ host }}/{{ zone }}" in
  exists series,
    handleInsightsQuery (clientFor (completeClient sampleRows)) sampleParseFloat
      alternatingOrder map_to_list (sampleRequest [queryOf target]) (queryOf target)
    = ([OpDescribeQueries; OpGetQueryResults; OpStopQuery],
       Ok (DatasourceResponse.mk [completeResult target series []]))
    /\ NoDup (map TimeSeries.Name series)
    /\ forall s, s ∈ series <-> seriesOf (TimeSeries.Name s) sampleLabelled = Some s.
Proof.
  cbv zeta.
  apply (handleInsightsQuery_complete_series
           (clientFor (completeClient sampleRows)) sampleParseFloat alternatingOrder
           map_to_list
           (sampleRequest [queryOf (insightsTarget "q-1" "timeserie" "{{ host }}/{{ zone }}")])
           (queryOf (insightsTarget "q-1" "timeserie" "{{ host }}/{{ zone }}"))
           (insightsTarget "q-1" "timeserie" "{{ host }}/{{ zone }}")
           (GetQueryResultsOutput.mk sampleRows "Complete") sampleLabelled).
  - by apply sample_Fetches.
  - done.
  - reflexivity.
  - vm_compute. reflexivity.
  - intros m. reflexivity.
Defined.

Lemma collectSeries_error ParseFloat rangeTags target rows e :
  forall i (series0 : gmap string TimeSeries.t),
    labelRows ParseFloat rangeTags target i rows = inl e ->
    collectSeries ParseFloat rangeTags target i rows series0 = inl e.
Proof.
  induction rows as [|r rows IH]; intros i series0 Hrows; [done|].
  cbn [labelRows collectSeries] in *. unfold labelRow in Hrows.
  destruct (readFields ParseFloat target r 0 float64_zero ∅)
    as [e' | [[timestamp value] kv]]; [cbn in *; congruence|].
  cbn [mbind result_bind] in *.
  destruct (labelRows ParseFloat rangeTags target (S i) rows) as [e' | recs'] eqn:E;
    [|done].
  cbn in Hrows. injection Hrows as ->. by apply IH.
Qed.

(** X17. In the time-series transformation one row that does not read
    (a time that is not in the layout, a value that is no number) fails the
    whole call with the parse error: no series is returned for the rows that
    did read. The job has been stopped by then. *)
Theorem handleInsightsQuery_series_parse_error
    getClient ParseFloat rangeTags rangeSeries tsdbReq query target gresp e :
  Fetches getClient tsdbReq query target gresp ->
  Target.Format target = "timeserie" ->
  labelRows ParseFloat rangeTags target 0 (GetQueryResultsOutput.Results gresp) = inl e ->
  handleInsightsQuery getClient ParseFloat rangeTags rangeSeries tsdbReq query
  = ([OpDescribeQueries; OpGetQueryResults; OpStopQuery], Err e).
Proof.
  intros Hfetches Hformat Hlabels.
  pose proof (collectSeries_error _ _ _ _ _ 0 ∅ Hlabels) as Herr.
  fetch Hfetches;
    (destruct (GetQueryResultsOutput.Results gresp) as [|r rows] eqn:E; [done|]);
    rewrite len_cons_nonzero, Hformat; rewrite bool_decide_eq_true_2 by done;
    by rewrite Herr.
Qed.

Lemma handleInsightsQuery_series_parse_error_witness :
  let target := insightsTarget "q-1" "timeserie" "{{ host }}" in
  handleInsightsQuery (clientFor (completeClient brokenRows)) sampleParseFloat
    alternatingOrder map_to_list (sampleRequest [queryOf target]) (queryOf target)
  = ([OpDescribeQueries; OpGetQueryResults; OpStopQuery], Err errParseTime).
Proof.
  cbv zeta.
  apply (handleInsightsQuery_series_parse_error
           (clientFor (completeClient brokenRows)) sampleParseFloat alternatingOrder
           map_to_list
           (sampleRequest [queryOf (insightsTarget "q-1" "timeserie" "{{ host }}")])
           (queryOf (insightsTarget "q-1" "timeserie" "{{ host }}"))
           (insightsTarget "q-1" "timeserie" "{{ host }}")
           (GetQueryResultsOutput.mk brokenRows "Complete") errParseTime).
  - by apply sample_Fetches.
  - reflexivity.
  - vm_compute. reflexivity.
Defined.

(** X18. Resuming a job with a target whose [LogGroupNames] is an empty
    list (not nil) panics on the first element of that list, before the job
    listing is asked for. *)
Theorem handleInsightsQuery_empty_LogGroupNames_panics
    getClient ParseFloat rangeTags rangeSeries tsdbReq query target svc fromRaw toRaw :
  parseTimeRange (DatasourceRequest.TimeRange tsdbReq) = inr (fromRaw, toRaw) ->
  Unmarshal (Query.ModelJson query) = inr target ->
  getClient (DatasourceRequest.Datasource tsdbReq) (Target.Region target) = inr svc ->
  Target.QueryId target <> EmptyString ->
  StartQueryInput.LogGroupNames (Target.InputInsightsStartQuery target) = Some [] ->
  handleInsightsQuery getClient ParseFloat rangeTags rangeSeries tsdbReq query
  = ([], Panic).
Proof.
  intros [Hfrom Hto]%parseTimeRange_ok Htarget Hsvc Hjob Hnames.
  unfold handleInsightsQuery. rewrite Hfrom, Hto, Htarget. cbn [try].
  rewrite !bind_ret_l, Hsvc. cbn [try]. rewrite bind_ret_l.
  rewrite bool_decide_eq_false_2 by done.
  cbn [withQueryTimeRange StartQueryInput.LogGroupNames]. by rewrite Hnames.
Qed.

Lemma handleInsightsQuery_empty_LogGroupNames_witness :
  handleInsightsQuery (clientFor (completeClient sampleRows)) sampleParseFloat
    alternatingOrder map_to_list (sampleRequest [queryOf scopelessTarget])
    (queryOf scopelessTarget)
  = ([], Panic).
Proof.
  apply (handleInsightsQuery_empty_LogGroupNames_panics
           (clientFor (completeClient sampleRows)) sampleParseFloat alternatingOrder
           map_to_list (sampleRequest [queryOf scopelessTarget]) (queryOf scopelessTarget)
           scopelessTarget (completeClient sampleRows) 1577836800000 1577840400000);
    (reflexivity || done).
Defined.

(** ** Suggestions: [metricFindQuery] under [Query] *)

(** X19. A suggestion query of a subtype that is neither
    [log_group_names] nor [log_stream_names] asks the service nothing and
    answers with the two-column table without rows. *)
Theorem metricFindQuery_unknown_subtype getClient sortSlice tsdbReq
    (parameters : gmap string string) svc :
  getClient (DatasourceRequest.Datasource tsdbReq) (MustString parameters "region")
  = inr svc ->
  MustString parameters "subtype" <> "log_group_names" ->
  MustString parameters "subtype" <> "log_stream_names" ->
  metricFindQuery getClient sortSlice tsdbReq parameters
  = ([], Ok (suggestionResponse [])).
Proof.
  intros Hsvc Hgroups Hstreams. unfold metricFindQuery. rewrite Hsvc. cbn [try].
  rewrite bind_ret_l, !bool_decide_eq_false_2 by done. reflexivity.
Qed.

Lemma metricFindQuery_unknown_subtype_witness :
  metricFindQuery (clientFor (groupsClient threePagesOfFifty)) insertionSort
    (sampleRequest []) (suggestParameters "log_groups")
  = ([], Ok (suggestionResponse [])).
Proof.
  apply (metricFindQuery_unknown_subtype
           (clientFor (groupsClient threePagesOfFifty)) insertionSort (sampleRequest [])
           (suggestParameters "log_groups") (groupsClient threePagesOfFifty));
    (reflexivity || done).
Defined.

Lemma eachPage_listing_fails {A} op (ps : Pages (list A)) e :
  failure ps = Some e ->
  forall acc,
    len acc + len (concat (allPages ps)) <= 100 ->
    eachPage op ps (fun entries page lastPage => afterListing (entries ++ page) lastPage) acc
    = (replicate (S (length (allPages ps))) op, Err e).
Proof.
  induction ps as [page more IH | page | e']; intros Hfail acc Hbelow;
    cbn [eachPage allPages failure concat length] in *; [|done|].
  - rewrite afterListing_eq, bind_tell, bind_ret_l. rewrite len_app in Hbelow.
    pose proof (len_nonneg (concat (allPages more))).
    destruct (Z.ltb_spec 100 (len (acc ++ page))) as [Hstop | Hgo].
    { rewrite len_app in Hstop. lia. }
    cbn [negb]. rewrite (IH Hfail) by (rewrite len_app; lia). done.
  - by injection Hfail as ->.
Qed.

(** X20. The errors of a suggestion query come back inside one result
    under the reference id [metricFindQuery]: the error of making the
    client, with nothing sent, and, for the listing of log groups as for
    the listing of the log streams of a group, the error of a listing
    request that fails before more than 100 entries are accumulated, the
    entries read before it being dropped. The time range and the other
    queries of the batch are not looked at. *)
Theorem Query_suggestion_errors
    getClient ParseFloat FormatRFC3339 sortSlice rangeTags rangeSeries
    tsdbReq query0 (parameters : gmap string string) e :
  head (DatasourceRequest.Queries tsdbReq) = Some query0 ->
  NewJson (Query.ModelJson query0) = inr parameters ->
  MustString parameters "queryType" = "metricFindQuery" ->
  let answer :=
    Query getClient ParseFloat FormatRFC3339 sortSlice rangeTags rangeSeries tsdbReq in
  (getClient (DatasourceRequest.Datasource tsdbReq) (MustString parameters "region")
   = inl e ->
   answer = ([], Ok (DatasourceResponse.mk [errorResult "metricFindQuery" e])))
  /\
  (forall svc,
      getClient (DatasourceRequest.Datasource tsdbReq) (MustString parameters "region")
      = inr svc ->
      MustString parameters "subtype" = "log_group_names" ->
      let pages :=
        describeLogGroups svc (optionalPrefix (MustString parameters "logGroupNamePrefix")) in
      failure pages = Some e ->
      len (concat (allPages pages)) <= 100 ->
      answer
      = (replicate (S (length (allPages pages))) OpDescribeLogGroups,
         Ok (DatasourceResponse.mk [errorResult "metricFindQuery" e])))
  /\
  (forall svc,
      getClient (DatasourceRequest.Datasource tsdbReq) (MustString parameters "region")
      = inr svc ->
      MustString parameters "subtype" = "log_stream_names" ->
      let pages :=
        describeLogStreams svc (Some (MustString parameters "logGroupName"))
          (optionalPrefix (MustString parameters "logStreamNamePrefix")) in
      failure pages = Some e ->
      len (concat (allPages pages)) <= 100 ->
      answer
      = (replicate (S (length (allPages pages))) OpDescribeLogStreams,
         Ok (DatasourceResponse.mk [errorResult "metricFindQuery" e]))).
Proof.
  intros Hhead Hjson Hfind answer. subst answer.
  unfold Query. rewrite Hhead. cbn [deref]. rewrite bind_ret_l, Hjson. cbn [try].
  rewrite bind_ret_l, Hfind. rewrite bool_decide_eq_true_2 by done.
  split; [|split].
  - intros Hclient. unfold metricFindQuery. by rewrite Hclient.
  - intros svc Hsvc Hsub. cbv zeta. intros Hfail Hbelow. unfold metricFindQuery.
    rewrite Hsvc, Hsub. cbn [try]. rewrite bind_ret_l.
    rewrite bool_decide_eq_true_2 by done. unfold DescribeLogGroupsPages.
    rewrite (eachPage_listing_fails _ _ _ Hfail) by (unfold len at 1; cbn [length]; lia).
    reflexivity.
  - intros svc Hsvc Hsub. cbv zeta. intros Hfail Hbelow. unfold metricFindQuery.
    rewrite Hsvc, Hsub. cbn [try]. rewrite bind_ret_l.
    rewrite bool_decide_eq_false_2 by done.
    rewrite bool_decide_eq_true_2 by done. unfold DescribeLogStreamsPagesWithContext.
    rewrite (eachPage_listing_fails _ _ _ Hfail) by (unfold len at 1; cbn [length]; lia).
    reflexivity.
Qed.

Lemma Query_suggestion_errors_witness :
  Query (clientFor (groupsClient fiftyThenRefused)) sampleParseFloat formatRFC3339UTC
        insertionSort alternatingOrder map_to_list
        (undatedRequest [suggestQuery "log_group_names"])
  = ([OpDescribeLogGroups; OpDescribeLogGroups],
     Ok (DatasourceResponse.mk [errorResult "metricFindQuery" "ThrottlingException"]))
  /\ Query (clientFor (streamsClient eightyThenRefused)) sampleParseFloat formatRFC3339UTC
          insertionSort alternatingOrder map_to_list
          (undatedRequest [suggestQuery "log_stream_names"])
     = ([OpDescribeLogStreams; OpDescribeLogStreams; OpDescribeLogStreams],
        Ok (DatasourceResponse.mk [errorResult "metricFindQuery" "ThrottlingException"])).
Proof.
  split.
  - apply (proj1 (proj2 (Query_suggestion_errors
                  (clientFor (groupsClient fiftyThenRefused)) sampleParseFloat
                  formatRFC3339UTC insertionSort alternatingOrder map_to_list
                  (undatedRequest [suggestQuery "log_group_names"])
                  (suggestQuery "log_group_names") (suggestParameters "log_group_names")
                  "ThrottlingException" eq_refl eq_refl eq_refl))
               (groupsClient fiftyThenRefused) eq_refl eq_refl eq_refl).
    vm_compute. discriminate.
  - apply (proj2 (proj2 (Query_suggestion_errors
                  (clientFor (streamsClient eightyThenRefused)) sampleParseFloat
                  formatRFC3339UTC insertionSort alternatingOrder map_to_list
                  (undatedRequest [suggestQuery "log_stream_names"])
                  (suggestQuery "log_stream_names") (suggestParameters "log_stream_names")
                  "ThrottlingException" eq_refl eq_refl eq_refl))
               (streamsClient eightyThenRefused) eq_refl eq_refl eq_refl).
    vm_compute. discriminate.
Defined.

(** ** Decoding the batch *)

Lemma includesInsights_error queries q post e :
  Unmarshal (Query.ModelJson q) = inl e ->
  forall b,
    Forall (fun q' => exists t, Unmarshal (Query.ModelJson q') = inr t) queries ->
    includesInsights (queries ++ q :: post) b = raise e.
Proof.
  intros He. induction queries as [|q' queries IH]; intros b Hok.
  - cbn [app includesInsights]. by rewrite He.
  - apply Forall_cons in Hok as [[t Ht] Hok]. cbn [app includesInsights].
    rewrite Ht. cbn [try]. rewrite bind_ret_l. by apply IH.
Qed.

(** X21. In the third path of the dispatcher every query of the batch is
    decoded before anything is sent: one query that does not decode fails
    the whole call with the decoding error, as the error of the call itself,
    whatever the queries before and after it ask for. *)
Theorem Query_undecodable_query_fails_batch
    getClient ParseFloat FormatRFC3339 sortSlice rangeTags rangeSeries
    tsdbReq query0 (members : gmap string string) before q after e :
  head (DatasourceRequest.Queries tsdbReq) = Some query0 ->
  NewJson (Query.ModelJson query0) = inr members ->
  MustString members "queryType" <> "metricFindQuery" ->
  MustString members "queryType" <> "annotationQuery" ->
  DatasourceRequest.Queries tsdbReq = before ++ q :: after ->
  Forall (fun q' => exists t, Unmarshal (Query.ModelJson q') = inr t) before ->
  Unmarshal (Query.ModelJson q) = inl e ->
  Query getClient ParseFloat FormatRFC3339 sortSlice rangeTags rangeSeries tsdbReq
  = ([], Err e).
Proof.
  intros Hhead Hjson Hfind Hannot Hqueries Hbefore He.
  unfold Query. rewrite Hhead. cbn [deref]. rewrite bind_ret_l, Hjson. cbn [try].
  rewrite bind_ret_l, !bool_decide_eq_false_2 by done.
  by rewrite Hqueries, (includesInsights_error _ _ _ _ He _ Hbefore).
Qed.

Lemma Query_undecodable_query_witness :
  Query (clientFor (filterClient threeThenFour)) sampleParseFloat formatRFC3339UTC
        insertionSort alternatingOrder map_to_list
        (sampleRequest [ queryOf (retrievalTarget "A" "table");
                         Query.mk "B" (Parsed ∅ (inl "json: cannot unmarshal number"));
                         queryOf (retrievalTarget "C" "table") ])
  = ([], Err "json: cannot unmarshal number").
Proof.
  apply (Query_undecodable_query_fails_batch
           (clientFor (filterClient threeThenFour)) sampleParseFloat formatRFC3339UTC
           insertionSort alternatingOrder map_to_list
           (sampleRequest [ queryOf (retrievalTarget "A" "table");
                            Query.mk "B" (Parsed ∅ (inl "json: cannot unmarshal number"));
                            queryOf (retrievalTarget "C" "table") ])
           (queryOf (retrievalTarget "A" "table")) ∅
           [queryOf (retrievalTarget "A" "table")]
           (Query.mk "B" (Parsed ∅ (inl "json: cannot unmarshal number")))
           [queryOf (retrievalTarget "C" "table")]
           "json: cannot unmarshal number");
    try (reflexivity || done).
  repeat constructor. eexists. reflexivity.
Defined.

(** ** The legend formatter on text without a closing *)

Lemma hasClosing_cons c s : hasClosing s = true -> hasClosing (String c s) = true.
Proof. intros H. cbn [hasClosing]. rewrite H. apply orb_true_r. Qed.

Lemma stripPrefix_closing_hasClosing s r :
  stripPrefix closing s = Some r -> hasClosing s = true.
Proof.
  unfold closing. destruct s as [|c [|d s]]; cbn [stripPrefix]; try done.
  - by destruct (Ascii.eqb "}" c).
  - destruct (Ascii.eqb_spec "}" c) as [<- | ]; [|done].
    destruct (Ascii.eqb_spec "}" d) as [<- | ]; [|done]. done.
Qed.

Lemma matchClose_hasClosing s m r : matchClose s = Some (m, r) -> hasClosing s = true.
Proof.
  revert m r. induction s as [|c s IH]; intros m r; [done|]. cbn [matchClose].
  destruct (isReSpace c).
  - destruct (matchClose s) as [[m' r']|] eqn:E; [|done]. intros _.
    apply hasClosing_cons. by apply (IH m' r').
  - destruct (stripPrefix closing (String c s)) as [r'|] eqn:E; [|done]. intros _.
    by apply stripPrefix_closing_hasClosing in E.
Qed.

Lemma matchLazy_hasClosing s m r : matchLazy s = Some (m, r) -> hasClosing s = true.
Proof.
  revert m r. induction s as [|c s IH]; intros m r; [done|]. cbn [matchLazy].
  destruct (isReDot c); [|done].
  destruct (matchClose s) as [[m' r']|] eqn:E.
  - intros _. apply hasClosing_cons. by apply matchClose_hasClosing in E.
  - destruct (matchLazy s) as [[m' r']|] eqn:E'; [|done]. intros _.
    apply hasClosing_cons. by apply (IH m' r').
Qed.

Lemma matchOpenSpace_hasClosing s m r :
  matchOpenSpace s = Some (m, r) -> hasClosing s = true.
Proof.
  revert m r. induction s as [|c s IH]; intros m r; [done|]. cbn [matchOpenSpace].
  destruct (isReSpace c); [|apply matchLazy_hasClosing].
  destruct (matchOpenSpace s) as [[m' r']|] eqn:E; [|apply matchLazy_hasClosing].
  intros _. apply hasClosing_cons. by apply (IH m' r').
Qed.

Lemma matchAt_hasClosing s m r : matchAt s = Some (m, r) -> hasClosing s = true.
Proof.
  unfold matchAt. destruct s as [|c [|d s]]; cbn [stripPrefix]; try done.
  - by destruct (Ascii.eqb "{" c).
  - destruct (Ascii.eqb "{" c); [|done]. destruct (Ascii.eqb "{" d); [|done].
    cbn [mbind option_bind].
    destruct (matchOpenSpace s) as [[m' r']|] eqn:E; [|done]. intros _.
    apply matchOpenSpace_hasClosing in E. by do 2 apply hasClosing_cons.
Qed.

Lemma replaceAllFrom_no_closing s repl :
  hasClosing s = false -> replaceAllFrom 0 s repl = s.
Proof.
  induction s as [|c s IH]; intros H; [done|]. cbn [replaceAllFrom].
  destruct (matchAt (String c s)) as [[m r]|] eqn:E.
  - apply matchAt_hasClosing in E. congruence.
  - rewrite IH; [done|]. cbn [hasClosing] in H. by apply orb_false_iff in H as [_ H].
Qed.

(** X22. A legend template that is not empty and in which two closing
    braces never stand in a row is the legend as it is, whatever the tags:
    an opening that is never closed is no placeholder. *)
Theorem formatLegend_without_closing_unchanged (order : MapOrder string)
    (kv : gmap string string) legendFormat :
  legendFormat <> EmptyString ->
  hasClosing legendFormat = false ->
  formatLegend order kv legendFormat = legendFormat.
Proof.
  intros Hne Hclosing. unfold formatLegend, ReplaceAllFunc.
  rewrite bool_decide_eq_false_2 by done. by apply replaceAllFrom_no_closing.
Qed.

Lemma formatLegend_without_closing_witness :
  formatLegend map_to_list {[ "host" := "a" ]} "errors on {{ host } per minute"
  = "errors on {{ host } per minute".
Proof.
  apply formatLegend_without_closing_unchanged; [done | reflexivity].
Defined.

(** ** The fields of a result row: [readFields] *)

Lemma lastField_cons_ne k d r :
  ResultField.Field d <> k -> lastField k (d :: r) = lastField k r.
Proof. intros H. unfold lastField. by rewrite filter_cons_False. Qed.

Lemma lastField_cons_eq d r :
  lastField (ResultField.Field d) (d :: r)
  = Some (default (ResultField.Value d) (lastField (ResultField.Field d) r)).
Proof.
  unfold lastField. rewrite filter_cons_True by done.
  destruct (filter _ r) as [|x l] eqn:E; [done|].
  rewrite last_cons_cons. destruct (last (x :: l)) eqn:El; [done|].
  by apply last_None in El.
Qed.

Lemma readFields_spec ParseFloat target r :
  forall timestamp value (kv : gmap string string) timestamp' value' kv',
    readFields ParseFloat target r timestamp value kv = inr (timestamp', value', kv') ->
    (Forall (fun d => ResultField.Field d <> Target.TimestampColumn target) r ->
     timestamp' = timestamp)
    /\ (Forall (fun d => ResultField.Field d = Target.TimestampColumn target
                         \/ ResultField.Field d <> Target.ValueColumn target) r ->
        value' = value)
    /\ forall k,
         kv' !! k
         = if bool_decide (k = Target.TimestampColumn target \/ k = Target.ValueColumn target)
           then kv !! k
           else match lastField k r with
                | Some v => Some v
                | None => kv !! k
                end.
Proof.
  induction r as [|d r IH]; intros timestamp value kv timestamp' value' kv' Hread.
  - cbn in Hread. injection Hread as <- <- <-. repeat split; try done.
    intros k. by destruct (bool_decide _).
  - cbn [readFields] in Hread.
    destruct (decide (ResultField.Field d = Target.TimestampColumn target)) as [Ht | Ht].
    + rewrite bool_decide_eq_true_2 in Hread by done.
      destruct (timeParse (ResultField.Value d)) as [e | t]; [done|].
      cbn [mbind result_bind] in Hread.
      destruct (IH _ _ _ _ _ _ Hread) as (Hts & Hv & Hkv). split; [|split].
      * intros Hnone. by apply Forall_cons in Hnone as [? _].
      * intros Hnone. apply Forall_cons in Hnone as [_ Hnone]. by apply Hv.
      * intros k. rewrite Hkv. case_bool_decide as Hk; [done|].
        rewrite lastField_cons_ne; [done|]. intros <-. apply Hk. by left.
    + rewrite bool_decide_eq_false_2 in Hread by done.
      destruct (decide (ResultField.Field d = Target.ValueColumn target)) as [Hv | Hv].
      * rewrite bool_decide_eq_true_2 in Hread by done.
        destruct (ParseFloat (ResultField.Value d)) as [e | v]; [done|].
        cbn [mbind result_bind] in Hread.
        destruct (IH _ _ _ _ _ _ Hread) as (Hts & Hval & Hkv). split; [|split].
        -- intros Hnone. apply Forall_cons in Hnone as [_ Hnone]. by apply Hts.
        -- intros Hnone. apply Forall_cons in Hnone as [[? | ?] _]; done.
        -- intros k. rewrite Hkv. case_bool_decide as Hk; [done|].
           rewrite lastField_cons_ne; [done|]. intros <-. apply Hk. by right.
      * rewrite bool_decide_eq_false_2 in Hread by done.
        destruct (IH _ _ _ _ _ _ Hread) as (Hts & Hval & Hkv). split; [|split].
        -- intros Hnone. apply Forall_cons in Hnone as [_ Hnone]. by apply Hts.
        -- intros Hnone. apply Forall_cons in Hnone as [_ Hnone]. by apply Hval.
        -- intros k. rewrite Hkv. case_bool_decide as Hk.
           ++ rewrite lookup_insert_ne; [done|]. intros <-. tauto.
           ++ destruct (decide (ResultField.Field d = k)) as [<- | Hne].
              ** rewrite lastField_cons_eq, lookup_insert_eq.
                 by destruct (lastField (ResultField.Field d) r).
              ** by rewrite lastField_cons_ne, lookup_insert_ne.
Qed.

(** X23. What a result row that reads leaves behind. Its tags are its
    fields other than the two columns, each under the value of the last
    field of that name, and the two column names are never tags. Without a
    field of the timestamp column the point stands at timestamp 0, and
    without a field that is read as the value (a field named as both columns
    is read as the time) its value is zero: no error is raised for a column
    that is missing. *)
Theorem readFields_tags_and_defaults ParseFloat target r timestamp value kv :
  readFields ParseFloat target r 0 float64_zero ∅ = inr (timestamp, value, kv) ->
  (Forall (fun d => ResultField.Field d <> Target.TimestampColumn target) r ->
   timestamp = 0)
  /\ (Forall (fun d => ResultField.Field d = Target.TimestampColumn target
                       \/ ResultField.Field d <> Target.ValueColumn target) r ->
      value = float64_zero)
  /\ forall k,
       kv !! k
       = if bool_decide (k = Target.TimestampColumn target \/ k = Target.ValueColumn target)
         then None
         else lastField k r.
Proof.
  intros Hread. destruct (readFields_spec _ _ _ _ _ _ _ _ _ Hread) as (Hts & Hv & Hkv).
  split; [done|]. split; [done|]. intros k. rewrite Hkv, lookup_empty.
  case_bool_decide; [done|]. by destruct (lastField k r).
Qed.

Lemma readFields_tags_and_defaults_witness :
  (Forall (fun d => ResultField.Field d <> "bin")
     [ ResultField.mk "host" "a"; ResultField.mk "count" "2";
       ResultField.mk "host" "b" ] -> 0 = 0)
  /\ (Forall (fun d => ResultField.Field d = "bin" \/ ResultField.Field d <> "count")
        [ ResultField.mk "host" "a"; ResultField.mk "count" "2";
          ResultField.mk "host" "b" ] ->
      float64_two = float64_zero)
  /\ forall k,
       ({[ "host" := "b" ]} : gmap string string) !! k
       = if bool_decide (k = "bin" \/ k = "count") then None
         else lastField k [ ResultField.mk "host" "a"; ResultField.mk "count" "2";
                            ResultField.mk "host" "b" ].
Proof.
  apply (readFields_tags_and_defaults sampleParseFloat
           (insightsTarget "q-1" "timeserie" EmptyString)
           [ ResultField.mk "host" "a"; ResultField.mk "count" "2";
             ResultField.mk "host" "b" ]
           0 float64_two {[ "host" := "b" ]}).
  vm_compute. reflexivity.
Defined.

